(** * apewisdomscraper2.py: the data pipeline behind the sentiment dashboard

    A shallow embedding of the ranking parser, the per-ticker record
    construction, the sort settings, the sorted view, the successor lookup
    and the colour mapping of [apewisdomscraper2.py].

    Python values are modelled as follows.
    - A Python [float] is an IEEE 754 binary64 number: [spec_float] with
      [prec = 53] and [emax = 1024], including both zeros, both infinities
      and NaN.
    - A Python [str] is the [string] of the bytes of its UTF-8 encoding;
      [strip] and [isdigit] classify its code points as Unicode does.
    - The module-level dict [ticker_data] is an association list in insertion
      order with unique keys; assignment to an existing key keeps its slot.
    - Exceptions are the [Raise] results of the [exc] type.
    - The HTTP client, the HTML parser, the price provider, the clock, the
      widget toolkit and the builtin [float(str)] are parameters of the
      model (section variables). *)

From Stdlib Require Import ZArith List String Ascii Bool Lia Arith PeanoNat.
From Stdlib Require Import Floats.SpecFloat.
Import ListNotations.

Local Open Scope Z_scope.
Local Open Scope list_scope.

(* ================================================================= *)
(** ** Python floats *)

Module PyFloat.

Definition prec : Z := 53.
Definition emax : Z := 1024.

Definition float : Type := spec_float.

Definition of_Z (z : Z) : float := binary_normalize prec emax z 0 false.

Definition zero : float := S754_zero false.
Definition one : float := Eval cbv in of_Z 1.
Definition twenty : float := Eval cbv in of_Z 20.
Definition hundred : float := Eval cbv in of_Z 100.
Definition nan : float := S754_nan.
Definition inf : float := S754_infinity false.
(** [-float('inf')] *)
Definition neg_inf : float := SFopp inf.

Definition sub : float -> float -> float := SFsub prec emax.
Definition mul : float -> float -> float := SFmul prec emax.
Definition div : float -> float -> float := SFdiv prec emax.
Definition abs : float -> float := SFabs.
Definition ltb : float -> float -> bool := SFltb.
Definition leb : float -> float -> bool := SFleb.
Definition eqb : float -> float -> bool := SFeqb.

Definition is_nan (x : float) : bool :=
  match x with S754_nan => true | _ => false end.

Definition is_neg_inf (x : float) : bool :=
  match x with S754_infinity true => true | _ => false end.

(** The builtin [min(a, b)] on two floats: the first argument is kept
    unless the second is strictly smaller. *)
Definition min (a b : float) : float := if ltb b a then b else a.

(** A rank that orders the floats other than NaN: class, then exponent, then
    mantissa. *)
Definition rank (x : float) : Z * Z * Z :=
  match x with
  | S754_nan => (0, 0, 0)
  | S754_zero _ => (0, 0, 0)
  | S754_infinity true => (-2, 0, 0)
  | S754_infinity false => (2, 0, 0)
  | S754_finite true m e => (-1, - e, Zneg m)
  | S754_finite false m e => (1, e, Zpos m)
  end.

(** Neither NaN nor negative. *)
Definition nonneg (x : float) : Prop :=
  match x with
  | S754_zero s => s = false
  | S754_infinity s => s = false
  | S754_nan => False
  | S754_finite s _ _ => s = false
  end.

Definition lt3 (a b : Z * Z * Z) : Prop :=
  let '(a1, a2, a3) := a in
  let '(b1, b2, b3) := b in
  a1 < b1 \/ (a1 = b1 /\ (a2 < b2 \/ (a2 = b2 /\ a3 < b3))).

End PyFloat.

(* ================================================================= *)
(** ** Python strings *)

Module PyStr.

(** A Python [str] is a sequence of Unicode code points.  It is modelled by
    the [string] of the bytes of its UTF-8 encoding: equality,
    concatenation and the removal of an ASCII character are then those of
    [string], and [strip] and [isdigit], which look at code points, decode
    the bytes first. *)

Definition byte (c : ascii) : Z := Z.of_N (N_of_ascii c).

(** A byte [10xxxxxx] *)
Definition continuation (c : ascii) : bool :=
  andb (128 <=? byte c) (byte c <? 192).

(** The characters of a string: every code point with the bytes that
    encode it.  A byte that starts no well-formed sequence (a stray
    continuation byte, an overlong form, a value above U+10FFFF) is kept as
    a character of its own with [-1] as its code point: it is no white
    space and no digit. *)
Fixpoint chars (s : string) : list (Z * string) :=
  match s with
  | EmptyString => []
  | String c0 s1 =>
      let b0 := byte c0 in
      let stray := (-1, String c0 EmptyString) in
      if b0 <? 128 then (b0, String c0 EmptyString) :: chars s1
      else
        match s1 with
        | EmptyString => [stray]
        | String c1 s2 =>
            if negb (continuation c1) then stray :: chars s1
            else if b0 <? 224 then
              let cp := (b0 - 192) * 64 + (byte c1 - 128) in
              if 128 <=? cp
              then (cp, String c0 (String c1 EmptyString)) :: chars s2
              else stray :: chars s1
            else
              match s2 with
              | EmptyString => stray :: chars s1
              | String c2 s3 =>
                  if negb (continuation c2) then stray :: chars s1
                  else if b0 <? 240 then
                    let cp := (b0 - 224) * 4096 + (byte c1 - 128) * 64
                              + (byte c2 - 128) in
                    if 2048 <=? cp
                    then (cp, String c0 (String c1 (String c2 EmptyString)))
                         :: chars s3
                    else stray :: chars s1
                  else
                    match s3 with
                    | EmptyString => stray :: chars s1
                    | String c3 s4 =>
                        if negb (continuation c3) then stray :: chars s1
                        else
                          let cp := (b0 - 240) * 262144
                                    + (byte c1 - 128) * 4096
                                    + (byte c2 - 128) * 64
                                    + (byte c3 - 128) in
                          if andb (65536 <=? cp) (cp <=? 1114111)
                          then (cp, String c0 (String c1 (String c2
                                      (String c3 EmptyString))))
                               :: chars s4
                          else stray :: chars s1
                    end
              end
        end
  end.

(** The bytes of a sequence of characters. *)
Fixpoint join (l : list (Z * string)) : string :=
  match l with
  | [] => EmptyString
  | c :: l' => append (snd c) (join l')
  end.

Definition in_ranges (ranges : list (Z * Z)) (cp : Z) : bool :=
  existsb (fun r => andb (fst r <=? cp) (cp <=? snd r)) ranges.

(** The code points [str.strip()] removes and [str.isspace()] accepts
    (Unicode 14.0, the database of CPython 3.11): the ASCII white space
    with the separators U+001C to U+001F, NEL, the no-break space and the
    space characters beyond Latin-1. *)
Definition space_ranges : list (Z * Z) :=
  [(0x0009, 0x000D); (0x001C, 0x0020); (0x0085, 0x0085); (0x00A0, 0x00A0);
   (0x1680, 0x1680); (0x2000, 0x200A); (0x2028, 0x2029); (0x202F, 0x202F);
   (0x205F, 0x205F); (0x3000, 0x3000)].

Definition is_space (cp : Z) : bool := in_ranges space_ranges cp.

(** The code points of which [str.isdigit()] is true (Unicode 14.0): the
    decimal digits of every script, and the superscript, subscript,
    circled and other characters with a digit value. *)
Definition digit_ranges : list (Z * Z) :=
  [(0x0030, 0x0039); (0x00B2, 0x00B3); (0x00B9, 0x00B9); (0x0660, 0x0669);
   (0x06F0, 0x06F9); (0x07C0, 0x07C9); (0x0966, 0x096F); (0x09E6, 0x09EF);
   (0x0A66, 0x0A6F); (0x0AE6, 0x0AEF); (0x0B66, 0x0B6F); (0x0BE6, 0x0BEF);
   (0x0C66, 0x0C6F); (0x0CE6, 0x0CEF); (0x0D66, 0x0D6F); (0x0DE6, 0x0DEF);
   (0x0E50, 0x0E59); (0x0ED0, 0x0ED9); (0x0F20, 0x0F29); (0x1040, 0x1049);
   (0x1090, 0x1099); (0x1369, 0x1371); (0x17E0, 0x17E9); (0x1810, 0x1819);
   (0x1946, 0x194F); (0x19D0, 0x19DA); (0x1A80, 0x1A89); (0x1A90, 0x1A99);
   (0x1B50, 0x1B59); (0x1BB0, 0x1BB9); (0x1C40, 0x1C49); (0x1C50, 0x1C59);
   (0x2070, 0x2070); (0x2074, 0x2079); (0x2080, 0x2089); (0x2460, 0x2468);
   (0x2474, 0x247C); (0x2488, 0x2490); (0x24EA, 0x24EA); (0x24F5, 0x24FD);
   (0x24FF, 0x24FF); (0x2776, 0x277E); (0x2780, 0x2788); (0x278A, 0x2792);
   (0xA620, 0xA629); (0xA8D0, 0xA8D9); (0xA900, 0xA909); (0xA9D0, 0xA9D9);
   (0xA9F0, 0xA9F9); (0xAA50, 0xAA59); (0xABF0, 0xABF9); (0xFF10, 0xFF19);
   (0x104A0, 0x104A9); (0x10A40, 0x10A43); (0x10D30, 0x10D39);
   (0x10E60, 0x10E68); (0x11052, 0x1105A); (0x11066, 0x1106F);
   (0x110F0, 0x110F9); (0x11136, 0x1113F); (0x111D0, 0x111D9);
   (0x112F0, 0x112F9); (0x11450, 0x11459); (0x114D0, 0x114D9);
   (0x11650, 0x11659); (0x116C0, 0x116C9); (0x11730, 0x11739);
   (0x118E0, 0x118E9); (0x11950, 0x11959); (0x11C50, 0x11C59);
   (0x11D50, 0x11D59); (0x11DA0, 0x11DA9); (0x16A60, 0x16A69);
   (0x16AC0, 0x16AC9); (0x16B50, 0x16B59); (0x1D7CE, 0x1D7FF);
   (0x1E140, 0x1E149); (0x1E2F0, 0x1E2F9); (0x1E950, 0x1E959);
   (0x1F100, 0x1F10A); (0x1FBF0, 0x1FBF9)].

Definition is_digit (cp : Z) : bool := in_ranges digit_ranges cp.

(** An ASCII digit, as a byte. *)
Definition is_digit_char (c : ascii) : bool :=
  let n := nat_of_ascii c in
  andb (Nat.leb 48 n) (Nat.leb n 57).

(** [s.isdigit()]: at least one character, and every character a digit. *)
Definition isdigit (s : string) : bool :=
  match chars s with
  | [] => false
  | cs => forallb (fun c => is_digit (fst c)) cs
  end.

(** Drops the leading white space. *)
Fixpoint drop_spaces (l : list (Z * string)) : list (Z * string) :=
  match l with
  | [] => []
  | c :: l' => if is_space (fst c) then drop_spaces l' else l
  end.

(** Drops the trailing bytes that satisfy [p]. *)
Fixpoint rstrip_by (p : ascii -> bool) (s : string) : string :=
  match s with
  | EmptyString => EmptyString
  | String c s' =>
      match rstrip_by p s' with
      | EmptyString => if p c then EmptyString else String c EmptyString
      | r => String c r
      end
  end.

(** [s.strip()]: the string without its leading and trailing white
    space. *)
Definition strip (s : string) : string :=
  join (rev (drop_spaces (rev (drop_spaces (chars s))))).

(** [s.rstrip(c)] for one ASCII character [c]: in UTF-8 the byte of an
    ASCII character occurs only as that character. *)
Definition rstrip_char (c : ascii) (s : string) : string :=
  rstrip_by (Ascii.eqb c) s.

(** [s.replace(c, '')] for one ASCII character [c] *)
Fixpoint remove_char (c : ascii) (s : string) : string :=
  match s with
  | EmptyString => EmptyString
  | String d s' =>
      if Ascii.eqb c d then remove_char c s' else String d (remove_char c s')
  end.

End PyStr.

(* ================================================================= *)
(** ** Exceptions *)

Inductive exn : Type :=
| ValueError
| KeyError
| TypeError
| ZeroDivisionError
| LibraryError (name : string).  (** raised inside a library call *)

Inductive exc (A : Type) : Type :=
| Ok (a : A)
| Raise (e : exn).

Arguments Ok {A} a.
Arguments Raise {A} e.

Definition bind {A B : Type} (m : exc A) (k : A -> exc B) : exc B :=
  match m with
  | Ok a => k a
  | Raise e => Raise e
  end.

Declare Scope exc_scope.
Delimit Scope exc_scope with exc.
Notation "x <- m ;; k" := (bind m (fun x => k))
  (at level 61, m at next level, right associativity) : exc_scope.

Fixpoint mapM {A B : Type} (f : A -> exc B) (l : list A) : exc (list B) :=
  match l with
  | [] => Ok []
  | x :: l' =>
      match f x with
      | Raise e => Raise e
      | Ok y =>
          match mapM f l' with
          | Raise e => Raise e
          | Ok ys => Ok (y :: ys)
          end
      end
  end.

(* ================================================================= *)
(** ** The builtin [sorted]

    CPython's list sort (as of 3.11) on fewer than 64 elements, where no
    merge step is reached: [count_run] finds the initial run, reversing it
    when it is strictly descending, and [binarysort] inserts every later
    element at the slot a binary search finds.  The only comparison used is
    [<].  [ticker_data] never holds more than ten entries.  When [<] is a
    strict weak order on the keys (for floats: when none is NaN) the result
    is that of the stable insertion sort, whatever the length and the
    version of the interpreter ([list_sort_insertion]). *)

Module PySort.

Section Sort.
Context {A : Type}.
Variable lt : A -> A -> bool.

(** The rest of a non-descending run that follows [prev], and what is
    left after it. *)
Fixpoint run_asc (prev : A) (l : list A) : list A * list A :=
  match l with
  | [] => ([], [])
  | x :: l' =>
      if lt x prev then ([], l)
      else let '(r, t) := run_asc x l' in (x :: r, t)
  end.

(** The rest of a strictly descending run that follows [prev]. *)
Fixpoint run_desc (prev : A) (l : list A) : list A * list A :=
  match l with
  | [] => ([], [])
  | x :: l' =>
      if lt x prev then let '(r, t) := run_desc x l' in (x :: r, t)
      else ([], l)
  end.

(** [count_run] with the reversal of a descending run: the initial run in
    ascending order, and the elements after it. *)
Definition count_run (l : list A) : list A * list A :=
  match l with
  | [] => ([], [])
  | [a] => ([a], [])
  | a :: b :: l' =>
      if lt b a
      then let '(r, t) := run_desc b l' in (rev (a :: b :: r), t)
      else let '(r, t) := run_asc b l' in (a :: b :: r, t)
  end.

(** The binary search of [binarysort] in [run] between [l] and [r]: the
    loop [p = l + ((r - l) >> 1); if pivot < run[p]: r = p else l = p + 1]
    while [l < r]. *)
Fixpoint bisect (fuel : nat) (pivot : A) (run : list A) (l r : nat) : nat :=
  match fuel with
  | O => l
  | S fuel' =>
      if Nat.ltb l r then
        let p := (l + Nat.div2 (r - l))%nat in
        match nth_error run p with
        | Some x =>
            if lt pivot x then bisect fuel' pivot run l p
            else bisect fuel' pivot run (S p) r
        | None => l
        end
      else l
  end.

Definition binary_insert (run : list A) (pivot : A) : list A :=
  let k := bisect (List.length run) pivot run 0 (List.length run) in
  firstn k run ++ pivot :: skipn k run.

Definition binarysort (run rest : list A) : list A :=
  fold_left binary_insert rest run.

Definition list_sort (l : list A) : list A :=
  let '(run, rest) := count_run l in binarysort run rest.

(** The stable insertion sort, for comparison: each element goes before
    the first element greater than it. *)
Fixpoint insert (x : A) (l : list A) : list A :=
  match l with
  | [] => [x]
  | y :: l' => if lt x y then x :: l else y :: insert x l'
  end.

Definition insertion_sort (l : list A) : list A :=
  fold_left (fun run x => insert x run) l [].

(** No element is smaller than an earlier one. *)
Fixpoint ascending (l : list A) : Prop :=
  match l with
  | [] => True
  | x :: l' => Forall (fun y => lt y x = false) l' /\ ascending l'
  end.

End Sort.

(** [sorted(items, key=key, reverse=reverse)]: the keys are computed once,
    in order; a descending sort reverses the list, sorts it and reverses the
    result. *)
Definition key_lt {K V : Type} (lt : K -> K -> bool) (a b : K * V) : bool :=
  lt (fst a) (fst b).

Definition sorted_keyed {K V : Type} (lt : K -> K -> bool) (reverse : bool)
    (l : list (K * V)) : list (K * V) :=
  if reverse then rev (list_sort (key_lt lt) (rev l))
  else list_sort (key_lt lt) l.

(** An element with its key. *)
Definition decorate {K V : Type} (key : V -> exc K) (v : V) : exc (K * V) :=
  match key v with
  | Ok k => Ok (k, v)
  | Raise e => Raise e
  end.

Definition sorted {K V : Type} (lt : K -> K -> bool) (key : V -> exc K)
    (reverse : bool) (l : list V) : exc (list V) :=
  match mapM (decorate key) l with
  | Ok kl => Ok (map snd (sorted_keyed lt reverse kl))
  | Raise e => Raise e
  end.

End PySort.

(* ================================================================= *)
(** ** The data model *)

Import PyFloat.

Local Open Scope string_scope.

(** A pandas timestamp, as seconds since the epoch. *)
Definition timestamp : Type := Z.

(** One element of the list [fetch_apewisdom_data] returns. *)
Record item : Type := {
  item_ticker : string;
  item_mentions : string;
  item_sentiment_change : float
}.

(** The dict stored for a ticker whose prices were fetched. *)
Record ticker_info : Type := {
  prices : list float;
  timestamps : list timestamp;
  price_change : float;
  sentiment_change : float;
  mentions : string
}.

(** A value of [ticker_data]: the string ["Error fetching data"], or the
    dict. *)
Inductive ticker_value : Type :=
| ErrorStr (msg : string)
| Info (d : ticker_info).

(** A dict keyed by ticker, in insertion order. *)
Definition dict : Type := list (string * ticker_value).

(** [d[k] = v]: an existing key keeps its place, a new one goes last. *)
Fixpoint dict_set (k : string) (v : ticker_value) (d : dict) : dict :=
  match d with
  | [] => [(k, v)]
  | (k', v') :: d' =>
      if String.eqb k k' then (k, v) :: d' else (k', v') :: dict_set k v d'
  end.

(** [current_sort] *)
Record sort_state : Type := {
  field : string;
  reverse : bool
}.

(** The module's global variables, with the two widgets the data path
    writes. *)
Record globals : Type := {
  ticker_data : dict;
  last_update_time : option float;   (** [None] is ["Never"] *)
  current_sort : sort_state;
  status_text : string;
  loading_wheel : bool
}.

(** The state the module starts in. *)
Definition initial_globals : globals := {|
  ticker_data := [];
  last_update_time := None;
  current_sort := {| field := "mentions"; reverse := true |};
  status_text := "Last update: Never";
  loading_wheel := false
|}.

(** The values a [ticker_info] dict holds under its keys. *)
Inductive pyval : Type :=
| VFloat (f : float)
| VStr (s : string)
| VFloats (l : list float)
| VTimes (l : list timestamp).

(** [data[key]] *)
Definition getitem (d : ticker_info) (key : string) : exc pyval :=
  if String.eqb key "prices" then Ok (VFloats (prices d))
  else if String.eqb key "timestamps" then Ok (VTimes (timestamps d))
  else if String.eqb key "price_change" then Ok (VFloat (price_change d))
  else if String.eqb key "sentiment_change" then Ok (VFloat (sentiment_change d))
  else if String.eqb key "mentions" then Ok (VStr (mentions d))
  else Raise KeyError.

(** [a / b] on floats *)
Definition truediv (a b : float) : exc float :=
  if eqb b zero then Raise ZeroDivisionError else Ok (div a b).

(** [lst.index(x)] as an option: [None] is the [ValueError]. *)
Fixpoint index (x : string) (l : list string) : option nat :=
  match l with
  | [] => None
  | y :: l' =>
      if String.eqb y x then Some O
      else match index x l' with
           | Some i => Some (S i)
           | None => None
           end
  end.

(** An HTTP response: the status code and the body. *)
Record response : Type := {
  status_code : Z;
  text : string
}.

(* ================================================================= *)
(** ** The program *)

Section Scraper.

(** [float(s)] on a string; [None] is the [ValueError]. *)
Variable float_of_string : string -> option float.

(** [requests.get(url, headers=headers, timeout=10)] *)
Variable requests_get : exc response.
(** [response.raise_for_status()] *)
Variable raise_for_status : response -> exc unit.
(** The texts of [soup.find_all("td", class_="td-right")] for a body. *)
Variable find_all_td_right : string -> exc (list string).
(** The texts of the [percentage-green] and [percentage-red] spans. *)
Variable find_all_percentage : string -> exc (list string).
(** [yf.Ticker(t).history(period="5d", interval="15m")]: the rows as
    index and closing price. *)
Variable history : string -> exc (list (timestamp * float)).
(** [time.time()] *)
Variable time_time : float.
(** Drawing the rows of the sorted view. *)
Variable render : list (string * ticker_value) -> exc unit.

(** [float(x)] *)
Definition py_float (x : pyval) : exc float :=
  match x with
  | VFloat f => Ok f
  | VStr s =>
      match float_of_string s with
      | Some f => Ok f
      | None => Raise ValueError
      end
  | VFloats _ => Raise TypeError
  | VTimes _ => Raise TypeError
  end.

(** *** fetch_stock_data *)

Definition fetch_stock_data (ticker : string)
  : option (list float) * option (list timestamp) :=
  let clean_ticker := PyStr.remove_char "$"%char ticker in
  match history clean_ticker with
  | Ok hist =>
      if Nat.ltb 0 (List.length hist)
      then (Some (map snd hist), Some (map fst hist))
      else (None, None)
  | Raise _ => (None, None)
  end.

(** *** fetch_apewisdom_data *)

(** One pass of the sentiment loop: [ValueError] gives [0.0]. *)
Definition parse_sentiment (span_text : string) : float :=
  match float_of_string (PyStr.rstrip_char "%"%char (PyStr.strip span_text)) with
  | Some f => f
  | None => zero
  end.

(** The loop over [range(0, len(raw_data), 3)]: a group is read only when
    its three cells exist. *)
Fixpoint ranking_loop (raw_data : list string) (sentiments : list float)
    (sentiment_idx : nat) : list item :=
  match raw_data with
  | _ :: ticker :: mentions :: rest =>
      if PyStr.isdigit ticker
      then ranking_loop rest sentiments sentiment_idx
      else {| item_ticker := ticker;
              item_mentions := mentions;
              item_sentiment_change := nth sentiment_idx sentiments zero |}
           :: ranking_loop rest sentiments (S sentiment_idx)
  | _ => []
  end.

(** From the cell texts and the span texts to the returned list. *)
Definition parse_ranking (cells spans : list string) : list item :=
  let raw_data := map PyStr.strip (firstn 30 cells) in
  let sentiments := map parse_sentiment spans in
  firstn 10 (ranking_loop raw_data sentiments 0).

(** The body of the [try]. *)
Definition fetch_apewisdom_try : exc (list item) :=
  (resp <- requests_get ;;
   _ <- raise_for_status resp ;;
   cells <- find_all_td_right (text resp) ;;
   spans <- find_all_percentage (text resp) ;;
   Ok (parse_ranking cells spans))%exc.

(** [except Exception] returns [None]. *)
Definition fetch_apewisdom_data : option (list item) :=
  match fetch_apewisdom_try with
  | Ok l => Some l
  | Raise _ => None
  end.

(** *** sorted_ticker_data *)

Definition get_sort_key_try (cs : sort_state) (data : ticker_info) : exc float :=
  if String.eqb (field cs) "mentions"
  then py_float (VStr (PyStr.remove_char ","%char (mentions data)))
  else (v <- getitem data (field cs) ;; py_float v)%exc.

Definition get_sort_key (cs : sort_state) (it : string * ticker_value)
  : exc float :=
  match snd it with
  | ErrorStr _ => Ok neg_inf
  | Info data =>
      match get_sort_key_try cs data with
      | Raise ValueError => Ok neg_inf
      | Raise KeyError => Ok neg_inf
      | r => r
      end
  end.

Definition sorted_ticker_data (g : globals)
  : exc (list (string * ticker_value)) :=
  PySort.sorted ltb (get_sort_key (current_sort g))
    (reverse (current_sort g)) (ticker_data g).

(** *** refresh_ui *)

Definition set_status (s : string) (g : globals) : globals :=
  {| ticker_data := ticker_data g;
     last_update_time := last_update_time g;
     current_sort := current_sort g;
     status_text := s;
     loading_wheel := loading_wheel g |}.

Definition set_loading (b : bool) (g : globals) : globals :=
  {| ticker_data := ticker_data g;
     last_update_time := last_update_time g;
     current_sort := current_sort g;
     status_text := status_text g;
     loading_wheel := b |}.

(** Any exception while drawing is caught and reported in the status
    line. *)
Definition refresh_ui (g : globals) : globals :=
  match (view <- sorted_ticker_data g ;; render view)%exc with
  | Ok _ => g
  | Raise _ => set_status "Error updating display!" g
  end.

(** *** update_data *)

(** The body of the loop over [ape_data], for one item and the result of
    [fetch_stock_data]. *)
Definition update_entry (it : item)
    (fetched : option (list float) * option (list timestamp))
  : exc ticker_value :=
  match fetched with
  | (Some (p0 :: ps), Some (t0 :: ts)) =>
      let current_price := last (p0 :: ps) p0 in
      let prev_price := p0 in
      (q <- truediv (sub current_price prev_price) prev_price ;;
       Ok (Info {| prices := p0 :: ps;
                   timestamps := t0 :: ts;
                   price_change := mul q hundred;
                   sentiment_change := item_sentiment_change it;
                   mentions := item_mentions it |}))%exc
  | _ => Ok (ErrorStr "Error fetching data")
  end.

(** The loop: the dict built so far, and the exception that stopped it. *)
Fixpoint update_loop (ape_data : list item) (d : dict) : dict * option exn :=
  match ape_data with
  | [] => (d, None)
  | it :: rest =>
      match update_entry it (fetch_stock_data (item_ticker it)) with
      | Ok v => update_loop rest (dict_set (item_ticker it) v d)
      | Raise e => (d, Some e)
      end
  end.

Definition set_data (d : dict) (t : option float) (g : globals) : globals :=
  {| ticker_data := d;
     last_update_time := t;
     current_sort := current_sort g;
     status_text := status_text g;
     loading_wheel := loading_wheel g |}.

(** The globals after the call, and the exception that left it, if any. *)
Definition update_data (g : globals) : globals * option exn :=
  let g1 := set_loading true g in
  match fetch_apewisdom_data with
  | None | Some [] =>
      (set_loading false
         (set_status "Error fetching tickers from ApeWisdom!" g1), None)
  | Some ape_data =>
      match update_loop ape_data [] with
      | (d, Some e) => (set_data d (last_update_time g1) g1, Some e)
      | (d, None) =>
          (set_loading false (refresh_ui (set_data d (Some time_time) g1)),
           None)
      end
  end.

(** *** get_color_from_percentage *)

(** The integer [0] of the unused channels is the float [0.0]. *)
Definition get_color_from_percentage (percentage : float) : list float :=
  if ltb zero percentage then
    let intensity := PyFloat.min (div (abs percentage) twenty) one in
    [zero; intensity; zero]
  else
    let intensity := PyFloat.min (div (abs percentage) twenty) one in
    [intensity; zero; zero].

(** *** sort_tickers *)

Definition sort_tickers (fld : string) (g : globals) : globals :=
  let cs := current_sort g in
  let cs' :=
    if String.eqb (field cs) fld
    then {| field := field cs; reverse := negb (reverse cs) |}
    else {| field := fld; reverse := true |} in
  refresh_ui {| ticker_data := ticker_data g;
                last_update_time := last_update_time g;
                current_sort := cs';
                status_text := status_text g;
                loading_wheel := loading_wheel g |}.

(** *** get_next_ticker *)

(** The result, and the globals after the call. *)
Definition get_next_ticker (current_ticker : string) (g : globals)
  : option string * globals :=
  let tickers := map fst (ticker_data g) in
  match index current_ticker tickers with
  | Some current_index =>
      if Z.ltb (Z.of_nat current_index) (Z.of_nat (List.length tickers) - 1)
      then (Some ("row_" ++ nth (current_index + 1) tickers ""), g)
      else (None, g)
  | None => (None, g)
  end.

End Scraper.

(* ================================================================= *)
(** ** Notions the properties are stated with *)

(** The layout convention of the ranking table: the cells in groups of
    three, rank, ticker symbol and mention count; the ticker and the
    mentions of every complete group. *)
Fixpoint groups_of_three (cells : list string) : list (string * string) :=
  match cells with
  | _ :: ticker :: mentions :: rest => (ticker, mentions) :: groups_of_three rest
  | _ => []
  end.

(** A keyed element whose key is not NaN. *)
Definition good {V : Type} (p : float * V) : Prop := is_nan (fst p) = false.

(** A stored value is the error string. *)
Definition is_error (v : ticker_value) : bool :=
  match v with
  | ErrorStr _ => true
  | Info _ => false
  end.

(** The sort key of an item is [k]. *)
Definition has_key (float_of_string : string -> option float)
    (cs : sort_state) (k : float) (it : string * ticker_value) : Prop :=
  get_sort_key float_of_string cs it = Ok k.

(** The sort key of an item equals [k] in the sense of [==]. *)
Definition key_eqb (float_of_string : string -> option float)
    (cs : sort_state) (k : float) (it : string * ticker_value) : bool :=
  match get_sort_key float_of_string cs it with
  | Ok k' => eqb k' k
  | Raise _ => false
  end.

(** No item of the dict has NaN as its sort key. *)
Definition keys_not_nan (float_of_string : string -> option float)
    (cs : sort_state) (d : dict) : Prop :=
  forall it k, In it d -> get_sort_key float_of_string cs it = Ok k ->
               is_nan k = false.

(** A record whose value under the sort field is a string that [float]
    rejects: the [try] of [get_sort_key] ends in a [ValueError]. *)
Definition unparseable (float_of_string : string -> option float)
    (cs : sort_state) (it : string * ticker_value) : Prop :=
  exists d, snd it = Info d /\
            get_sort_key_try float_of_string cs d = Raise ValueError.

(** The three fields the sort buttons offer. *)
Definition sort_button_field (f : string) : Prop :=
  f = "mentions" \/ f = "price_change" \/ f = "sentiment_change".

(** A colour channel lies between 0 and 1. *)
Definition in_unit (c : float) : Prop := leb zero c = true /\ leb c one = true.

(* ================================================================= *)
(** ** Sample data *)

Module Example.

Fixpoint digits_value (s : string) (acc : Z) : option Z :=
  match s with
  | EmptyString => Some acc
  | String c s' =>
      if PyStr.is_digit_char c
      then digits_value s' (10 * acc + (Z.of_nat (nat_of_ascii c) - 48))
      else None
  end.

(** [float(s)] for the strings used below: a run of digits is its value,
    the strings that are no number raise [ValueError]. *)
Definition float_of_string (s : string) : option float :=
  match s with
  | EmptyString => None
  | _ => option_map of_Z (digits_value s 0)
  end.

Definition gme_item : item :=
  {| item_ticker := "GME"; item_mentions := "1,234";
     item_sentiment_change := of_Z 5 |}.

(** A page that was fetched, and a display that draws every view. *)
Definition page : response := {| status_code := 200; text := "<html>" |}.

Definition render_ok (view : list (string * ticker_value)) : exc unit := Ok tt.

(** [update_data()] when the page holds the cells [cells], no sentiment
    span, and the price provider answers with [history]. *)
Definition refresh (cells : list string)
    (history : string -> exc (list (timestamp * float))) (g : globals)
  : globals :=
  fst (update_data float_of_string (Ok page) (fun _ => Ok tt)
         (fun _ => Ok cells) (fun _ => Ok []) history zero render_ok g).

(** A click on a sort button. *)
Definition click (fld : string) (g : globals) : globals :=
  sort_tickers float_of_string render_ok fld g.

(** Two closing prices, fifteen minutes apart. *)
Definition closes (a b : float) : exc (list (timestamp * float)) :=
  Ok [(0, a); (900, b)].

(** Three tickers: no rows for AAA, a first close of NaN for BBB, and a
    rise of 50 percent for CCC. *)
Definition nan_cells : list string :=
  ["1"; "AAA"; "30"; "2"; "BBB"; "20"; "3"; "CCC"; "10"].

Definition nan_history (t : string) : exc (list (timestamp * float)) :=
  if String.eqb t "BBB" then closes nan (of_Z 100)
  else if String.eqb t "CCC" then closes (of_Z 100) (of_Z 150)
  else Ok [].

(** After the refresh and a click on the price change button: descending
    by price change. *)
Definition nan_globals : globals :=
  Eval vm_compute in
    click "price_change" (refresh nan_cells nan_history initial_globals).

(** Eight tickers with the price changes 25, NaN, NaN, 100, NaN, 50, 75
    and 50. *)
Definition eight_cells : list string :=
  ["1"; "A"; "80"; "2"; "B"; "70"; "3"; "C"; "60"; "4"; "D"; "50";
   "5"; "E"; "40"; "6"; "F"; "30"; "7"; "G"; "20"; "8"; "H"; "10"].

Definition eight_history (t : string) : exc (list (timestamp * float)) :=
  if String.eqb t "A" then closes (of_Z 100) (of_Z 125)
  else if String.eqb t "B" then closes nan (of_Z 100)
  else if String.eqb t "C" then closes (of_Z 100) nan
  else if String.eqb t "D" then closes (of_Z 100) (of_Z 200)
  else if String.eqb t "E" then closes nan (of_Z 100)
  else if String.eqb t "F" then closes (of_Z 100) (of_Z 150)
  else if String.eqb t "G" then closes (of_Z 100) (of_Z 175)
  else if String.eqb t "H" then closes (of_Z 100) (of_Z 150)
  else Ok [].

(** After the refresh and two clicks on the price change button: ascending
    by price change. *)
Definition eight_globals : globals :=
  Eval vm_compute in
    click "price_change"
      (click "price_change"
         (refresh eight_cells eight_history initial_globals)).

(** Four tickers without NaN: GME and AMC rise by 100 percent, TSLA falls
    by 50 percent, the provider raises for XXX; the mention count of AMC is
    no number. *)
Definition plain_cells : list string :=
  ["1"; "GME"; "1,234"; "2"; "XXX"; "55"; "3"; "AMC"; "N/A";
   "4"; "TSLA"; "77"].

Definition plain_history (t : string) : exc (list (timestamp * float)) :=
  if String.eqb t "GME" then closes (of_Z 100) (of_Z 200)
  else if String.eqb t "AMC" then closes (of_Z 100) (of_Z 200)
  else if String.eqb t "TSLA" then closes (of_Z 100) (of_Z 50)
  else Raise (LibraryError "YFTickerMissingError").

(** After the refresh: descending by mentions. *)
Definition plain_globals : globals :=
  Eval vm_compute in refresh plain_cells plain_history initial_globals.

(** After a click on the price change button: descending by price
    change. *)
Definition plain_desc : globals :=
  Eval vm_compute in click "price_change" plain_globals.

(** After another click: ascending by price change. *)
Definition plain_asc : globals :=
  Eval vm_compute in click "price_change" plain_desc.

(** The rows of [d] in the order of the tickers [ts]. *)
Definition rows (d : dict) (ts : list string) : dict :=
  flat_map (fun t => filter (fun p => String.eqb (fst p) t) d) ts.

Definition plain_view_desc : dict :=
  Eval vm_compute in
    rows (ticker_data plain_globals) ["GME"; "AMC"; "TSLA"; "XXX"].

Definition plain_view_asc : dict :=
  Eval vm_compute in
    rows (ticker_data plain_globals) ["XXX"; "TSLA"; "GME"; "AMC"].

(** One ticker whose first close is 0.0. *)
Definition zero_cells : list string := ["1"; "ZERO"; "5"].

Definition zero_history (t : string) : exc (list (timestamp * float)) :=
  closes zero (of_Z 100).

Definition zero_item : item :=
  {| item_ticker := "ZERO"; item_mentions := "5";
     item_sentiment_change := zero |}.

Definition xxx_item : item :=
  {| item_ticker := "XXX"; item_mentions := "55";
     item_sentiment_change := zero |}.

(** The cells of three table rows; the ticker cell of the second is a run
    of digits. *)
Definition fixture_cells : list string :=
  ["1"; "GME"; "1,234"; "2"; "123"; "55"; "3"; " AMC "; "900"].

Definition fixture_spans : list string := ["5%"; "oops"].

(** The entries the ranking of [plain_cells] holds. *)
Definition plain_ranking : list item :=
  Eval vm_compute in parse_ranking float_of_string plain_cells [].

(** The view of [plain_globals]: descending by mentions. *)
Definition plain_view_mentions : dict :=
  Eval vm_compute in
    rows (ticker_data plain_globals) ["GME"; "TSLA"; "XXX"; "AMC"].

(** GME twice in the ranking, with 10 and then 30 mentions. *)
Definition twice_cells : list string :=
  ["1"; "GME"; "10"; "2"; "AMC"; "20"; "3"; "GME"; "30"].

Definition ranked (ticker mentions : string) : item :=
  {| item_ticker := ticker; item_mentions := mentions;
     item_sentiment_change := zero |}.

(** A page without a ticker: the only ticker cell is a run of digits. *)
Definition digit_cells : list string := ["1"; "123"; "55"].

(** Two pixels with three channels. *)
Definition two_pixels : list Z := [10; 20; 30; 40; 50; 60].

(** [float(s)] that also reads ["nan"], as Python does. *)
Definition float_of_string_nan (s : string) : option float :=
  if String.eqb s "nan" then Some nan else float_of_string s.

(** Four tickers: no prices for XXX, and the mention counts ["nan"], ["50"]
    and ["N/A"] for the others. *)
Definition nan_mentions_cells : list string :=
  ["1"; "XXX"; "55"; "2"; "GME"; "nan"; "3"; "AMC"; "50"; "4"; "TSLA"; "N/A"].

(** After the refresh: descending by mentions. *)
Definition nan_mentions_globals : globals :=
  Eval vm_compute in refresh nan_mentions_cells plain_history initial_globals.

(** U+00A0, the no-break space, and U+00B2, the superscript two, in
    UTF-8. *)
Definition nbsp : string := String "194" (String "160" "").
Definition superscript_two : string := String "194" (String "178" "").

(** Three groups whose ticker cells are GME, 123 between no-break spaces,
    and the superscript two. *)
Definition unicode_cells : list string :=
  ["1"; "GME"; "10"; "2"; nbsp ++ "123" ++ nbsp; "20";
   "3"; superscript_two; "30"].

End Example.

(* ================================================================= *)
(** ** The display *)

(** [d[k]], as an option: the value stored under a ticker. *)
Fixpoint dict_get (k : string) (d : dict) : option ticker_value :=
  match d with
  | [] => None
  | (k', v) :: d' => if String.eqb k k' then Some v else dict_get k d'
  end.

(** The array [np.array(img)] of a decoded image, by its shape and its
    bytes in row-major order: two axes for a grey image, three for an image
    with channels. *)
Inductive image : Type :=
| Gray (height width : nat) (data : list Z)
| Color (height width channels : nat) (data : list Z).

(** What [fig_to_rgba_array] returns, or the [IndexError] of
    [img_array.shape[2]]. *)
Inductive rgba_result : Type :=
| Flat (values : list Z)
| IndexError.

(** [np.concatenate([img_array, alpha], axis=2)] followed by [flatten()],
    for three channels: 255 after the three bytes of every pixel. *)
Fixpoint add_alpha (data : list Z) : list Z :=
  match data with
  | r :: g :: b :: rest => r :: g :: b :: 255 :: add_alpha rest
  | _ => []
  end.

(** [fig_to_rgba_array], from the array of the decoded picture on. *)
Definition fig_to_rgba_array (img_array : image) : rgba_result :=
  match img_array with
  | Gray _ _ _ => IndexError
  | Color _ _ channels data =>
      if Nat.eqb channels 3 then Flat (add_alpha data) else Flat data
  end.

(** The loop of [refresh_ui] over the sorted view: the label and the
    texture tag of every tree node it adds.  A row that holds
    ["Error fetching data"] is skipped; [data['mentions']] on another
    string is a [TypeError]. *)
Fixpoint tree_nodes (view : list (string * ticker_value))
  : exc (list (string * string)) :=
  match view with
  | [] => Ok []
  | (ticker, data) :: rest =>
      match data with
      | ErrorStr msg =>
          if String.eqb msg "Error fetching data" then tree_nodes rest
          else Raise TypeError
      | Info d =>
          match tree_nodes rest with
          | Ok nodes =>
              Ok ((ticker ++ " - Mentions: " ++ mentions d,
                   "texture_" ++ ticker) :: nodes)
          | Raise e => Raise e
          end
      end
  end.

(** Drawing a view in [refresh_ui]: the tree nodes of its rows, handed to
    the widget calls [draw]. *)
Definition draw_view (draw : list (string * string) -> exc unit)
    (view : list (string * ticker_value)) : exc unit :=
  (nodes <- tree_nodes view ;; draw nodes)%exc.

(** The decimal digits of a natural number, as [str] writes them. *)
Definition digit_char (n : nat) : ascii := ascii_of_nat (48 + n).

Fixpoint nat_digits (fuel n : nat) (acc : string) : string :=
  match fuel with
  | O => acc
  | S fuel' =>
      let acc' := String (digit_char (Nat.modulo n 10)) acc in
      if Nat.ltb n 10 then acc' else nat_digits fuel' (Nat.div n 10) acc'
  end.

(** [str(z)] for an integer *)
Definition str_of_Z (z : Z) : string :=
  match z with
  | Z0 => "0"
  | Zpos p => nat_digits (Pos.to_nat p) (Pos.to_nat p) ""
  | Zneg p => String "-"%char (nat_digits (Pos.to_nat p) (Pos.to_nat p) "")
  end.

Section Clock.

(** [time.time()] *)
Variable time_time : float.
(** [a // b] and [a % b] on floats *)
Variable float_floordiv : float -> float -> float.
Variable float_mod : float -> float -> float.
(** [int(x)] on a float; it raises for NaN and the infinities. *)
Variable int_of_float : float -> exc Z.

(** *** get_time_since_update *)

Definition get_time_since_update (g : globals) : exc string :=
  match last_update_time g with
  | None => Ok "Never"
  | Some last =>
      let elapsed := sub time_time last in
      (minutes <- int_of_float (float_floordiv elapsed (of_Z 60)) ;;
       seconds <- int_of_float (float_mod elapsed (of_Z 60)) ;;
       Ok (str_of_Z minutes ++ "m " ++ str_of_Z seconds ++ "s ago"))%exc
  end.

(** *** create_ui *)

(** One turn of the main loop, before the frame is drawn. *)
Definition main_loop_turn (g : globals) : exc globals :=
  (since <- get_time_since_update g ;;
   Ok {| ticker_data := ticker_data g;
         last_update_time := last_update_time g;
         current_sort := current_sort g;
         status_text := "Last update: " ++ since;
         loading_wheel := loading_wheel g |})%exc.

End Clock.

Section Startup.

Variable float_of_string : string -> option float.
Variable requests_get : exc response.
Variable raise_for_status : response -> exc unit.
Variable find_all_td_right : string -> exc (list string).
Variable find_all_percentage : string -> exc (list string).
Variable history : string -> exc (list (timestamp * float)).
Variable render : list (string * ticker_value) -> exc unit.
(** [time.time()] in [update_data], and in the first turn of the loop *)
Variable time_update : float.
Variable time_turn : float.
Variable float_floordiv : float -> float -> float.
Variable float_mod : float -> float -> float.
Variable int_of_float : float -> exc Z.

(** The initial data load of [create_ui], followed by the first turn of
    its main loop up to the drawing of the frame. *)
Definition create_ui_first_turn (g : globals) : exc globals :=
  match update_data float_of_string requests_get raise_for_status
          find_all_td_right find_all_percentage history time_update render g
  with
  | (g1, None) =>
      main_loop_turn time_turn float_floordiv float_mod int_of_float g1
  | (_, Some e) => Raise e
  end.

End Startup.

(** Every error string of the dict is the one [update_data] writes. *)
Definition well_formed (d : dict) : Prop :=
  Forall (fun p => match snd p with
                   | ErrorStr msg => msg = "Error fetching data"
                   | Info _ => True
                   end) d.

(** The first closing price of the series the provider returns for the
    ticker of an item is zero. *)
Definition zero_first_close
    (history : string -> exc (list (timestamp * float))) (it : item) : Prop :=
  exists t0 p0 rows,
    history (PyStr.remove_char "$"%char (item_ticker it)) = Ok ((t0, p0) :: rows)
    /\ eqb p0 zero = true.

(** The name of the sort field is a key of no record. *)
Definition unknown_field (f : string) : Prop :=
  f <> "mentions" /\ f <> "price_change" /\ f <> "sentiment_change" /\
  f <> "prices" /\ f <> "timestamps".

(** The keys of a view do not decrease, or do not increase when [reverse]
    is set. *)
Definition ordered_view (float_of_string : string -> option float)
    (cs : sort_state) (view : list (string * ticker_value)) : Prop :=
  forall pre a mid b post ka kb,
    view = (pre ++ a :: mid ++ b :: post)%list ->
    get_sort_key float_of_string cs a = Ok ka ->
    get_sort_key float_of_string cs b = Ok kb ->
    if reverse cs then leb kb ka = true else leb ka kb = true.

(* ================================================================= *)
(** ** Facts about floats *)

Module PyFloatFacts.

Local Open Scope Z_scope.
Local Open Scope list_scope.

Lemma compare_rank (x y : float) :
  is_nan x = false -> is_nan y = false ->
  exists c, SFcompare x y = Some c /\
    (c = Lt <-> lt3 (rank x) (rank y)) /\
    (c = Gt <-> lt3 (rank y) (rank x)).
Proof.
  intros Hx Hy.
  destruct x as [[]|[]| |[] mx ex]; try discriminate;
  destruct y as [[]|[]| |[] my ey]; try discriminate;
  cbn [SFcompare rank lt3];
  try change (Pos.compare_cont Eq mx my) with (Pos.compare mx my);
  try destruct (Z.compare_spec ex ey); try destruct (Pos.compare_spec mx my);
  cbn [CompOpp];
  (eexists; split; [reflexivity|]; split; split; intros;
   try discriminate; try reflexivity; try lia).
Qed.

Lemma ltb_lt3 x y :
  is_nan x = false -> is_nan y = false ->
  (ltb x y = true <-> lt3 (rank x) (rank y)).
Proof.
  intros Hx Hy. destruct (compare_rank x y Hx Hy) as (c & Hc & Hlt & _).
  unfold ltb, SFltb. rewrite Hc. rewrite <- Hlt.
  destruct c; split; intros; try discriminate; reflexivity.
Qed.

Lemma ltb_false_lt3 x y :
  is_nan x = false -> is_nan y = false ->
  (ltb x y = false <-> ~ lt3 (rank x) (rank y)).
Proof.
  intros Hx Hy. rewrite <- (ltb_lt3 x y Hx Hy).
  destruct (ltb x y); split; intros; try discriminate; try reflexivity;
    try congruence.
Qed.

Lemma ltb_negtrans x y z :
  is_nan x = false -> is_nan y = false -> is_nan z = false ->
  ltb x y = false -> ltb y z = false -> ltb x z = false.
Proof.
  intros Hx Hy Hz. rewrite !ltb_false_lt3 by assumption.
  destruct (rank x) as [[a1 a2] a3], (rank y) as [[b1 b2] b3], (rank z) as [[c1 c2] c3].
  unfold lt3. lia.
Qed.

Lemma eqb_rank x y : eqb x y = true -> is_nan x = false /\ is_nan y = false /\ rank x = rank y.
Proof.
  unfold eqb, SFeqb. intros H.
  assert (Hx : is_nan x = false) by (destruct x; try reflexivity; discriminate).
  assert (Hy : is_nan y = false) by (destruct x, y; try reflexivity; discriminate).
  split; [assumption|]. split; [assumption|].
  destruct (compare_rank x y Hx Hy) as (c & Hc & Hlt & Hgt). rewrite Hc in H.
  destruct c; try discriminate.
  assert (~ lt3 (rank x) (rank y)) by (rewrite <- Hlt; discriminate).
  assert (~ lt3 (rank y) (rank x)) by (rewrite <- Hgt; discriminate).
  destruct (rank x) as [[a1 a2] a3], (rank y) as [[b1 b2] b3].
  unfold lt3 in *. assert (a1 = b1 /\ a2 = b2 /\ a3 = b3) by lia.
  intuition congruence.
Qed.

Lemma eqb_ltb_false a b k : eqb a k = true -> eqb b k = true -> ltb a b = false.
Proof.
  intros Ha Hb. apply eqb_rank in Ha, Hb.
  destruct Ha as (Ha & Hk & Ra), Hb as (Hb & _ & Rb).
  apply ltb_false_lt3; try assumption. rewrite Ra, Rb.
  destruct (rank k) as [[a1 a2] a3]. unfold lt3. lia.
Qed.

Lemma ltb_neg_inf_r x : ltb x neg_inf = false.
Proof. destruct x as [[]|[]| |[] mx ex]; reflexivity. Qed.

Lemma ltb_neg_inf_l x : is_nan x = false -> x <> neg_inf -> ltb neg_inf x = true.
Proof.
  destruct x as [[]|[]| |[] mx ex]; intros Hn Hne;
    try reflexivity; try discriminate.
  exfalso; apply Hne; reflexivity.
Qed.

Lemma leb_of_not_ltb x y :
  is_nan x = false -> is_nan y = false -> ltb y x = false -> leb x y = true.
Proof.
  intros Hx Hy H. destruct (compare_rank x y Hx Hy) as (c & Hc & Hlt & Hgt).
  apply ltb_false_lt3 in H; try assumption.
  unfold leb, SFleb. rewrite Hc. destruct c; try reflexivity.
  exfalso. apply H, Hgt. reflexivity.
Qed.

Lemma ltb_asym x y : ltb x y = true -> ltb y x = false.
Proof.
  unfold ltb, SFltb. intros H.
  assert (Hx : is_nan x = false) by (destruct x; try reflexivity; discriminate).
  assert (Hy : is_nan y = false) by (destruct x, y; try reflexivity; discriminate).
  destruct (compare_rank x y Hx Hy) as (c & Hc & Hlt & _). rewrite Hc in H.
  assert (Hc' : c = Lt) by (destruct c; try discriminate; reflexivity).
  apply Hlt in Hc'. apply ltb_false_lt3; try assumption.
  destruct (rank x) as [[a1 a2] a3], (rank y) as [[b1 b2] b3].
  unfold lt3 in *. lia.
Qed.

Lemma is_neg_inf_eq x : is_neg_inf x = true <-> x = neg_inf.
Proof.
  destruct x as [s|[]| |s m e]; simpl; split; intros H;
    try discriminate; try reflexivity.
Qed.

Lemma leb_ltb_false x y : leb x y = true -> ltb y x = false.
Proof.
  unfold leb, SFleb. intros H.
  assert (Hx : is_nan x = false) by (destruct x; try reflexivity; discriminate).
  assert (Hy : is_nan y = false) by (destruct x, y; try reflexivity; discriminate).
  destruct (compare_rank x y Hx Hy) as (c & Hc & _ & Hgt). rewrite Hc in H.
  apply ltb_false_lt3; try assumption. rewrite <- Hgt.
  destruct c; discriminate.
Qed.

Lemma nonneg_not_nan x : nonneg x -> is_nan x = false.
Proof. destruct x; simpl; intros H; try reflexivity; contradiction. Qed.

Lemma leb_zero_nonneg x : nonneg x -> leb zero x = true.
Proof.
  destruct x as [s|s| |s m e]; simpl; intros H; subst; try reflexivity.
  contradiction.
Qed.

Lemma shr_1_nonneg mrs : 0 <= shr_m mrs -> 0 <= shr_m (shr_1 mrs).
Proof.
  destruct mrs as [m r s]. destruct m as [|[p|p|]|[p|p|]]; simpl; lia.
Qed.

Lemma iter_shr_1_nonneg p : forall mrs,
  0 <= shr_m mrs -> 0 <= shr_m (iter_pos shr_1 p mrs).
Proof.
  induction p as [p IH|p IH|]; intros mrs H; simpl.
  - apply IH, IH, shr_1_nonneg, H.
  - apply IH, IH, H.
  - apply shr_1_nonneg, H.
Qed.

Lemma shr_fexp_nonneg m e l :
  0 <= m -> 0 <= shr_m (fst (shr_fexp prec emax m e l)).
Proof.
  intros H. unfold shr_fexp, shr.
  assert (H0 : 0 <= shr_m (shr_record_of_loc m l))
    by (destruct l as [|[]]; exact H).
  destruct (fexp prec emax (Zdigits2 m + e) - e); simpl; try exact H0.
  apply iter_shr_1_nonneg, H0.
Qed.

Lemma round_nearest_even_nonneg m l : 0 <= m -> 0 <= round_nearest_even m l.
Proof.
  intros H. destruct l as [|[]]; simpl; try lia. destruct (Z.even m); lia.
Qed.

Lemma binary_round_aux_sign mx ex lx :
  0 <= mx -> nonneg (binary_round_aux prec emax false mx ex lx).
Proof.
  intros H. unfold binary_round_aux.
  pose proof (shr_fexp_nonneg mx ex lx H) as H1.
  destruct (shr_fexp prec emax mx ex lx) as [mrs' e']. simpl in H1.
  pose proof (shr_fexp_nonneg _ e' loc_Exact
                (round_nearest_even_nonneg _ (loc_of_shr_record mrs') H1)) as H2.
  destruct (shr_fexp prec emax (round_nearest_even (shr_m mrs') (loc_of_shr_record mrs')) e' loc_Exact)
    as [mrs'' e'']. simpl in H2.
  destruct (shr_m mrs'') as [|m|m]; simpl; try reflexivity; try lia.
  destruct (Z.leb e'' _); reflexivity.
Qed.

Lemma div_core_nonneg mx ex my ey :
  0 <= fst (fst (SFdiv_core_binary prec emax (Zpos mx) ex (Zpos my) ey)).
Proof.
  unfold SFdiv_core_binary.
  set (s := ex - ey - _).
  set (m' := match s with Z0 => Zpos mx | Zpos _ => Z.shiftl (Zpos mx) s | Zneg _ => 0 end).
  assert (Hm : 0 <= m').
  { subst m'. destruct s; try lia. apply Z.shiftl_nonneg. lia. }
  pose proof (Z.div_pos m' (Zpos my) Hm ltac:(lia)) as Hq.
  unfold Z.div in Hq. destruct (Z.div_eucl m' (Zpos my)) as [q r]. exact Hq.
Qed.

Lemma div_abs_nonneg p :
  is_nan p = false -> nonneg (div (abs p) twenty).
Proof.
  intros Hp. destruct p as [s|s| |s m e]; try discriminate; try reflexivity.
  unfold abs, SFabs, div, twenty, SFdiv.
  pose proof (div_core_nonneg m e 5629499534213120 (-48)) as H.
  destruct (SFdiv_core_binary prec emax (Zpos m) e 5629499534213120 (-48)) as [[mz ez] lz].
  simpl in H. apply binary_round_aux_sign. exact H.
Qed.

End PyFloatFacts.

(* ================================================================= *)
(** ** Facts about the sort *)

Module PySortFacts.

Import PySort.
Local Open Scope list_scope.

Section SortFacts.
Context {A : Type}.
Variable lt : A -> A -> bool.
(** The elements on which [lt] behaves as a strict weak order. *)
Variable P : A -> Prop.
Hypothesis lt_asym : forall x y, P x -> P y -> lt x y = true -> lt y x = false.
Hypothesis lt_negtrans : forall x y z, P x -> P y -> P z ->
  lt x y = false -> lt y z = false -> lt x z = false.

Lemma lt_le_trans x y z : P x -> P y -> P z ->
  lt x y = true -> lt z y = false -> lt x z = true.
Proof.
  intros Hx Hy Hz Hxy Hzy. destruct (lt x z) eqn:E; [reflexivity|].
  rewrite (lt_negtrans x z y Hx Hz Hy E Hzy) in Hxy. discriminate.
Qed.

Lemma ascending_app l1 l2 :
  ascending lt (l1 ++ l2) <->
  ascending lt l1 /\ ascending lt l2 /\
  Forall (fun x => Forall (fun y => lt y x = false) l2) l1.
Proof.
  induction l1 as [|a l1 IH]; simpl.
  - intuition.
  - rewrite Forall_app, IH. split.
    + intros [[H1 H2] (H3 & H4 & H5)]. repeat split; auto.
    + intros ((H1 & H2) & H3 & H4). inversion H4; subst. repeat split; auto.
Qed.

Lemma insert_Forall (Q : A -> Prop) x l :
  Q x -> Forall Q l -> Forall Q (insert lt x l).
Proof.
  intros Hx. induction l as [|y l IH]; simpl; intros H.
  - constructor; auto.
  - inversion H; subst. destruct (lt x y); constructor; auto.
Qed.

Lemma insert_ascending x l :
  P x -> Forall P l -> ascending lt l -> ascending lt (insert lt x l).
Proof.
  intros Hx. induction l as [|y l IH]; simpl; intros HP Hs.
  - split; [constructor | exact I].
  - inversion HP as [|? ? Hy HPl]; subst. destruct Hs as [Hy' Hs].
    destruct (lt x y) eqn:E; simpl.
    + split; [|split; assumption].
      constructor; [apply lt_asym; assumption|].
      rewrite Forall_forall in *. intros z Hz.
      apply lt_asym; auto.
      apply lt_le_trans with y; auto.
    + split; [|apply IH; assumption].
      apply insert_Forall; assumption.
Qed.

(** [insert] splits the list where the binary search would. *)
Lemma insert_split x l1 l2 :
  Forall (fun y => lt x y = false) l1 ->
  Forall (fun y => lt x y = true) l2 ->
  insert lt x (l1 ++ l2) = l1 ++ x :: l2.
Proof.
  intros H1 H2. induction H1 as [|y l1 Hy H1 IH]; simpl.
  - destruct H2 as [|z l2 Hz H2]; simpl; [reflexivity|]. rewrite Hz. reflexivity.
  - rewrite Hy, IH. reflexivity.
Qed.

Lemma ascending_nth_error run p x :
  Forall P run -> ascending lt run -> nth_error run p = Some x ->
  P x /\
  Forall (fun y => P y /\ lt x y = false) (firstn p run) /\
  Forall (fun y => P y /\ lt y x = false) (skipn (S p) run) /\
  skipn p run = x :: skipn (S p) run /\
  firstn (S p) run = firstn p run ++ [x].
Proof.
  intros HP Hs Hn.
  destruct (nth_error_split run p Hn) as (l1 & l2 & -> & <-).
  assert (Hf : firstn (List.length l1) (l1 ++ x :: l2) = l1).
  { clear. induction l1; simpl; congruence. }
  assert (Hk : skipn (S (List.length l1)) (l1 ++ x :: l2) = l2).
  { clear. induction l1; simpl; auto. }
  assert (Hk' : skipn (List.length l1) (l1 ++ x :: l2) = x :: l2).
  { clear. induction l1; simpl; auto. }
  assert (Hf' : firstn (S (List.length l1)) (l1 ++ x :: l2) = l1 ++ [x]).
  { clear. induction l1 as [|a l1 IH]; [reflexivity|].
    cbn [List.length app]. rewrite firstn_cons, IH. reflexivity. }
  rewrite Hf, Hk, Hk', Hf'.
  apply ascending_app in Hs. destruct Hs as (_ & [H2 _] & H3).
  apply Forall_app in HP. destruct HP as [HP1 HP2].
  inversion HP2 as [|? ? Hx HP3]; subst.
  repeat split; auto.
  - rewrite Forall_forall in *. intros y Hy. split; [auto|].
    specialize (H3 y Hy). inversion H3; assumption.
  - rewrite Forall_forall in *. intros y Hy. split; auto.
Qed.

Lemma bisect_spec pivot run : P pivot -> Forall P run -> ascending lt run ->
  forall fuel l r, (l <= r <= List.length run)%nat -> (r - l <= fuel)%nat ->
  Forall (fun y => lt pivot y = false) (firstn l run) ->
  Forall (fun y => lt pivot y = true) (skipn r run) ->
  Forall (fun y => lt pivot y = false) (firstn (bisect lt fuel pivot run l r) run) /\
  Forall (fun y => lt pivot y = true) (skipn (bisect lt fuel pivot run l r) run).
Proof.
  intros Hp HP Hs. induction fuel as [|fuel IH]; intros l r Hlr Hf Hl Hr; simpl.
  - assert (l = r) by lia. subst. split; assumption.
  - destruct (Nat.ltb_spec l r) as [Hlt|Hge].
    2:{ assert (l = r) by lia. subst. split; assumption. }
    assert (Hd : (Nat.div2 (r - l) < r - l)%nat) by (apply Nat.lt_div2; lia).
    generalize dependent (Nat.div2 (r - l)). intros d Hd.
    set (p := (l + d)%nat). assert (Hp2 : (l <= p < r)%nat) by (subst p; lia).
    clearbody p.
    destruct (nth_error run p) as [x|] eqn:Hn.
    2:{ apply nth_error_None in Hn. lia. }
    destruct (ascending_nth_error run p x HP Hs Hn)
      as (Hx & Hbefore & Hafter & Hsk & Hfi).
    destruct (lt pivot x) eqn:E.
    + apply IH; try lia; try assumption.
      rewrite Hsk. constructor; [assumption|].
      rewrite Forall_forall in *. intros y Hy.
      destruct (Hafter y Hy) as [Py Hyx].
      apply lt_le_trans with x; auto.
    + apply IH; try lia; try assumption.
      rewrite Hfi. apply Forall_app. split; [|constructor; auto].
      rewrite Forall_forall in *. intros y Hy.
      destruct (Hbefore y Hy) as [Py Hxy].
      apply lt_negtrans with x; auto.
Qed.

Lemma binary_insert_insert run pivot :
  P pivot -> Forall P run -> ascending lt run ->
  binary_insert lt run pivot = insert lt pivot run.
Proof.
  intros Hp HP Hs. unfold binary_insert.
  destruct (bisect_spec pivot run Hp HP Hs (List.length run) 0 (List.length run))
    as [H1 H2]; try lia.
  - constructor.
  - rewrite skipn_all. constructor.
  - set (k := bisect lt (List.length run) pivot run 0 (List.length run)) in *.
    rewrite <- (insert_split pivot _ _ H1 H2), firstn_skipn. reflexivity.
Qed.

Lemma binarysort_insert rest : forall run,
  Forall P rest -> Forall P run -> ascending lt run ->
  binarysort lt run rest = fold_left (fun r x => insert lt x r) rest run.
Proof.
  unfold binarysort. induction rest as [|x rest IH]; intros run Hrest HP Hs; simpl.
  - reflexivity.
  - inversion Hrest; subst.
    rewrite binary_insert_insert by assumption.
    apply IH; auto using insert_Forall, insert_ascending.
Qed.

(** An insertion at the end. *)
Lemma insert_last x l :
  Forall (fun y => lt x y = false) l -> insert lt x l = l ++ [x].
Proof.
  intros H. rewrite <- (app_nil_r l) at 1. apply insert_split; [assumption|constructor].
Qed.

Lemma run_asc_spec l : forall prev acc r t,
  run_asc lt prev l = (r, t) ->
  P prev -> Forall P l -> Forall P acc -> ascending lt (acc ++ [prev]) ->
  l = r ++ t /\
  fold_left (fun r x => insert lt x r) r (acc ++ [prev]) = acc ++ prev :: r /\
  ascending lt (acc ++ prev :: r).
Proof.
  induction l as [|x l IH]; intros prev acc r t H Hprev HP Hacc Hs; simpl in H.
  - injection H as <- <-. simpl. auto.
  - inversion HP as [|? ? Hx HPl]; subst.
    destruct (lt x prev) eqn:E.
    + injection H as <- <-. simpl. auto.
    + destruct (run_asc lt x l) as [r' t'] eqn:Hr. injection H as <- <-.
      assert (Hall : Forall (fun y => lt x y = false) (acc ++ [prev])).
      { apply Forall_app. split; [|constructor; auto].
        apply ascending_app in Hs. destruct Hs as (_ & _ & Hs).
        rewrite Forall_forall in *. intros y Hy.
        specialize (Hs y Hy). inversion Hs; subst.
        apply lt_negtrans with prev; auto. }
      assert (Hs' : ascending lt ((acc ++ [prev]) ++ [x])).
      { apply ascending_app. split; [assumption|]. split; [simpl; auto|].
        rewrite Forall_forall in *. intros y Hy. constructor; auto. }
      destruct (IH x (acc ++ [prev]) r' t' Hr Hx HPl) as (H1 & H2 & H3); auto.
      { apply Forall_app. split; auto. }
      simpl. rewrite insert_last by assumption.
      rewrite <- !app_assoc in *. simpl in *. subst. auto.
Qed.

Lemma run_desc_spec l : forall prev acc r t,
  run_desc lt prev l = (r, t) ->
  l = r ++ t /\
  fold_left (fun r x => insert lt x r) r (prev :: acc) = rev r ++ prev :: acc /\
  (Forall P l -> P prev -> Forall P acc -> ascending lt (prev :: acc) ->
   ascending lt (rev r ++ prev :: acc)).
Proof.
  induction l as [|x l IH]; intros prev acc r t H; simpl in H.
  - injection H as <- <-. simpl. auto.
  - destruct (lt x prev) eqn:E.
    + destruct (run_desc lt x l) as [r' t'] eqn:Hr. injection H as <- <-.
      destruct (IH x (prev :: acc) r' t' Hr) as (H1 & H2 & H3).
      simpl. rewrite E. rewrite <- !app_assoc. simpl. subst.
      repeat split; auto.
      intros HP Hprev Hacc Hs. inversion HP; subst.
      apply H3; auto.
      pose proof (insert_ascending x (prev :: acc)) as Hi. simpl in Hi.
      rewrite E in Hi. apply Hi; auto.
    + injection H as <- <-. simpl. auto.
Qed.

Lemma count_run_spec l run rest :
  count_run lt l = (run, rest) -> Forall P l ->
  exists pre, l = pre ++ rest /\ insertion_sort lt pre = run /\
              ascending lt run /\ Forall P run /\ Forall P rest.
Proof.
  unfold count_run, insertion_sort. intros H HP.
  destruct l as [|a [|b l]].
  - inversion H; subst. exists []. simpl. auto.
  - inversion H; subst. exists [a]. simpl. repeat split; auto.
  - inversion HP as [|? ? Ha HP1]; subst. inversion HP1 as [|? ? Hb HP2]; subst.
    destruct (lt b a) eqn:E.
    + destruct (run_desc lt b l) as [r t] eqn:Hr. inversion H; subst.
      destruct (run_desc_spec l b [a] r rest Hr) as (H1 & H2 & H3).
      exists (a :: b :: r). subst l. simpl. rewrite E.
      rewrite H2. rewrite <- !app_assoc. simpl.
      apply Forall_app in HP2. destruct HP2 as [HPr HPt].
      repeat split; auto.
      * apply H3; auto.
        -- apply Forall_app; auto.
        -- simpl. repeat split; auto.
      * apply Forall_app. split; [apply Forall_rev; assumption|auto].
    + destruct (run_asc lt b l) as [r t] eqn:Hr. inversion H; subst.
      destruct (run_asc_spec l b [a] r rest Hr) as (H1 & H2 & H3); auto.
      { simpl. repeat split; auto. }
      exists (a :: b :: r). subst l. simpl. rewrite E.
      simpl in H2, H3. rewrite H2.
      apply Forall_app in HP2. destruct HP2 as [HPr HPt].
      repeat split; auto; apply H3.
Qed.

(** On well-ordered elements, the library sort is the insertion sort. *)
Lemma list_sort_insertion l :
  Forall P l -> list_sort lt l = insertion_sort lt l.
Proof.
  intros HP. unfold list_sort.
  destruct (count_run lt l) as [run rest] eqn:H.
  destruct (count_run_spec l run rest H HP) as (pre & -> & <- & Hs & HPr & HPt).
  rewrite binarysort_insert by assumption.
  unfold insertion_sort. rewrite fold_left_app. reflexivity.
Qed.

(** The sort keeps what holds of every element. *)
Lemma list_sort_Forall (Q : A -> Prop) l :
Forall P l -> Forall Q l -> Forall Q (list_sort lt l).
Proof.
intros HP HQ. rewrite list_sort_insertion by assumption.
unfold insertion_sort.
assert (H : forall acc, Forall Q acc ->
          Forall Q (fold_left (fun r x => insert lt x r) l acc)).
{ clear HP. induction l as [|x l IH]; intros acc Hacc; simpl; [assumption|].
  inversion HQ; subst. apply IH; auto using insert_Forall. }
apply H. constructor.
Qed.

Section Stable.
(** A class of elements none of which is smaller than another. *)
Variable sel : A -> bool.
Hypothesis sel_equiv : forall a b, P a -> P b ->
  sel a = true -> sel b = true -> lt a b = false.

Lemma insert_filter x run :
  P x -> Forall P run -> ascending lt run ->
  filter sel (insert lt x run) = filter sel run ++ filter sel [x].
Proof.
  intros Hx. induction run as [|y run IH]; intros HP Hs.
  - simpl. reflexivity.
  - inversion HP as [|? ? Hy HPr]; subst. destruct Hs as [Hy' Hs].
    simpl insert. destruct (lt x y) eqn:E.
    + change (x :: y :: run) with ([x] ++ y :: run). rewrite filter_app.
      destruct (sel x) eqn:Sx; [|simpl; rewrite Sx; simpl; rewrite app_nil_r; reflexivity].
      assert (Hnil : filter sel (y :: run) = []).
      { assert (Hall : Forall (fun z => sel z = false) (y :: run)).
        { constructor.
          - destruct (sel y) eqn:Sy; [|reflexivity].
            rewrite (sel_equiv x y Hx Hy Sx Sy) in E. discriminate.
          - rewrite Forall_forall in *. intros z Hz.
            destruct (sel z) eqn:Sz; [|reflexivity].
            pose proof (lt_le_trans x y z Hx Hy (HPr z Hz) E (Hy' z Hz)) as Hxz.
            rewrite (sel_equiv x z Hx (HPr z Hz) Sx Sz) in Hxz. discriminate. }
        clear - Hall. induction Hall as [|z l Hz _ IH]; simpl; [reflexivity|].
        rewrite Hz. exact IH. }
      rewrite Hnil. rewrite app_nil_r. reflexivity.
    + simpl. rewrite IH by assumption. destruct (sel y); reflexivity.
Qed.

Lemma fold_insert_filter l : forall acc,
  Forall P l -> Forall P acc -> ascending lt acc ->
  filter sel (fold_left (fun r x => insert lt x r) l acc)
  = filter sel acc ++ filter sel l.
Proof.
  induction l as [|x l IH]; intros acc HP Hacc Hs; simpl fold_left.
  - simpl. rewrite app_nil_r. reflexivity.
  - inversion HP; subst.
    rewrite IH; auto using insert_Forall, insert_ascending.
    rewrite insert_filter by assumption.
    rewrite <- app_assoc, <- filter_app. reflexivity.
Qed.

(** Stability: the elements of a class keep their order. *)
Lemma list_sort_filter l :
  Forall P l -> filter sel (list_sort lt l) = filter sel l.
Proof.
  intros HP. rewrite list_sort_insertion by assumption.
  unfold insertion_sort. rewrite fold_insert_filter; auto. simpl. exact I.
Qed.
End Stable.

Section Bottom.
(** The least elements. *)
Variable bot : A -> bool.
Hypothesis lt_bot : forall x y, bot y = true -> lt x y = false.
Hypothesis bot_lt : forall x y, P x -> P y ->
  bot x = true -> bot y = false -> lt x y = true.

Lemma insert_app_skip x l1 l2 :
  Forall (fun y => lt x y = false) l1 ->
  insert lt x (l1 ++ l2) = l1 ++ insert lt x l2.
Proof.
  induction 1 as [|y l1 Hy _ IH]; simpl; [reflexivity|].
  rewrite Hy, IH. reflexivity.
Qed.

Lemma fold_insert_bottom l : forall low high,
  Forall P l -> Forall P high ->
  Forall (fun y => bot y = true) low -> Forall (fun y => bot y = false) high ->
  exists low' high',
    fold_left (fun r x => insert lt x r) l (low ++ high) = low' ++ high' /\
    Forall (fun y => bot y = true) low' /\
    Forall (fun y => bot y = false) high'.
Proof.
  induction l as [|x l IH]; intros low high HP Hh Hlow Hhigh; simpl.
  - exists low, high. auto.
  - inversion HP as [|? ? Hx HPl]; subst.
    assert (Hskip : Forall (fun y => lt x y = false) low).
    { rewrite Forall_forall in *. intros y Hy. apply lt_bot. auto. }
    destruct (bot x) eqn:Bx.
    + assert (Hins : insert lt x (low ++ high) = (low ++ [x]) ++ high).
      { rewrite <- app_assoc. simpl. apply insert_split; [assumption|].
        rewrite Forall_forall in *. intros y Hy. apply bot_lt; auto. }
      rewrite Hins. apply IH; auto.
      apply Forall_app. split; auto.
    + rewrite insert_app_skip by assumption.
      apply IH; auto using insert_Forall.
Qed.

(** The least elements come first. *)
Lemma list_sort_bottom l :
  Forall P l ->
  exists low high,
    list_sort lt l = low ++ high /\
    Forall (fun y => bot y = true) low /\
    Forall (fun y => bot y = false) high.
Proof.
  intros HP. rewrite list_sort_insertion by assumption.
  unfold insertion_sort.
  apply (fold_insert_bottom l [] []); auto.
Qed.
End Bottom.

End SortFacts.

(** The sort looks at the keys only: it commutes with any map that
    preserves the comparison. *)
Section MapFacts.
Context {A B : Type}.
Variable ltA : A -> A -> bool.
Variable ltB : B -> B -> bool.
Variable f : A -> B.
Hypothesis f_lt : forall x y, ltB (f x) (f y) = ltA x y.

Lemma run_asc_map l : forall prev,
  run_asc ltB (f prev) (map f l)
  = (map f (fst (run_asc ltA prev l)), map f (snd (run_asc ltA prev l))).
Proof.
  induction l as [|x l IH]; intros prev; simpl; [reflexivity|].
  rewrite f_lt. destruct (ltA x prev); [reflexivity|].
  rewrite IH. destruct (run_asc ltA x l). reflexivity.
Qed.

Lemma run_desc_map l : forall prev,
  run_desc ltB (f prev) (map f l)
  = (map f (fst (run_desc ltA prev l)), map f (snd (run_desc ltA prev l))).
Proof.
  induction l as [|x l IH]; intros prev; simpl; [reflexivity|].
  rewrite f_lt. destruct (ltA x prev); [|reflexivity].
  rewrite IH. destruct (run_desc ltA x l). reflexivity.
Qed.

Lemma count_run_map l :
  count_run ltB (map f l)
  = (map f (fst (count_run ltA l)), map f (snd (count_run ltA l))).
Proof.
  destruct l as [|a [|b l]]; try reflexivity.
  cbn [map count_run]. rewrite f_lt. destruct (ltA b a).
  - rewrite run_desc_map. destruct (run_desc ltA b l). cbn [fst snd].
    rewrite map_rev. reflexivity.
  - rewrite run_asc_map. destruct (run_asc ltA b l). reflexivity.
Qed.

Lemma bisect_map fuel pivot run : forall l r,
  bisect ltB fuel (f pivot) (map f run) l r = bisect ltA fuel pivot run l r.
Proof.
  induction fuel as [|fuel IH]; intros l r; simpl; [reflexivity|].
  destruct (Nat.ltb l r); [|reflexivity].
  rewrite nth_error_map.
  destruct (nth_error run (l + Nat.div2 (r - l))); simpl; [|reflexivity].
  rewrite f_lt. destruct (ltA pivot a); apply IH.
Qed.

Lemma binary_insert_map run pivot :
  binary_insert ltB (map f run) (f pivot) = map f (binary_insert ltA run pivot).
Proof.
  unfold binary_insert. rewrite length_map, bisect_map.
  rewrite map_app, firstn_map. simpl. rewrite skipn_map. reflexivity.
Qed.

Lemma binarysort_map rest : forall run,
  binarysort ltB (map f run) (map f rest) = map f (binarysort ltA run rest).
Proof.
  unfold binarysort. induction rest as [|x rest IH]; intros run; simpl.
  - reflexivity.
  - rewrite binary_insert_map. apply IH.
Qed.

Lemma list_sort_map l :
  list_sort ltB (map f l) = map f (list_sort ltA l).
Proof.
  unfold list_sort. rewrite count_run_map.
  destruct (count_run ltA l) as [run rest]. cbn [fst snd].
  apply binarysort_map.
Qed.
End MapFacts.

End PySortFacts.

(* ================================================================= *)
(** ** The record of one ticker *)

Local Open Scope list_scope.

Lemma last_cons_default (ps : list float) : forall (p0 d d' : float),
  last (p0 :: ps) d = last (p0 :: ps) d'.
Proof.
  induction ps as [|p ps IH]; intros p0 d d'; [reflexivity|].
  change (last (p0 :: p :: ps) d) with (last (p :: ps) d).
  change (last (p0 :: p :: ps) d') with (last (p :: ps) d').
  apply IH.
Qed.

(** C1. For a price series with at least two points whose first price is
    not zero, the loop body of [update_data] stores a record (not the error
    string, and no exception) whose [price_change] is exactly
    [((last - first) / first) * 100] in binary64 arithmetic; the result is
    a function of the series and the item. *)
Theorem update_entry_price_change (it : item) (series : list float)
    (times : list timestamp) (first_price last_price : float) :
  (2 <= List.length series)%nat ->
  List.length times = List.length series ->
  hd_error series = Some first_price ->
  last series zero = last_price ->
  eqb first_price zero = false ->
  update_entry it (Some series, Some times)
  = Ok (Info {| prices := series;
                timestamps := times;
                price_change :=
                  mul (div (sub last_price first_price) first_price) hundred;
                sentiment_change := item_sentiment_change it;
                mentions := item_mentions it |}).
Proof.
  intros Hlen Htimes Hfirst Hlast Hnz.
  destruct series as [|p0 ps]; [discriminate|].
  destruct times as [|t0 ts]; [discriminate|].
  injection Hfirst as ->.
  rewrite (last_cons_default ps first_price zero first_price) in Hlast.
  subst last_price.
  unfold update_entry, truediv. rewrite Hnz. reflexivity.
Qed.

Lemma update_entry_price_change_witness :
  update_entry Example.gme_item (Some [of_Z 100; of_Z 105; of_Z 110], Some [0; 900; 1800])
  = Ok (Info {| prices := [of_Z 100; of_Z 105; of_Z 110];
                timestamps := [0; 900; 1800];
                price_change := of_Z 10;
                sentiment_change := of_Z 5;
                mentions := "1,234" |}).
Proof.
  exact (update_entry_price_change Example.gme_item
           [of_Z 100; of_Z 105; of_Z 110] [0; 900; 1800] (of_Z 100) (of_Z 110)
           ltac:(simpl; lia) eq_refl eq_refl eq_refl eq_refl).
Defined.

(** C2, as stated, fails: a series of one point gives a record, with the
    price change 0.0, and a first price of zero raises
    [ZeroDivisionError]. *)
Lemma update_entry_short_series_counterexample :
  (List.length [of_Z 100] < 2)%nat /\
  update_entry Example.gme_item (Some [of_Z 100], Some [0])
  = Ok (Info {| prices := [of_Z 100];
                timestamps := [0];
                price_change := zero;
                sentiment_change := of_Z 5;
                mentions := "1,234" |}) /\
  update_entry Example.gme_item (Some [zero; of_Z 100], Some [0; 900])
  = Raise ZeroDivisionError.
Proof. repeat split. simpl. lia. Qed.

(** C2, amended. The loop body stores the error string, and raises
    nothing, whenever the price series is absent or has no point. *)
Theorem update_entry_error (it : item)
    (fetched : option (list float) * option (list timestamp)) :
  fst fetched = None \/ fst fetched = Some [] \/
  snd fetched = None \/ snd fetched = Some [] ->
  update_entry it fetched = Ok (ErrorStr "Error fetching data").
Proof.
  destruct fetched as [[[|p0 ps]|] [[|t0 ts]|]]; simpl;
    intros [H|[H|[H|H]]]; try discriminate; reflexivity.
Qed.

Lemma update_entry_error_witness :
  update_entry Example.gme_item (None, None)
  = Ok (ErrorStr "Error fetching data").
Proof.
  exact (update_entry_error Example.gme_item (None, None) (or_introl eq_refl)).
Defined.

(* ================================================================= *)
(** ** The sort settings *)

Section SortSettings.

Variable float_of_string : string -> option float.
Variable render : list (string * ticker_value) -> exc unit.

Lemma refresh_ui_keeps (g : globals) :
  ticker_data (refresh_ui float_of_string render g) = ticker_data g /\
  last_update_time (refresh_ui float_of_string render g) = last_update_time g /\
  current_sort (refresh_ui float_of_string render g) = current_sort g /\
  loading_wheel (refresh_ui float_of_string render g) = loading_wheel g.
Proof.
  unfold refresh_ui.
  destruct (bind (sorted_ticker_data float_of_string g) _); simpl; auto.
Qed.

Lemma sort_tickers_current_sort (fld : string) (g : globals) :
  current_sort (sort_tickers float_of_string render fld g)
  = if String.eqb (field (current_sort g)) fld
    then {| field := field (current_sort g);
            reverse := negb (reverse (current_sort g)) |}
    else {| field := fld; reverse := true |}.
Proof.
  unfold sort_tickers.
  destruct (refresh_ui_keeps
    {| ticker_data := ticker_data g;
       last_update_time := last_update_time g;
       current_sort :=
         (if String.eqb (field (current_sort g)) fld
          then {| field := field (current_sort g);
                  reverse := negb (reverse (current_sort g)) |}
          else {| field := fld; reverse := true |});
       status_text := status_text g;
       loading_wheel := loading_wheel g |}) as (_ & _ & H & _).
  exact H.
Qed.

Lemma sort_tickers_ticker_data (fld : string) (g : globals) :
  ticker_data (sort_tickers float_of_string render fld g) = ticker_data g.
Proof.
  unfold sort_tickers.
  match goal with |- ticker_data (refresh_ui _ _ ?x) = _ =>
    destruct (refresh_ui_keeps x) as (H & _) end.
  exact H.
Qed.

(** C4. A request for the active field keeps the field and the dict and
    flips the direction, so that two such requests give back the sort
    settings; a request for another field selects it with the direction
    descending, whatever the direction was. *)
Theorem sort_tickers_toggle (fld : string) (g : globals) :
  (field (current_sort g) = fld ->
     current_sort (sort_tickers float_of_string render fld g)
     = {| field := fld; reverse := negb (reverse (current_sort g)) |} /\
     ticker_data (sort_tickers float_of_string render fld g) = ticker_data g /\
     current_sort (sort_tickers float_of_string render fld
                     (sort_tickers float_of_string render fld g))
     = current_sort g) /\
  (field (current_sort g) <> fld ->
     current_sort (sort_tickers float_of_string render fld g)
     = {| field := fld; reverse := true |}).
Proof.
  split.
  - intros Hf. rewrite !sort_tickers_current_sort, sort_tickers_ticker_data.
    rewrite Hf, String.eqb_refl. cbn [field reverse].
    rewrite String.eqb_refl, negb_involutive.
    repeat split. destruct (current_sort g) as [f r]. simpl in *. congruence.
  - intros Hf. rewrite sort_tickers_current_sort.
    destruct (String.eqb_spec (field (current_sort g)) fld); [contradiction|].
    reflexivity.
Qed.

End SortSettings.

Lemma sort_tickers_toggle_witness :
  current_sort
    (sort_tickers Example.float_of_string (fun _ => Ok tt) "mentions"
       initial_globals)
  = {| field := "mentions"; reverse := false |} /\
  current_sort
    (sort_tickers Example.float_of_string (fun _ => Ok tt) "price_change"
       (sort_tickers Example.float_of_string (fun _ => Ok tt) "mentions"
          initial_globals))
  = {| field := "price_change"; reverse := true |}.
Proof.
  split.
  - exact (proj1 (proj1 (sort_tickers_toggle Example.float_of_string
                           (fun _ => Ok tt) "mentions" initial_globals)
                        eq_refl)).
  - apply (proj2 (sort_tickers_toggle Example.float_of_string
                    (fun _ => Ok tt) "price_change"
                    (sort_tickers Example.float_of_string (fun _ => Ok tt)
                       "mentions" initial_globals))).
    vm_compute. discriminate.
Defined.

(* ================================================================= *)
(** ** The dict and the successor lookup *)

Lemma dict_set_keys (k : string) (v : ticker_value) (d : dict) :
  map fst (dict_set k v d)
  = if existsb (String.eqb k) (map fst d) then map fst d
    else map fst d ++ [k].
Proof.
  induction d as [|[k' v'] d IH]; simpl; [reflexivity|].
  destruct (String.eqb_spec k k') as [->|Hne]; simpl; [reflexivity|].
  rewrite IH. destruct (existsb (String.eqb k) (map fst d)); reflexivity.
Qed.

(** The keys of the dict stay distinct. *)
Lemma dict_set_NoDup (k : string) (v : ticker_value) (d : dict) :
  NoDup (map fst d) -> NoDup (map fst (dict_set k v d)).
Proof.
  intros H. rewrite dict_set_keys.
  destruct (existsb (String.eqb k) (map fst d)) eqn:E; [assumption|].
  apply NoDup_app; [assumption | repeat constructor; intros [] | ].
  intros x Hin [Heq|[]]. subst x.
  assert (existsb (String.eqb k) (map fst d) = true).
  { apply existsb_exists. exists k. split; [assumption|apply String.eqb_refl]. }
  congruence.
Qed.

Lemma index_app_here (t : string) (before after : list string) :
  ~ In t before ->
  index t (before ++ t :: after) = Some (List.length before).
Proof.
  induction before as [|y before IH]; simpl; intros Hn.
  - rewrite String.eqb_refl. reflexivity.
  - destruct (String.eqb_spec y t) as [->|_]; [exfalso; auto|].
    rewrite IH by auto. reflexivity.
Qed.

Lemma index_absent (t : string) (l : list string) :
  ~ In t l -> index t l = None.
Proof.
  induction l as [|y l IH]; simpl; intros Hn; [reflexivity|].
  destruct (String.eqb_spec y t) as [->|_]; [exfalso; auto|].
  rewrite IH by auto. reflexivity.
Qed.

(** C9, as stated, fails: the value returned for a ticker with a successor
    is the successor's row identifier, not its symbol. *)
Lemma get_next_ticker_counterexample :
  map fst (ticker_data Example.plain_globals) = ["GME"; "XXX"; "AMC"; "TSLA"] /\
  fst (get_next_ticker "GME" Example.plain_globals) = Some "row_XXX" /\
  Some "row_XXX" <> Some "XXX".
Proof. repeat split. discriminate. Qed.

(** C9, amended. With the tickers of the dict in insertion order (they are
    distinct), [get_next_ticker] returns ["row_"] followed by the symbol
    that comes next after the given one; it returns [None] for the last
    ticker and for a ticker that is not in the dict; and the globals are
    the same after the call. *)
Theorem get_next_ticker_spec (t : string) (g : globals) :
  NoDup (map fst (ticker_data g)) ->
  (forall before next after,
     map fst (ticker_data g) = before ++ t :: next :: after ->
     fst (get_next_ticker t g) = Some ("row_" ++ next)%string) /\
  (forall before,
     map fst (ticker_data g) = before ++ [t] ->
     fst (get_next_ticker t g) = None) /\
  (~ In t (map fst (ticker_data g)) -> fst (get_next_ticker t g) = None) /\
  snd (get_next_ticker t g) = g.
Proof.
  intros Hnd. unfold get_next_ticker. repeat split.
  - intros before next after Hk. rewrite Hk in *.
    apply NoDup_remove_2 in Hnd.
    assert (Hb : ~ In t before) by (intros Hin; apply Hnd, in_or_app; auto).
    rewrite index_app_here by assumption.
    rewrite length_app. cbn [List.length].
    destruct (Z.ltb_spec (Z.of_nat (List.length before))
                (Z.of_nat (List.length before + S (S (List.length after))) - 1));
      [|lia].
    cbn [fst]. do 2 f_equal.
    rewrite app_nth2 by lia.
    replace (List.length before + 1 - List.length before)%nat with 1%nat by lia.
    reflexivity.
  - intros before Hk. rewrite Hk in *.
    apply NoDup_remove_2 in Hnd. rewrite app_nil_r in Hnd.
    rewrite index_app_here by assumption.
    rewrite length_app. cbn [List.length].
    destruct (Z.ltb_spec (Z.of_nat (List.length before))
                (Z.of_nat (List.length before + 1) - 1)); [lia|reflexivity].
  - intros Hn. rewrite index_absent by assumption. reflexivity.
  - destruct (index t (map fst (ticker_data g))); [|reflexivity].
    destruct (Z.ltb _ _); reflexivity.
Qed.

Lemma get_next_ticker_spec_witness :
  fst (get_next_ticker "XXX" Example.plain_globals) = Some "row_AMC".
Proof.
  refine (proj1 (get_next_ticker_spec "XXX" Example.plain_globals _)
            ["GME"] "AMC" ["TSLA"] eq_refl).
  change (NoDup ["GME"; "XXX"; "AMC"; "TSLA"]).
  repeat constructor; simpl; intuition discriminate.
Defined.

(* ================================================================= *)
(** ** The ranking parser *)

Lemma ranking_loop_groups (raw_data : list string) (sentiments : list float) :
  forall sentiment_idx,
  map (fun it => (item_ticker it, item_mentions it))
      (ranking_loop raw_data sentiments sentiment_idx)
  = filter (fun tm => negb (PyStr.isdigit (fst tm))) (groups_of_three raw_data).
Proof.
  assert (H : forall n l, (List.length l <= n)%nat -> forall idx,
    map (fun it => (item_ticker it, item_mentions it))
        (ranking_loop l sentiments idx)
    = filter (fun tm => negb (PyStr.isdigit (fst tm))) (groups_of_three l)).
  { induction n as [|n IH]; intros l Hl idx.
    - destruct l; [reflexivity | simpl in Hl; lia].
    - destruct l as [|r [|t [|m rest]]]; try reflexivity.
      cbn [ranking_loop groups_of_three filter fst].
      assert (Hr : (List.length rest <= n)%nat) by (simpl in Hl; lia).
      destruct (PyStr.isdigit t); cbn [negb map item_ticker item_mentions].
      + apply IH, Hr.
      + f_equal. apply IH, Hr. }
  intros idx. apply (H (List.length raw_data)). lia.
Qed.

Lemma filter_length_split {A : Type} (p : A -> bool) (l : list A) :
  (List.length (filter p l) + List.length (filter (fun x => negb (p x)) l)
   = List.length l)%nat.
Proof.
  induction l as [|x l IH]; simpl; [reflexivity|].
  destruct (p x); simpl; lia.
Qed.

(** C7. The parser reads the stripped cells in groups of three and keeps,
    in order, the ticker and the mentions of the groups whose ticker cell
    is not a digit string, that is, of which [str.isdigit] is false; it
    returns at most ten entries; and for nine cells, that is three groups,
    of which exactly one has a ticker cell made of digits, it returns
    exactly the two other entries.  [PyStr.strip] and [PyStr.isdigit] are
    those of Python on every string, white space and digits outside ASCII
    included. *)
Theorem parse_ranking_groups (float_of_string : string -> option float)
    (cells spans : list string) :
  let raw_data := map PyStr.strip (firstn 30 cells) in
  let accepted :=
    filter (fun tm => negb (PyStr.isdigit (fst tm))) (groups_of_three raw_data) in
  map (fun it => (item_ticker it, item_mentions it))
      (parse_ranking float_of_string cells spans)
  = firstn 10 accepted /\
  (List.length (parse_ranking float_of_string cells spans) <= 10)%nat /\
  (List.length cells = 9%nat ->
   List.length (filter (fun tm => PyStr.isdigit (fst tm))
                  (groups_of_three raw_data)) = 1%nat ->
   List.length (parse_ranking float_of_string cells spans) = 2%nat /\
   map (fun it => (item_ticker it, item_mentions it))
       (parse_ranking float_of_string cells spans) = accepted).
Proof.
  intros raw_data accepted.
  assert (Hmap : map (fun it => (item_ticker it, item_mentions it))
                   (parse_ranking float_of_string cells spans)
                 = firstn 10 accepted).
  { unfold parse_ranking. rewrite <- firstn_map.
    rewrite ranking_loop_groups. reflexivity. }
  split; [exact Hmap|]. split.
  - unfold parse_ranking. rewrite length_firstn. lia.
  - intros H9 H1.
    assert (Hg : List.length (groups_of_three raw_data) = 3%nat).
    { destruct cells as [|c1 [|c2 [|c3 [|c4 [|c5 [|c6 [|c7 [|c8 [|c9 [|c10 cells]]]]]]]]]];
        try discriminate. reflexivity. }
    pose proof (filter_length_split (fun tm => PyStr.isdigit (fst tm))
                  (groups_of_three raw_data)) as Hsplit.
    change (List.length (filter (fun tm => PyStr.isdigit (fst tm))
                           (groups_of_three raw_data))
            + List.length accepted
            = List.length (groups_of_three raw_data))%nat in Hsplit.
    rewrite H1, Hg in Hsplit.
    assert (Ha : List.length accepted = 2%nat) by lia.
    assert (Hfirst : firstn 10 accepted = accepted)
      by (apply firstn_all2; lia).
    rewrite Hfirst in Hmap. split; [|exact Hmap].
    rewrite <- (length_map (fun it => (item_ticker it, item_mentions it))).
    rewrite Hmap. exact Ha.
Qed.

Lemma parse_ranking_groups_witness :
  parse_ranking Example.float_of_string Example.fixture_cells
    Example.fixture_spans
  = [ {| item_ticker := "GME"; item_mentions := "1,234";
         item_sentiment_change := of_Z 5 |};
      {| item_ticker := "AMC"; item_mentions := "900";
         item_sentiment_change := zero |} ] /\
  List.length (parse_ranking Example.float_of_string Example.fixture_cells
                 Example.fixture_spans) = 2%nat.
Proof.
  split; [reflexivity|].
  exact (proj1 (proj2 (proj2 (parse_ranking_groups Example.float_of_string
                                Example.fixture_cells Example.fixture_spans))
                  eq_refl eq_refl)).
Defined.

(* ================================================================= *)
(** ** A failed fetch of the ranking *)

Section FetchFailure.

Variable float_of_string : string -> option float.
Variable requests_get : exc response.
Variable raise_for_status : response -> exc unit.
Variable find_all_td_right : string -> exc (list string).
Variable find_all_percentage : string -> exc (list string).
Variable history : string -> exc (list (timestamp * float)).
Variable time_time : float.
Variable render : list (string * ticker_value) -> exc unit.

Let fetch_try :=
  fetch_apewisdom_try float_of_string requests_get raise_for_status
    find_all_td_right find_all_percentage.
Let fetch :=
  fetch_apewisdom_data float_of_string requests_get raise_for_status
    find_all_td_right find_all_percentage.
Let update :=
  update_data float_of_string requests_get raise_for_status
    find_all_td_right find_all_percentage history time_time render.

(** An exception of whichever step of the [try] is the outcome of the
    whole body. *)
Lemma fetch_apewisdom_try_raises (e : exn) :
  requests_get = Raise e \/
  (exists resp, requests_get = Ok resp /\
     (raise_for_status resp = Raise e \/
      (raise_for_status resp = Ok tt /\
       (find_all_td_right (text resp) = Raise e \/
        (exists cells, find_all_td_right (text resp) = Ok cells /\
                       find_all_percentage (text resp) = Raise e))))) ->
  fetch_try = Raise e.
Proof.
  unfold fetch_try, fetch_apewisdom_try.
  intros [H|(resp & Hr & [H|(Hs & [H|(cells & Hc & H)])])].
  - rewrite H. reflexivity.
  - rewrite Hr. simpl. rewrite H. reflexivity.
  - rewrite Hr. simpl. rewrite Hs. simpl. rewrite H. reflexivity.
  - rewrite Hr. simpl. rewrite Hs. simpl. rewrite Hc. simpl. rewrite H.
    reflexivity.
Qed.

(** C6. When the request, the status check or the parsing of the page
    raises, [fetch_apewisdom_data] returns [None] instead of raising, and
    [update_data] returns without an exception, leaving [ticker_data], the
    time of the last update and the sort settings as they were, with the
    error in the status line and the loading indicator hidden. *)
Theorem update_data_fetch_failure (e : exn) (g : globals) :
  requests_get = Raise e \/
  (exists resp, requests_get = Ok resp /\
     (raise_for_status resp = Raise e \/
      (raise_for_status resp = Ok tt /\
       (find_all_td_right (text resp) = Raise e \/
        (exists cells, find_all_td_right (text resp) = Ok cells /\
                       find_all_percentage (text resp) = Raise e))))) ->
  fetch = None /\
  snd (update g) = None /\
  ticker_data (fst (update g)) = ticker_data g /\
  last_update_time (fst (update g)) = last_update_time g /\
  current_sort (fst (update g)) = current_sort g /\
  status_text (fst (update g)) = "Error fetching tickers from ApeWisdom!" /\
  loading_wheel (fst (update g)) = false.
Proof.
  intros H. apply fetch_apewisdom_try_raises in H.
  assert (Hf : fetch = None).
  { unfold fetch, fetch_apewisdom_data. fold fetch_try. rewrite H. reflexivity. }
  split; [exact Hf|].
  unfold update, update_data. fold fetch. rewrite Hf. simpl. repeat split.
Qed.

End FetchFailure.

Lemma update_data_fetch_failure_witness :
  let update :=
    update_data Example.float_of_string (Raise (LibraryError "ConnectionError"))
      (fun _ => Ok tt) (fun _ => Ok Example.plain_cells) (fun _ => Ok [])
      Example.plain_history zero Example.render_ok in
  snd (update Example.plain_globals) = None /\
  ticker_data (fst (update Example.plain_globals))
  = ticker_data Example.plain_globals.
Proof.
  intros update.
  pose proof (update_data_fetch_failure Example.float_of_string
                (Raise (LibraryError "ConnectionError"))
                (fun _ => Ok tt) (fun _ => Ok Example.plain_cells)
                (fun _ => Ok []) Example.plain_history zero Example.render_ok
                (LibraryError "ConnectionError") Example.plain_globals
                (or_introl eq_refl)) as H.
  exact (conj (proj1 (proj2 H)) (proj1 (proj2 (proj2 H)))).
Defined.

(* ================================================================= *)
(** ** The colour of a percentage *)

Import PyFloatFacts.

Lemma min_one_in_unit (x : float) :
  nonneg x -> in_unit (PyFloat.min x one).
Proof.
  intros Hx. unfold in_unit, PyFloat.min.
  destruct (ltb one x) eqn:E.
  - split; reflexivity.
  - split; [apply leb_zero_nonneg, Hx|].
    apply leb_of_not_ltb; [apply nonneg_not_nan, Hx | reflexivity | exact E].
Qed.

(** C5, as stated, fails: for NaN the red channel is NaN, which is not
    between 0 and 1. *)
Lemma get_color_from_percentage_nan_counterexample :
  get_color_from_percentage nan = [nan; zero; zero] /\
  ~ in_unit nan.
Proof.
  split; [reflexivity|]. intros [H _]. discriminate H.
Qed.

(** C5, amended. For every float [p] other than NaN the three channels lie
    between 0 and 1; the colour is [0, min(|p|/20, 1), 0] when [p > 0] and
    [min(|p|/20, 1), 0, 0] when [p <= 0]; it is black for 0.0, full green
    for 20.0, full red for -20.0, and the same for 40.0 as for 20.0. *)
Theorem get_color_from_percentage_spec (p : float) :
  is_nan p = false ->
  Forall in_unit (get_color_from_percentage p) /\
  (ltb zero p = true ->
   get_color_from_percentage p
   = [zero; PyFloat.min (div (abs p) twenty) one; zero]) /\
  (leb p zero = true ->
   get_color_from_percentage p
   = [PyFloat.min (div (abs p) twenty) one; zero; zero]) /\
  get_color_from_percentage zero = [zero; zero; zero] /\
  get_color_from_percentage twenty = [zero; one; zero] /\
  get_color_from_percentage (of_Z (-20)) = [one; zero; zero] /\
  get_color_from_percentage (of_Z 40) = get_color_from_percentage twenty.
Proof.
  intros Hp.
  assert (Hz : in_unit zero) by (split; reflexivity).
  pose proof (min_one_in_unit _ (div_abs_nonneg p Hp)) as Hi.
  repeat split; try reflexivity.
  - unfold get_color_from_percentage. destruct (ltb zero p); repeat constructor;
      first [apply Hz | apply Hi].
  - intros H. unfold get_color_from_percentage. rewrite H. reflexivity.
  - intros H. unfold get_color_from_percentage.
    rewrite (leb_ltb_false _ _ H). reflexivity.
Qed.

Lemma get_color_from_percentage_spec_witness :
  Forall in_unit (get_color_from_percentage (of_Z 7)) /\
  get_color_from_percentage (of_Z 7)
  = [zero; div (of_Z 7) twenty; zero].
Proof.
  pose proof (get_color_from_percentage_spec (of_Z 7) eq_refl) as H.
  exact (conj (proj1 H) (proj1 (proj2 H) eq_refl)).
Defined.

(* ================================================================= *)
(** ** The builtin [sorted] on float keys *)

Module SortedFacts.

Import PySort PySortFacts.

Section Keyed.
Context {V : Type}.
Variable key : V -> exc float.

Lemma mapM_decorate l : forall kl,
  mapM (decorate key) l = Ok kl ->
  map snd kl = l /\ Forall (fun p => key (snd p) = Ok (fst p)) kl.
Proof.
  induction l as [|v l IH]; intros kl H; simpl in H.
  - injection H as <-. split; constructor.
  - unfold decorate in H at 1. destruct (key v) as [k|e] eqn:Hk; [|discriminate].
    destruct (mapM (decorate key) l) as [kl'|e]; [|discriminate].
    injection H as <-. destruct (IH kl' eq_refl) as [H1 H2].
    split; simpl; [f_equal; assumption | constructor; assumption].
Qed.

Lemma mapM_decorate_total l :
  (forall v, In v l -> exists k, key v = Ok k) ->
  exists kl, mapM (decorate key) l = Ok kl.
Proof.
  induction l as [|v l IH]; intros H; simpl.
  - eexists; reflexivity.
  - destruct (H v (or_introl eq_refl)) as [k Hk].
    destruct IH as [kl Hkl]; [intros; apply H; right; assumption|].
    unfold decorate at 1. rewrite Hk, Hkl. eexists; reflexivity.
Qed.

Lemma mapM_decorate_map (h : V -> V) l :
  (forall v, key (h v) = key v) ->
  mapM (decorate key) (map h l)
  = match mapM (decorate key) l with
    | Ok kl => Ok (map (fun p => (fst p, h (snd p))) kl)
    | Raise e => Raise e
    end.
Proof.
  intros Hh. induction l as [|v l IH]; simpl; [reflexivity|].
  unfold decorate at 1 3. rewrite Hh. destruct (key v); [|reflexivity].
  rewrite IH. destruct (mapM (decorate key) l); reflexivity.
Qed.

Lemma sorted_keyed_map (h : V -> V) reverse (kl : list (float * V)) :
  sorted_keyed ltb reverse (map (fun p => (fst p, h (snd p))) kl)
  = map (fun p => (fst p, h (snd p))) (sorted_keyed ltb reverse kl).
Proof.
  unfold sorted_keyed. destruct reverse.
  - rewrite <- map_rev.
    rewrite (list_sort_map (key_lt ltb) (key_lt ltb)) by reflexivity.
    rewrite map_rev. reflexivity.
  - apply (list_sort_map (key_lt ltb) (key_lt ltb)). reflexivity.
Qed.

(** The view of a list whose elements are replaced without a change of
    their keys is the view of the list, with the same replacement. *)
Lemma sorted_map (h : V -> V) reverse l :
  (forall v, key (h v) = key v) ->
  sorted ltb key reverse (map h l)
  = match sorted ltb key reverse l with
    | Ok view => Ok (map h view)
    | Raise e => Raise e
    end.
Proof.
  intros Hh. unfold sorted. rewrite mapM_decorate_map by assumption.
  destruct (mapM (decorate key) l) as [kl|e]; [|reflexivity].
  rewrite sorted_keyed_map, !map_map. reflexivity.
Qed.

Lemma key_lt_asym (x y : float * V) :
  good x -> good y -> key_lt ltb x y = true -> key_lt ltb y x = false.
Proof. intros _ _. apply PyFloatFacts.ltb_asym. Qed.

Lemma key_lt_negtrans (x y z : float * V) :
  good x -> good y -> good z ->
  key_lt ltb x y = false -> key_lt ltb y z = false -> key_lt ltb x z = false.
Proof. unfold good, key_lt. apply PyFloatFacts.ltb_negtrans. Qed.

Lemma sorted_keyed_Forall (Q : float * V -> Prop) reverse
    (kl : list (float * V)) :
  Forall good kl -> Forall Q kl -> Forall Q (sorted_keyed ltb reverse kl).
Proof.
  intros Hg HQ. unfold sorted_keyed. destruct reverse.
  - apply Forall_rev.
    apply (list_sort_Forall (key_lt ltb) good key_lt_asym key_lt_negtrans);
      apply Forall_rev; assumption.
  - apply (list_sort_Forall (key_lt ltb) good key_lt_asym key_lt_negtrans);
      assumption.
Qed.

Lemma filter_rev_list {T : Type} (f : T -> bool) (l : list T) :
  filter f (rev l) = rev (filter f l).
Proof.
  induction l as [|x l IH]; simpl; [reflexivity|].
  rewrite filter_app, IH. simpl. destruct (f x); simpl;
    [reflexivity | apply app_nil_r].
Qed.

(** Stability on keys without NaN, in both directions. *)
Lemma sorted_keyed_stable (k : float) reverse (kl : list (float * V)) :
  Forall good kl ->
  filter (fun p => eqb (fst p) k) (sorted_keyed ltb reverse kl)
  = filter (fun p => eqb (fst p) k) kl.
Proof.
  intros Hg.
  assert (Hsel : forall a b : float * V, good a -> good b ->
            eqb (fst a) k = true -> eqb (fst b) k = true ->
            key_lt ltb a b = false).
  { intros a b _ _. apply PyFloatFacts.eqb_ltb_false. }
  unfold sorted_keyed. destruct reverse.
  - rewrite filter_rev_list.
    rewrite (list_sort_filter (key_lt ltb) good key_lt_asym key_lt_negtrans
               _ Hsel) by (apply Forall_rev; assumption).
    rewrite filter_rev_list. apply rev_involutive.
  - apply (list_sort_filter (key_lt ltb) good key_lt_asym key_lt_negtrans
             _ Hsel). assumption.
Qed.

(** On keys without NaN the elements with the key [-inf] are first in an
    ascending sort and last in a descending one. *)
Lemma sorted_keyed_neg_inf reverse (kl : list (float * V)) :
  Forall good kl ->
  exists low high,
    sorted_keyed ltb reverse kl
    = (if reverse then high ++ low else low ++ high) /\
    Forall (fun p => is_neg_inf (fst p) = true) low /\
    Forall (fun p => is_neg_inf (fst p) = false) high.
Proof.
  intros Hg.
  assert (Hbot : forall x y : float * V,
            is_neg_inf (fst y) = true -> key_lt ltb x y = false).
  { intros x y Hy. apply PyFloatFacts.is_neg_inf_eq in Hy.
    unfold key_lt. rewrite Hy. apply PyFloatFacts.ltb_neg_inf_r. }
  assert (Hlt : forall x y : float * V, good x -> good y ->
            is_neg_inf (fst x) = true -> is_neg_inf (fst y) = false ->
            key_lt ltb x y = true).
  { intros x y _ Hy Hx Hny. apply PyFloatFacts.is_neg_inf_eq in Hx.
    unfold key_lt. rewrite Hx. apply PyFloatFacts.ltb_neg_inf_l; [exact Hy|].
    intros E. apply PyFloatFacts.is_neg_inf_eq in E. congruence. }
  unfold sorted_keyed. destruct reverse.
  - destruct (list_sort_bottom (key_lt ltb) good key_lt_asym key_lt_negtrans
                _ Hbot Hlt (rev kl)) as (low & high & E & Hl & Hh);
      [apply Forall_rev; assumption|].
    exists (rev low), (rev high). rewrite E, rev_app_distr.
    auto using Forall_rev.
  - apply (list_sort_bottom (key_lt ltb) good key_lt_asym key_lt_negtrans
             _ Hbot Hlt). assumption.
Qed.

End Keyed.

End SortedFacts.

(* ================================================================= *)
(** ** The sorted view of the dict *)

Section SortedView.

Import PySort SortedFacts.

Variable float_of_string : string -> option float.

Let key := get_sort_key float_of_string.
Let view_of := sorted_ticker_data float_of_string.

(** The key of an error row is [-inf], for every sort field. *)
Lemma get_sort_key_error (cs : sort_state) (t msg : string) :
  key cs (t, ErrorStr msg) = Ok neg_inf.
Proof. reflexivity. Qed.

(** On the three fields of the sort buttons no key raises. *)
Lemma get_sort_key_total (cs : sort_state) (it : string * ticker_value) :
  sort_button_field (field cs) -> exists k, key cs it = Ok k.
Proof.
  intros Hf. destruct it as [t [msg|d]]; [eexists; reflexivity|].
  unfold key, get_sort_key, get_sort_key_try. cbn [snd].
  destruct Hf as [Hf|[Hf|Hf]]; rewrite Hf; cbn.
  - destruct (float_of_string _); eexists; reflexivity.
  - eexists; reflexivity.
  - eexists; reflexivity.
Qed.

Lemma sorted_ticker_data_total (g : globals) :
  sort_button_field (field (current_sort g)) ->
  exists view, view_of g = Ok view.
Proof.
  intros Hf. unfold view_of, sorted_ticker_data, sorted.
  destruct (mapM_decorate_total (key (current_sort g)) (ticker_data g))
    as [kl Hkl].
  - intros v _. apply get_sort_key_total, Hf.
  - fold key. rewrite Hkl. eexists; reflexivity.
Qed.

Lemma decorated_good (cs : sort_state) (d : dict) kl :
  keys_not_nan float_of_string cs d ->
  mapM (decorate (key cs)) d = Ok kl ->
  Forall good kl /\ Forall (fun p => key cs (snd p) = Ok (fst p)) kl /\
  map snd kl = d.
Proof.
  intros Hn Hkl. destruct (mapM_decorate _ _ _ Hkl) as [Hd Hk].
  repeat split; try assumption.
  rewrite Forall_forall in *. intros p Hp.
  apply (Hn (snd p) (fst p)); [|apply Hk, Hp].
  rewrite <- Hd. apply in_map, Hp.
Qed.

Lemma filter_keyed (cs : sort_state) (k : float) kl :
  Forall (fun p => key cs (snd p) = Ok (fst p)) kl ->
  filter (key_eqb float_of_string cs k) (map snd kl)
  = map snd (filter (fun p => eqb (fst p) k) kl).
Proof.
  induction 1 as [|p kl Hp _ IH]; simpl; [reflexivity|].
  unfold key_eqb at 1. fold key. rewrite Hp, IH.
  destruct (eqb (fst p) k); reflexivity.
Qed.

(** C8, as stated, fails: with NaN among the keys, two rows of equal key
    can change places.  Eight tickers are fetched whose price changes are
    25, NaN, NaN, 100, NaN, 50, 75 and 50.  The first seven are taken as
    one ascending run, since no key is smaller than its predecessor, and
    the binary search then puts the row H before the row D: in the
    ascending view by price change H comes before F, which was inserted
    before it and has the same key. *)
Lemma sorted_ticker_data_unstable_counterexample :
  let g := Example.eight_globals in
  let same_key := key_eqb Example.float_of_string (current_sort g) (of_Z 50) in
  current_sort g = {| field := "price_change"; reverse := false |} /\
  map fst (ticker_data g) = ["A"; "B"; "C"; "D"; "E"; "F"; "G"; "H"] /\
  map (get_sort_key Example.float_of_string (current_sort g)) (ticker_data g)
  = [Ok (of_Z 25); Ok nan; Ok nan; Ok (of_Z 100); Ok nan; Ok (of_Z 50);
     Ok (of_Z 75); Ok (of_Z 50)] /\
  exists view,
    sorted_ticker_data Example.float_of_string g = Ok view /\
    map fst view = ["A"; "B"; "C"; "H"; "D"; "E"; "F"; "G"] /\
    map fst (filter same_key (ticker_data g)) = ["F"; "H"] /\
    map fst (filter same_key view) = ["H"; "F"].
Proof.
  split; [reflexivity|]. split; [reflexivity|].
  split; [vm_compute; reflexivity|].
  eexists. split; [vm_compute; reflexivity|].
  vm_compute. repeat split.
Qed.

(** C8, amended. When no sort key is NaN, the rows whose key equals a
    given value appear in the sorted view in their insertion order,
    whether the direction is descending or ascending; and on the three
    fields of the sort buttons the view exists. *)
Theorem sorted_ticker_data_stable (g : globals) :
  keys_not_nan float_of_string (current_sort g) (ticker_data g) ->
  (sort_button_field (field (current_sort g)) ->
   exists view, sorted_ticker_data float_of_string g = Ok view) /\
  forall view k,
    sorted_ticker_data float_of_string g = Ok view ->
    filter (key_eqb float_of_string (current_sort g) k) view
    = filter (key_eqb float_of_string (current_sort g) k) (ticker_data g).
Proof.
  intros Hn. split; [apply sorted_ticker_data_total|].
  intros view k Hv. unfold view_of, sorted_ticker_data, sorted in Hv.
  fold key in Hv.
  destruct (mapM (decorate (key (current_sort g))) (ticker_data g))
    as [kl|e] eqn:Hkl; [|discriminate].
  injection Hv as <-.
  destruct (decorated_good _ _ _ Hn Hkl) as (Hg & Hk & Hd).
  rewrite filter_keyed
    by (apply sorted_keyed_Forall; assumption).
  rewrite sorted_keyed_stable by assumption.
  rewrite <- (filter_keyed (current_sort g) k kl Hk).
  rewrite Hd. reflexivity.
Qed.

End SortedView.

Lemma plain_dict_keys_not_nan (cs : sort_state) :
  sort_button_field (field cs) ->
  keys_not_nan Example.float_of_string cs (ticker_data Example.plain_globals).
Proof.
  intros Hf it k Hin Hk. destruct cs as [f r]. simpl in Hf.
  unfold Example.plain_globals in Hin. cbn [ticker_data In] in Hin.
  destruct Hf as [ -> | [ -> | -> ] ].
  - destruct Hin as [ <- | [ <- | [ <- | [ <- | [] ] ] ] ];
      vm_compute in Hk; injection Hk as <-; reflexivity.
  - destruct Hin as [ <- | [ <- | [ <- | [ <- | [] ] ] ] ];
      vm_compute in Hk; injection Hk as <-; reflexivity.
  - destruct Hin as [ <- | [ <- | [ <- | [ <- | [] ] ] ] ];
      vm_compute in Hk; injection Hk as <-; reflexivity.
Qed.

Lemma sorted_ticker_data_stable_witness :
  let g := Example.plain_desc in
  let same_key := key_eqb Example.float_of_string (current_sort g) (of_Z 100) in
  sorted_ticker_data Example.float_of_string g = Ok Example.plain_view_desc /\
  map fst Example.plain_view_desc = ["GME"; "AMC"; "TSLA"; "XXX"] /\
  map fst (filter same_key (ticker_data g)) = ["GME"; "AMC"] /\
  filter same_key Example.plain_view_desc = filter same_key (ticker_data g).
Proof.
  intros g same_key.
  assert (Hv : sorted_ticker_data Example.float_of_string g
               = Ok Example.plain_view_desc)
    by (vm_compute; reflexivity).
  split; [exact Hv|]. split; [reflexivity|].
  split; [vm_compute; reflexivity|].
  exact (proj2 (sorted_ticker_data_stable Example.float_of_string g
                  (plain_dict_keys_not_nan (current_sort g)
                     (or_intror (or_introl eq_refl))))
           Example.plain_view_desc (of_Z 100) Hv).
Defined.

(* ================================================================= *)
(** ** Error rows in the sorted view *)

(** C3, as stated, fails: a row whose key is NaN is not moved by the sort,
    and neither are the rows around it.  Three tickers are fetched: no
    prices for AAA, a price change of NaN for BBB and of 50 for CCC.  In the
    descending view by price change the error row AAA is first and the row
    CCC is last. *)
Lemma sorted_ticker_data_error_first_counterexample :
  let g := Example.nan_globals in
  current_sort g = {| field := "price_change"; reverse := true |} /\
  map fst (ticker_data g) = ["AAA"; "BBB"; "CCC"] /\
  map (fun it => is_error (snd it)) (ticker_data g) = [true; false; false] /\
  map (get_sort_key Example.float_of_string (current_sort g)) (ticker_data g)
  = [Ok neg_inf; Ok nan; Ok (of_Z 50)] /\
  sorted_ticker_data Example.float_of_string g = Ok (ticker_data g).
Proof. vm_compute. repeat split. Qed.

Section ErrorRows.

Import PySort SortedFacts.

Variable float_of_string : string -> option float.

Lemma has_key_neg_inf (cs : sort_state) (p : float * (string * ticker_value)) :
  get_sort_key float_of_string cs (snd p) = Ok (fst p) ->
  (is_neg_inf (fst p) = true -> has_key float_of_string cs neg_inf (snd p)) /\
  (is_neg_inf (fst p) = false ->
   ~ has_key float_of_string cs neg_inf (snd p) /\ is_error (snd (snd p)) = false).
Proof.
  intros Hk. unfold has_key. split.
  - intros H. apply PyFloatFacts.is_neg_inf_eq in H. congruence.
  - intros H. assert (Hne : fst p <> neg_inf).
    { intros E. apply PyFloatFacts.is_neg_inf_eq in E. congruence. }
    split; [congruence|].
    destruct p as [k [t [msg|d]]]; [|reflexivity].
    exfalso. apply Hne. cbn in Hk. injection Hk as <-. reflexivity.
Qed.

(** C3, amended. The sort key of an error row is [-inf] for every sort
    field.  When no sort key is NaN, the sorted view is made of two blocks:
    the rows whose key is [-inf], among them every error row, and the
    other rows; the block of the [-inf] rows is last when the direction is
    descending and first when it is ascending.  On the three fields of the
    sort buttons the view exists. *)
Theorem sorted_ticker_data_errors_extremal (g : globals) :
  keys_not_nan float_of_string (current_sort g) (ticker_data g) ->
  (forall t msg,
     get_sort_key float_of_string (current_sort g) (t, ErrorStr msg)
     = Ok neg_inf) /\
  (sort_button_field (field (current_sort g)) ->
   exists view, sorted_ticker_data float_of_string g = Ok view) /\
  forall view,
    sorted_ticker_data float_of_string g = Ok view ->
    exists low high,
      view = (if reverse (current_sort g) then high ++ low else low ++ high) /\
      Forall (has_key float_of_string (current_sort g) neg_inf) low /\
      Forall (fun it => ~ has_key float_of_string (current_sort g) neg_inf it)
        high /\
      Forall (fun it => is_error (snd it) = false) high.
Proof.
  intros Hn. split; [reflexivity|].
  split; [apply sorted_ticker_data_total|].
  intros view Hv. unfold sorted_ticker_data, sorted in Hv.
  destruct (mapM (decorate (get_sort_key float_of_string (current_sort g)))
              (ticker_data g)) as [kl|e] eqn:Hkl; [|discriminate].
  injection Hv as <-.
  destruct (decorated_good _ _ _ _ Hn Hkl) as (Hg & Hk & Hd).
  pose proof (sorted_keyed_Forall _ (reverse (current_sort g)) kl Hg Hk) as Hs.
  destruct (sorted_keyed_neg_inf (reverse (current_sort g)) kl Hg)
    as (low & high & E & Hl & Hh).
  rewrite E in Hs |- *.
  assert (Hboth : Forall (fun p => get_sort_key float_of_string (current_sort g)
                                     (snd p) = Ok (fst p)) low /\
                  Forall (fun p => get_sort_key float_of_string (current_sort g)
                                     (snd p) = Ok (fst p)) high).
  { destruct (reverse (current_sort g)); apply Forall_app in Hs; tauto. }
  destruct Hboth as [Hkl' Hkh].
  exists (map snd low), (map snd high). repeat split.
  - destruct (reverse (current_sort g)); apply map_app.
  - rewrite Forall_forall in *. intros it Hit.
    apply in_map_iff in Hit. destruct Hit as (p & <- & Hp).
    apply (has_key_neg_inf _ p (Hkl' p Hp)), Hl, Hp.
  - rewrite Forall_forall in *. intros it Hit.
    apply in_map_iff in Hit. destruct Hit as (p & <- & Hp).
    apply (has_key_neg_inf _ p (Hkh p Hp)), Hh, Hp.
  - rewrite Forall_forall in *. intros it Hit.
    apply in_map_iff in Hit. destruct Hit as (p & <- & Hp).
    apply (has_key_neg_inf _ p (Hkh p Hp)), Hh, Hp.
Qed.

End ErrorRows.

Lemma sorted_ticker_data_errors_extremal_witness :
  let g := Example.plain_asc in
  current_sort g = {| field := "price_change"; reverse := false |} /\
  sorted_ticker_data Example.float_of_string g = Ok Example.plain_view_asc /\
  map fst Example.plain_view_asc = ["XXX"; "TSLA"; "GME"; "AMC"] /\
  exists low high,
    Example.plain_view_asc = low ++ high /\
    Forall (has_key Example.float_of_string (current_sort g) neg_inf) low /\
    Forall (fun it => is_error (snd it) = false) high.
Proof.
  intros g. split; [reflexivity|].
  assert (Hv : sorted_ticker_data Example.float_of_string g
               = Ok Example.plain_view_asc)
    by (vm_compute; reflexivity).
  split; [exact Hv|]. split; [reflexivity|].
  destruct (proj2 (proj2 (sorted_ticker_data_errors_extremal
                            Example.float_of_string g
                            (plain_dict_keys_not_nan (current_sort g)
                               (or_intror (or_introl eq_refl)))))
              Example.plain_view_asc Hv)
    as (low & high & E & Hl & _ & Hh).
  exists low, high. exact (conj E (conj Hl Hh)).
Defined.

(* ================================================================= *)
(** ** Records whose sort field cannot be parsed *)

(** C10, as stated, fails: a NaN key keeps the sort from bringing the rows
    with the key [-inf] together.  Four tickers are fetched: no prices for
    XXX, and the mention counts ["nan"], ["50"] and ["N/A"] for GME, AMC
    and TSLA.  The keys by mentions are [-inf], NaN, 50 and [-inf]: the
    record TSLA, whose mention count cannot be parsed, has the key of the
    error row XXX.  In the descending view the error row is first and the
    record TSLA is last. *)
Lemma sorted_ticker_data_unparseable_counterexample :
  let g := Example.nan_mentions_globals in
  current_sort g = {| field := "mentions"; reverse := true |} /\
  map fst (ticker_data g) = ["XXX"; "GME"; "AMC"; "TSLA"] /\
  map (fun it => is_error (snd it)) (ticker_data g)
  = [true; false; false; false] /\
  map (get_sort_key Example.float_of_string_nan (current_sort g))
    (ticker_data g)
  = [Ok neg_inf; Ok nan; Ok (of_Z 50); Ok neg_inf] /\
  (forall d, In ("TSLA", Info d) (ticker_data g) ->
     get_sort_key_try Example.float_of_string_nan (current_sort g) d
     = Raise ValueError) /\
  sorted_ticker_data Example.float_of_string_nan g = Ok (ticker_data g).
Proof.
  intros g. split; [reflexivity|]. split; [reflexivity|].
  split; [reflexivity|]. split; [vm_compute; reflexivity|].
  split; [|vm_compute; reflexivity].
  intros d [H|[H|[H|[H|[]]]]]; try discriminate.
  injection H as <-. vm_compute. reflexivity.
Qed.

Section Unparseable.

Import PySort SortedFacts.

Variable float_of_string : string -> option float.

Lemma unparseable_has_key (cs : sort_state) (it : string * ticker_value) :
  unparseable float_of_string cs it ->
  has_key float_of_string cs neg_inf it.
Proof.
  intros (d & Hd & Hr). unfold has_key, get_sort_key.
  rewrite Hd, Hr. reflexivity.
Qed.

Lemma sorted_view_blocks (g : globals)
    (view : list (string * ticker_value)) :
  keys_not_nan float_of_string (current_sort g) (ticker_data g) ->
  sorted_ticker_data float_of_string g = Ok view ->
  exists low high,
    view = (if reverse (current_sort g) then high ++ low else low ++ high) /\
    Forall (has_key float_of_string (current_sort g) neg_inf) low /\
    Forall (fun it => ~ has_key float_of_string (current_sort g) neg_inf it)
      high.
Proof.
  intros Hn Hv. unfold sorted_ticker_data, sorted in Hv.
  destruct (mapM (decorate (get_sort_key float_of_string (current_sort g)))
              (ticker_data g)) as [kl|e] eqn:Hkl; [|discriminate].
  injection Hv as <-.
  destruct (decorated_good _ _ _ _ Hn Hkl) as (Hg & Hk & Hd).
  pose proof (sorted_keyed_Forall _ (reverse (current_sort g)) kl Hg Hk) as Hs.
  destruct (sorted_keyed_neg_inf (reverse (current_sort g)) kl Hg)
    as (low & high & E & Hl & Hh).
  rewrite E in Hs |- *.
  assert (Hboth : Forall (fun p => get_sort_key float_of_string (current_sort g)
                                     (snd p) = Ok (fst p)) (low ++ high)).
  { destruct (reverse (current_sort g)); [|exact Hs].
    apply Forall_app in Hs. apply Forall_app. tauto. }
  apply Forall_app in Hboth. destruct Hboth as [Hkl' Hkh].
  exists (map snd low), (map snd high). split; [|split].
  - destruct (reverse (current_sort g)); apply map_app.
  - rewrite Forall_forall in *. intros it Hit.
    apply in_map_iff in Hit. destruct Hit as (p & <- & Hp).
    apply (has_key_neg_inf _ _ p (Hkl' p Hp)), Hl, Hp.
  - rewrite Forall_forall in *. intros it Hit.
    apply in_map_iff in Hit. destruct Hit as (p & <- & Hp).
    apply (has_key_neg_inf _ _ p (Hkh p Hp)), Hh, Hp.
Qed.

(** C10, amended. With the sort field [mentions], a record whose mention
    count, after the commas are removed, is not a number makes [float]
    raise [ValueError]; the sort key of a record whose [try] ends in a
    [ValueError] is [-inf], the key of every error row, and no exception
    leaves [get_sort_key].  When no sort key is NaN, the sorted view is
    made of two blocks, the rows with the key [-inf] and the other rows;
    every such record of the view lies, with every error row, in the block
    of the [-inf] rows, which is last when the direction is descending and
    first when it is ascending.  On the three fields of the sort buttons
    the view exists. *)
Theorem sorted_ticker_data_unparseable_extremal (g : globals) :
  keys_not_nan float_of_string (current_sort g) (ticker_data g) ->
  (forall d,
     field (current_sort g) = "mentions" ->
     float_of_string (PyStr.remove_char ","%char (mentions d)) = None ->
     get_sort_key_try float_of_string (current_sort g) d = Raise ValueError) /\
  (forall t d msg,
     get_sort_key_try float_of_string (current_sort g) d = Raise ValueError ->
     get_sort_key float_of_string (current_sort g) (t, Info d) = Ok neg_inf /\
     get_sort_key float_of_string (current_sort g) (t, Info d)
     = get_sort_key float_of_string (current_sort g) (t, ErrorStr msg)) /\
  (sort_button_field (field (current_sort g)) ->
   exists view, sorted_ticker_data float_of_string g = Ok view) /\
  forall view,
    sorted_ticker_data float_of_string g = Ok view ->
    exists low high,
      view = (if reverse (current_sort g) then high ++ low else low ++ high) /\
      (forall it, In it view ->
         unparseable float_of_string (current_sort g) it \/
         is_error (snd it) = true ->
         In it low) /\
      Forall (has_key float_of_string (current_sort g) neg_inf) low /\
      Forall (fun it => ~ has_key float_of_string (current_sort g) neg_inf it)
        high.
Proof.
  intros Hn. split; [|split; [|split]].
  - intros d Hf Hp. unfold get_sort_key_try. rewrite Hf. cbn.
    rewrite Hp. reflexivity.
  - intros t d msg H. unfold get_sort_key. cbn [snd]. rewrite H.
    split; reflexivity.
  - apply sorted_ticker_data_total.
  - intros view Hv.
    destruct (sorted_view_blocks g view Hn Hv) as (low & high & E & Hl & Hh).
    exists low, high. split; [exact E|]. split; [|split; assumption].
    intros it Hin Hit.
    assert (Hkey : has_key float_of_string (current_sort g) neg_inf it).
    { destruct Hit as [Hu|He]; [apply unparseable_has_key, Hu|].
      destruct it as [t [msg|d]]; [reflexivity|discriminate]. }
    assert (Hor : In it low \/ In it high).
    { rewrite E in Hin. destruct (reverse (current_sort g));
        apply in_app_or in Hin; tauto. }
    destruct Hor as [H|H]; [exact H|].
    rewrite Forall_forall in Hh. destruct (Hh it H Hkey).
Qed.

End Unparseable.

Lemma sorted_ticker_data_unparseable_extremal_witness :
  let g := Example.plain_globals in
  current_sort g = {| field := "mentions"; reverse := true |} /\
  map (get_sort_key Example.float_of_string (current_sort g)) (ticker_data g)
  = [Ok (of_Z 1234); Ok neg_inf; Ok neg_inf; Ok (of_Z 77)] /\
  sorted_ticker_data Example.float_of_string g
  = Ok Example.plain_view_mentions /\
  map fst Example.plain_view_mentions = ["GME"; "TSLA"; "XXX"; "AMC"] /\
  exists low high,
    Example.plain_view_mentions = high ++ low /\
    (forall it, In it Example.plain_view_mentions ->
       unparseable Example.float_of_string (current_sort g) it \/
       is_error (snd it) = true ->
       In it low) /\
    Forall (has_key Example.float_of_string (current_sort g) neg_inf) low /\
    Forall (fun it => ~ has_key Example.float_of_string (current_sort g)
                          neg_inf it) high.
Proof.
  intros g. split; [reflexivity|]. split; [vm_compute; reflexivity|].
  assert (Hv : sorted_ticker_data Example.float_of_string g
               = Ok Example.plain_view_mentions)
    by (vm_compute; reflexivity).
  split; [exact Hv|]. split; [reflexivity|].
  exact (proj2 (proj2 (proj2 (sorted_ticker_data_unparseable_extremal
                                Example.float_of_string g
                                (plain_dict_keys_not_nan (current_sort g)
                                   (or_introl eq_refl)))))
           Example.plain_view_mentions Hv).
Defined.

(* ================================================================= *)
(** ** Further properties of the refresh *)

Section Refresh.

Variable float_of_string : string -> option float.
Variable requests_get : exc response.
Variable raise_for_status : response -> exc unit.
Variable find_all_td_right : string -> exc (list string).
Variable find_all_percentage : string -> exc (list string).
Variable history : string -> exc (list (timestamp * float)).
Variable time_time : float.
Variable render : list (string * ticker_value) -> exc unit.

Let fetch :=
  fetch_apewisdom_data float_of_string requests_get raise_for_status
    find_all_td_right find_all_percentage.
Let update :=
  update_data float_of_string requests_get raise_for_status
    find_all_td_right find_all_percentage history time_time render.

(** A series whose first price is 0.0 or -0.0 is not guarded: the division
    raises [ZeroDivisionError], which leaves [update_data] after the dict
    was cleared, with the loading indicator still shown. *)
Theorem update_data_zero_first_price (g : globals) (it : item)
    (rest : list item) (t0 : timestamp) (p0 : float)
    (rows : list (timestamp * float)) :
  fetch = Some (it :: rest) ->
  history (PyStr.remove_char "$"%char (item_ticker it)) = Ok ((t0, p0) :: rows) ->
  eqb p0 zero = true ->
  update_entry it (fetch_stock_data history (item_ticker it))
  = Raise ZeroDivisionError /\
  snd (update g) = Some ZeroDivisionError /\
  ticker_data (fst (update g)) = [] /\
  loading_wheel (fst (update g)) = true.
Proof.
  intros Hf Hh Hz.
  assert (He : update_entry it (fetch_stock_data history (item_ticker it))
               = Raise ZeroDivisionError).
  { unfold fetch_stock_data. rewrite Hh. cbn [List.length Nat.ltb Nat.leb map snd fst].
    unfold update_entry, truediv. rewrite Hz. reflexivity. }
  split; [exact He|].
  unfold update, update_data. fold fetch. rewrite Hf.
  cbn [update_loop]. rewrite He. repeat split.
Qed.

(** A ticker for which the price provider raises or returns no row is
    stored with the error string, and the loop goes on with the next
    item. *)
Theorem update_loop_missing_prices (it : item) (rest : list item) (d : dict) :
  (exists e, history (PyStr.remove_char "$"%char (item_ticker it)) = Raise e) \/
  history (PyStr.remove_char "$"%char (item_ticker it)) = Ok [] ->
  fetch_stock_data history (item_ticker it) = (None, None) /\
  update_loop history (it :: rest) d
  = update_loop history rest
      (dict_set (item_ticker it) (ErrorStr "Error fetching data") d).
Proof.
  intros H.
  assert (Hf : fetch_stock_data history (item_ticker it) = (None, None)).
  { unfold fetch_stock_data. destruct H as [[e ->] | ->]; reflexivity. }
  split; [exact Hf|]. cbn [update_loop]. rewrite Hf. reflexivity.
Qed.

(** The sort settings survive every call of [update_data], whatever its
    outcome. *)
Theorem update_data_keeps_current_sort (g : globals) :
  current_sort (fst (update g)) = current_sort g.
Proof.
  unfold update, update_data.
  destruct (fetch_apewisdom_data _ _ _ _ _) as [[|it rest]|]; try reflexivity.
  destruct (update_loop history (it :: rest) []) as [d [e|]]; [reflexivity|].
  cbn [fst]. unfold set_loading. cbn [current_sort].
  match goal with |- current_sort (refresh_ui _ _ ?x) = _ =>
    destruct (refresh_ui_keeps float_of_string render x) as (_ & _ & H & _) end.
  exact H.
Qed.

End Refresh.

(** The ranking never has more than ten entries. *)
Theorem fetch_apewisdom_data_at_most_ten
    (float_of_string : string -> option float) (requests_get : exc response)
    (raise_for_status : response -> exc unit)
    (find_all_td_right find_all_percentage : string -> exc (list string))
    (l : list item) :
  fetch_apewisdom_data float_of_string requests_get raise_for_status
    find_all_td_right find_all_percentage = Some l ->
  (List.length l <= 10)%nat.
Proof.
  unfold fetch_apewisdom_data, fetch_apewisdom_try.
  destruct requests_get as [resp|e]; [|discriminate]. cbn [bind].
  destruct (raise_for_status resp) as [u|e]; [|discriminate]. cbn [bind].
  destruct (find_all_td_right (text resp)) as [cells|e]; [|discriminate].
  cbn [bind].
  destruct (find_all_percentage (text resp)) as [spans|e]; [|discriminate].
  cbn [bind]. intros H. injection H as <-.
  unfold parse_ranking. rewrite length_firstn. lia.
Qed.


(** The sentiment spans are matched to the accepted entries by position:
    the entry accepted as number [i] gets span number [i], and 0.0 when
    the spans have run out. *)
Theorem ranking_loop_sentiments (sentiments : list float)
    (raw_data : list string) (sentiment_idx : nat) :
  map item_sentiment_change (ranking_loop raw_data sentiments sentiment_idx)
  = map (fun i => nth i sentiments zero)
      (seq sentiment_idx
         (List.length (ranking_loop raw_data sentiments sentiment_idx))).
Proof.
  assert (H : forall n l, (List.length l <= n)%nat -> forall idx,
    map item_sentiment_change (ranking_loop l sentiments idx)
    = map (fun i => nth i sentiments zero)
        (seq idx (List.length (ranking_loop l sentiments idx)))).
  { induction n as [|n IH]; intros l Hl idx.
    - destruct l; [reflexivity | simpl in Hl; lia].
    - destruct l as [|r [|t [|m rest]]]; try reflexivity.
      cbn [ranking_loop].
      assert (Hr : (List.length rest <= n)%nat) by (simpl in Hl; lia).
      destruct (PyStr.isdigit t).
      + apply IH, Hr.
      + cbn [map List.length seq item_sentiment_change]. f_equal. apply IH, Hr. }
  apply (H (List.length raw_data)). lia.
Qed.

(** When no key is NaN, the sort of the keyed rows is the stable insertion
    sort, in ascending direction, and its mirror image on the reversed list
    in descending direction. *)
Theorem sorted_keyed_insertion_sort (reverse : bool)
    (kl : list (float * (string * ticker_value))) :
  Forall good kl ->
  PySort.sorted_keyed ltb reverse kl
  = if reverse
    then rev (PySort.insertion_sort (PySort.key_lt ltb) (rev kl))
    else PySort.insertion_sort (PySort.key_lt ltb) kl.
Proof.
  intros Hg. unfold PySort.sorted_keyed. destruct reverse.
  - f_equal.
    apply (PySortFacts.list_sort_insertion (PySort.key_lt ltb) good
             SortedFacts.key_lt_asym SortedFacts.key_lt_negtrans).
    apply Forall_rev, Hg.
  - apply (PySortFacts.list_sort_insertion (PySort.key_lt ltb) good
             SortedFacts.key_lt_asym SortedFacts.key_lt_negtrans).
    exact Hg.
Qed.

Lemma update_data_zero_first_price_witness :
  let update :=
    update_data Example.float_of_string (Ok Example.page) (fun _ => Ok tt)
      (fun _ => Ok Example.zero_cells) (fun _ => Ok []) Example.zero_history
      zero Example.render_ok in
  snd (update Example.plain_globals) = Some ZeroDivisionError /\
  ticker_data (fst (update Example.plain_globals)) = [].
Proof.
  intros update.
  pose proof (update_data_zero_first_price Example.float_of_string
                (Ok Example.page) (fun _ => Ok tt)
                (fun _ => Ok Example.zero_cells) (fun _ => Ok [])
                Example.zero_history zero Example.render_ok
                Example.plain_globals Example.zero_item [] 0 zero
                [(900, of_Z 100)] eq_refl eq_refl eq_refl) as H.
  exact (conj (proj1 (proj2 H)) (proj1 (proj2 (proj2 H)))).
Defined.

Lemma update_loop_missing_prices_witness :
  update_loop Example.plain_history [Example.xxx_item] []
  = ([("XXX", ErrorStr "Error fetching data")], None).
Proof.
  exact (proj2 (update_loop_missing_prices Example.plain_history
                  Example.xxx_item [] []
                  (or_introl (ex_intro _ (LibraryError "YFTickerMissingError")
                                eq_refl)))).
Defined.

Lemma fetch_apewisdom_data_at_most_ten_witness :
  exists l,
    fetch_apewisdom_data Example.float_of_string (Ok Example.page)
      (fun _ => Ok tt) (fun _ => Ok Example.plain_cells) (fun _ => Ok [])
    = Some l /\
    map item_ticker l = ["GME"; "XXX"; "AMC"; "TSLA"] /\
    (List.length l <= 10)%nat.
Proof.
  eexists. split; [reflexivity|]. split; [reflexivity|].
  exact (fetch_apewisdom_data_at_most_ten Example.float_of_string
           (Ok Example.page) (fun _ => Ok tt)
           (fun _ => Ok Example.plain_cells) (fun _ => Ok []) _ eq_refl).
Defined.

Lemma sorted_keyed_insertion_sort_witness :
  PySort.sorted_keyed ltb true
    [(of_Z 1, ("A", ErrorStr "")); (of_Z 2, ("B", ErrorStr ""));
     (of_Z 1, ("C", ErrorStr ""))]
  = [(of_Z 2, ("B", ErrorStr "")); (of_Z 1, ("A", ErrorStr ""));
     (of_Z 1, ("C", ErrorStr ""))].
Proof.
  refine (sorted_keyed_insertion_sort true
            [(of_Z 1, ("A", ErrorStr "")); (of_Z 2, ("B", ErrorStr ""));
             (of_Z 1, ("C", ErrorStr ""))] _).
  repeat constructor.
Defined.

(* ================================================================= *)
(** ** The keys of the dict *)

Lemma update_loop_NoDup (history : string -> exc (list (timestamp * float)))
    (ape_data : list item) :
  forall d, NoDup (map fst d) ->
  NoDup (map fst (fst (update_loop history ape_data d))).
Proof.
  induction ape_data as [|it rest IH]; intros d Hd; cbn [update_loop].
  - exact Hd.
  - destruct (update_entry it (fetch_stock_data history (item_ticker it)));
      [|exact Hd].
    apply IH, dict_set_NoDup, Hd.
Qed.

(** The tickers of [ticker_data] stay distinct over every call of
    [update_data], whatever its outcome. *)
Theorem update_data_keys_distinct
    (float_of_string : string -> option float) (requests_get : exc response)
    (raise_for_status : response -> exc unit)
    (find_all_td_right find_all_percentage : string -> exc (list string))
    (history : string -> exc (list (timestamp * float))) (time_time : float)
    (render : list (string * ticker_value) -> exc unit) (g : globals) :
  NoDup (map fst (ticker_data g)) ->
  NoDup (map fst (ticker_data
    (fst (update_data float_of_string requests_get raise_for_status
            find_all_td_right find_all_percentage history time_time render
            g)))).
Proof.
  intros Hg. unfold update_data.
  destruct (fetch_apewisdom_data _ _ _ _ _) as [[|it rest]|]; try exact Hg.
  pose proof (update_loop_NoDup history (it :: rest) [] (NoDup_nil _)) as Hl.
  destruct (update_loop history (it :: rest) []) as [d [e|]]; [exact Hl|].
  cbn [fst]. unfold set_loading. cbn [ticker_data].
  match goal with |- NoDup (map fst (ticker_data (refresh_ui _ _ ?x))) =>
    destruct (refresh_ui_keeps float_of_string render x) as (H & _) end.
  rewrite H. exact Hl.
Qed.

Lemma update_data_keys_distinct_witness :
  NoDup (map fst (ticker_data
    (fst (update_data Example.float_of_string (Ok Example.page)
            (fun _ => Ok tt) (fun _ => Ok Example.plain_cells)
            (fun _ => Ok []) Example.plain_history zero Example.render_ok
            initial_globals)))).
Proof.
  exact (update_data_keys_distinct Example.float_of_string (Ok Example.page)
           (fun _ => Ok tt) (fun _ => Ok Example.plain_cells)
           (fun _ => Ok []) Example.plain_history zero Example.render_ok
           initial_globals (NoDup_nil _)).
Defined.

(* ================================================================= *)
(** ** More facts about the sort *)

From Stdlib Require Import Sorting.Permutation.

Module PySortMore.

Import PySort PySortFacts.
Local Open Scope list_scope.

Section Perm.
Context {A : Type}.
Variable lt : A -> A -> bool.

Lemma run_asc_app l : forall prev r t,
  run_asc lt prev l = (r, t) -> l = r ++ t.
Proof.
  induction l as [|x l IH]; intros prev r t H; simpl in H.
  - injection H as <- <-. reflexivity.
  - destruct (lt x prev).
    + injection H as <- <-. reflexivity.
    + destruct (run_asc lt x l) as [r' t'] eqn:E. injection H as <- <-.
      simpl. f_equal. apply (IH x). exact E.
Qed.

Lemma run_desc_app l : forall prev r t,
  run_desc lt prev l = (r, t) -> l = r ++ t.
Proof.
  induction l as [|x l IH]; intros prev r t H; simpl in H.
  - injection H as <- <-. reflexivity.
  - destruct (lt x prev).
    + destruct (run_desc lt x l) as [r' t'] eqn:E. injection H as <- <-.
      simpl. f_equal. apply (IH x). exact E.
    + injection H as <- <-. reflexivity.
Qed.

Lemma count_run_Permutation l run rest :
  count_run lt l = (run, rest) -> Permutation (run ++ rest) l.
Proof.
  unfold count_run. destruct l as [|a [|b l]]; intros H.
  - injection H as <- <-. constructor.
  - injection H as <- <-. apply Permutation_refl.
  - destruct (lt b a).
    + destruct (run_desc lt b l) as [r t] eqn:E. injection H as <- <-.
      rewrite (run_desc_app _ _ _ _ E).
      change (a :: b :: r ++ t) with ((a :: b :: r) ++ t).
      apply Permutation_app_tail. symmetry. apply Permutation_rev.
    + destruct (run_asc lt b l) as [r t] eqn:E. injection H as <- <-.
      rewrite (run_asc_app _ _ _ _ E). apply Permutation_refl.
Qed.

Lemma binary_insert_Permutation run pivot :
  Permutation (binary_insert lt run pivot) (pivot :: run).
Proof.
  unfold binary_insert.
  set (k := bisect lt _ _ _ _ _).
  rewrite <- (firstn_skipn k run) at 3.
  symmetry. apply Permutation_middle.
Qed.

Lemma binarysort_Permutation rest : forall run,
  Permutation (binarysort lt run rest) (run ++ rest).
Proof.
  unfold binarysort. induction rest as [|x rest IH]; intros run; simpl.
  - rewrite app_nil_r. apply Permutation_refl.
  - rewrite IH. rewrite binary_insert_Permutation.
    apply Permutation_middle.
Qed.

Lemma list_sort_Permutation l : Permutation (list_sort lt l) l.
Proof.
  unfold list_sort. destruct (count_run lt l) as [run rest] eqn:E.
  rewrite binarysort_Permutation. apply count_run_Permutation, E.
Qed.

(** A list in which no element is smaller than another is left as it
    is. *)
Lemma run_asc_all l : forall prev,
  (forall x y, In x (prev :: l) -> In y (prev :: l) -> lt x y = false) ->
  run_asc lt prev l = (l, []).
Proof.
  induction l as [|x l IH]; intros prev H; simpl; [reflexivity|].
  rewrite (H x prev) by (simpl; auto).
  rewrite IH; [reflexivity|].
  intros a b Ha Hb. apply H; right; assumption.
Qed.

Lemma list_sort_all_equal l :
  (forall x y, In x l -> In y l -> lt x y = false) -> list_sort lt l = l.
Proof.
  intros H. unfold list_sort, count_run.
  destruct l as [|a [|b l]]; try reflexivity.
  rewrite (H b a) by (simpl; auto).
  rewrite run_asc_all; [reflexivity|].
  intros x y Hx Hy. apply H; right; assumption.
Qed.
End Perm.

Section Ordered.
Context {A : Type}.
Variable lt : A -> A -> bool.
Variable P : A -> Prop.
Hypothesis lt_asym : forall x y, P x -> P y -> lt x y = true -> lt y x = false.
Hypothesis lt_negtrans : forall x y z, P x -> P y -> P z ->
  lt x y = false -> lt y z = false -> lt x z = false.

Lemma list_sort_ascending l : Forall P l -> ascending lt (list_sort lt l).
Proof.
  intros HP. rewrite (list_sort_insertion lt P lt_asym lt_negtrans) by assumption.
  unfold insertion_sort.
  assert (H : forall acc, Forall P acc -> ascending lt acc ->
            ascending lt (fold_left (fun r x => insert lt x r) l acc)).
  { induction l as [|x l IH]; intros acc Hacc Hs; simpl; [assumption|].
    inversion HP; subst. apply IH; auto.
    - apply insert_Forall; assumption.
    - apply (insert_ascending lt P lt_asym lt_negtrans); assumption. }
  apply H; simpl; auto.
Qed.

Lemma ascending_pair l pre a mid b post :
  ascending lt l -> l = pre ++ a :: mid ++ b :: post -> lt b a = false.
Proof.
  intros Hs ->. apply ascending_app in Hs. destruct Hs as (_ & [Ha _] & _).
  rewrite Forall_forall in Ha. apply Ha. apply in_or_app. right. left.
  reflexivity.
Qed.

End Ordered.

End PySortMore.

(* ================================================================= *)
(** ** More about the sorted view *)

Section ViewContents.

Import PySort SortedFacts PySortMore.
Local Open Scope list_scope.

Variable float_of_string : string -> option float.
Variable render : list (string * ticker_value) -> exc unit.

Lemma sorted_keyed_Permutation {V : Type} (reverse : bool)
    (kl : list (float * V)) :
  Permutation (sorted_keyed ltb reverse kl) kl.
Proof.
  unfold sorted_keyed. destruct reverse.
  - rewrite <- Permutation_rev, list_sort_Permutation.
    symmetry. apply Permutation_rev.
  - apply list_sort_Permutation.
Qed.

(** The sorted view holds the rows of [ticker_data], each as often as the
    dict does, whatever the keys are. *)
Theorem sorted_ticker_data_permutation (g : globals)
    (view : list (string * ticker_value)) :
  sorted_ticker_data float_of_string g = Ok view ->
  Permutation view (ticker_data g) /\
  List.length view = List.length (ticker_data g).
Proof.
  intros Hv. unfold sorted_ticker_data, sorted in Hv.
  destruct (mapM (decorate (get_sort_key float_of_string (current_sort g)))
              (ticker_data g)) as [kl|e] eqn:Hkl; [|discriminate].
  injection Hv as <-.
  destruct (mapM_decorate _ _ _ Hkl) as [Hd _].
  assert (Hp : Permutation
                 (map snd (sorted_keyed ltb (reverse (current_sort g)) kl))
                 (ticker_data g)).
  { rewrite <- Hd. apply Permutation_map, sorted_keyed_Permutation. }
  split; [exact Hp | apply Permutation_length, Hp].
Qed.

Lemma sorted_keyed_ordered {V : Type} (reverse : bool) (kl : list (float * V))
    pre a mid b post :
  Forall good kl ->
  sorted_keyed ltb reverse kl = pre ++ a :: mid ++ b :: post ->
  if reverse then ltb (fst a) (fst b) = false else ltb (fst b) (fst a) = false.
Proof.
  intros Hg E. unfold sorted_keyed in E. destruct reverse.
  - pose proof (list_sort_ascending (key_lt ltb) good (@key_lt_asym V)
                  (@key_lt_negtrans V) (rev kl) (Forall_rev Hg)) as Hs.
    apply (f_equal (@rev _)) in E. rewrite rev_involutive in E.
    rewrite rev_app_distr in E. cbn [rev] in E.
    rewrite rev_app_distr in E. cbn [rev] in E.
    rewrite <- !app_assoc in E. cbn [app] in E.
    apply (ascending_pair (key_lt ltb) _ _ _ _ _ _ Hs E).
  - pose proof (list_sort_ascending (key_lt ltb) good (@key_lt_asym V)
                  (@key_lt_negtrans V) kl Hg) as Hs.
    apply (ascending_pair (key_lt ltb) _ _ _ _ _ _ Hs E).
Qed.

(** When no sort key is NaN the view is in order: of two rows, the later
    one has the greater or equal key in an ascending view, and the smaller
    or equal key in a descending view. *)
Theorem sorted_ticker_data_ordered (g : globals)
    (view : list (string * ticker_value)) :
  keys_not_nan float_of_string (current_sort g) (ticker_data g) ->
  sorted_ticker_data float_of_string g = Ok view ->
  ordered_view float_of_string (current_sort g) view.
Proof.
  intros Hn Hv. unfold sorted_ticker_data, sorted in Hv.
  destruct (mapM (decorate (get_sort_key float_of_string (current_sort g)))
              (ticker_data g)) as [kl|e] eqn:Hkl; [|discriminate].
  injection Hv as <-.
  destruct (decorated_good _ _ _ _ Hn Hkl) as (Hg & Hk & Hd).
  pose proof (sorted_keyed_Forall _ (reverse (current_sort g)) kl Hg Hk) as Hsk.
  pose proof (sorted_keyed_Forall _ (reverse (current_sort g)) kl Hg Hg) as Hsg.
  intros pre a mid b post ka kb E Ha Hb.
  apply map_eq_app in E. destruct E as (pre' & r1 & E & _ & E1).
  apply map_eq_cons in E1. destruct E1 as (a' & r2 & -> & Ea & E2).
  apply map_eq_app in E2. destruct E2 as (mid' & r3 & -> & _ & E3).
  apply map_eq_cons in E3. destruct E3 as (b' & post' & -> & Eb & _).
  rewrite E in Hsk, Hsg.
  assert (Hin : forall x, x = a' \/ x = b' ->
            In x (pre' ++ a' :: mid' ++ b' :: post')).
  { intros x [->| ->]; apply in_or_app; right;
      [left; reflexivity | right; apply in_or_app; right; left; reflexivity]. }
  rewrite Forall_forall in Hsk, Hsg.
  pose proof (Hsk a' (Hin a' (or_introl eq_refl))) as Hka.
  pose proof (Hsk b' (Hin b' (or_intror eq_refl))) as Hkb.
  pose proof (Hsg a' (Hin a' (or_introl eq_refl))) as Hga.
  pose proof (Hsg b' (Hin b' (or_intror eq_refl))) as Hgb.
  cbv beta in Hka, Hkb. rewrite Ea, Ha in Hka. rewrite Eb, Hb in Hkb.
  injection Hka as Hka. injection Hkb as Hkb.
  unfold good in Hga, Hgb. rewrite <- Hka in Hga. rewrite <- Hkb in Hgb.
  pose proof (sorted_keyed_ordered _ kl _ _ _ _ _ Hg E) as Ho.
  rewrite <- Hka, <- Hkb in Ho.
  destruct (reverse (current_sort g));
    apply PyFloatFacts.leb_of_not_ltb; assumption.
Qed.

Lemma get_sort_key_unknown_field (cs : sort_state)
    (it : string * ticker_value) :
  unknown_field (field cs) ->
  get_sort_key float_of_string cs it = Ok neg_inf.
Proof.
  intros (H1 & H2 & H3 & H4 & H5). destruct it as [t [msg|d]]; [reflexivity|].
  unfold get_sort_key, get_sort_key_try, getitem. cbn [snd].
  destruct (String.eqb_spec (field cs) "mentions"); [contradiction|].
  destruct (String.eqb_spec (field cs) "prices"); [contradiction|].
  destruct (String.eqb_spec (field cs) "timestamps"); [contradiction|].
  destruct (String.eqb_spec (field cs) "price_change"); [contradiction|].
  destruct (String.eqb_spec (field cs) "sentiment_change"); [contradiction|].
  reflexivity.
Qed.

Lemma mapM_decorate_const {V : Type} (key : V -> exc float) (k : float)
    (l : list V) :
  (forall v, In v l -> key v = Ok k) ->
  mapM (decorate key) l = Ok (map (fun v => (k, v)) l).
Proof.
  induction l as [|v l IH]; intros H; simpl; [reflexivity|].
  unfold decorate at 1. rewrite (H v) by (left; reflexivity).
  rewrite IH by (intros; apply H; right; assumption). reflexivity.
Qed.

(** A sort field that is a key of no record raises [KeyError] inside the
    [try]: every row gets the key [-inf], and the view is [ticker_data] in
    insertion order, in both directions. *)
Theorem sorted_ticker_data_unknown_field (g : globals) :
  unknown_field (field (current_sort g)) ->
  sorted_ticker_data float_of_string g = Ok (ticker_data g).
Proof.
  intros Hf. unfold sorted_ticker_data, sorted.
  rewrite (mapM_decorate_const _ neg_inf)
    by (intros; apply get_sort_key_unknown_field, Hf).
  f_equal.
  assert (Hsame : forall l : list (float * (string * ticker_value)),
            Forall (fun p => fst p = neg_inf) l ->
            list_sort (key_lt ltb) l = l).
  { intros l Hl. apply list_sort_all_equal. intros x y Hx Hy.
    rewrite Forall_forall in Hl. unfold key_lt.
    rewrite (Hl x Hx), (Hl y Hy). reflexivity. }
  assert (Hall : Forall (fun p : float * (string * ticker_value) =>
                           fst p = neg_inf)
                   (map (fun v => (neg_inf, v)) (ticker_data g))).
  { apply Forall_forall. intros p Hp. apply in_map_iff in Hp.
    destruct Hp as (v & <- & _). reflexivity. }
  unfold sorted_keyed. destruct (reverse (current_sort g)).
  - rewrite Hsame by (apply Forall_rev, Hall).
    rewrite rev_involutive, map_map. apply map_id.
  - rewrite Hsame by exact Hall. rewrite map_map. apply map_id.
Qed.

Lemma mapM_decorate_raises {V : Type} (key : V -> exc float) (e : exn)
    (l : list V) :
  (forall v, In v l -> (exists k, key v = Ok k) \/ key v = Raise e) ->
  (exists v, In v l /\ key v = Raise e) ->
  mapM (decorate key) l = Raise e.
Proof.
  induction l as [|v l IH]; intros Hall (w & Hw & Hr); [destruct Hw|].
  simpl. unfold decorate at 1.
  destruct (Hall v (or_introl eq_refl)) as [[k Hk]|Hk]; rewrite Hk;
    [|reflexivity].
  destruct Hw as [->|Hw]; [congruence|].
  rewrite IH; [reflexivity | intros; apply Hall; right; assumption |].
  exists w. split; assumption.
Qed.

(** The fields [prices] and [timestamps] hold lists: [float] raises
    [TypeError], which [get_sort_key] does not catch.  With a record in the
    dict no view exists, and [sort_tickers] on such a field leaves it
    selected with the display error in the status line. *)
Theorem sort_tickers_list_field (fld t : string) (d : ticker_info)
    (g : globals) :
  fld = "prices" \/ fld = "timestamps" ->
  In (t, Info d) (ticker_data g) ->
  let g' := sort_tickers float_of_string render fld g in
  field (current_sort g') = fld /\
  sorted_ticker_data float_of_string g' = Raise TypeError /\
  status_text g' = "Error updating display!"%string /\
  ticker_data g' = ticker_data g.
Proof.
  intros Hf Hin g'.
  assert (Hkey : forall cs it, field cs = fld ->
            (exists k, get_sort_key float_of_string cs it = Ok k) \/
            get_sort_key float_of_string cs it = Raise TypeError).
  { intros cs [t' [msg|d']] Hcs; [left; eexists; reflexivity|]. right.
    unfold get_sort_key, get_sort_key_try, getitem. cbn [snd]. rewrite Hcs.
    destruct Hf as [-> | ->]; reflexivity. }
  assert (Hinfo : forall cs, field cs = fld ->
            get_sort_key float_of_string cs (t, Info d) = Raise TypeError).
  { intros cs Hcs. destruct (Hkey cs (t, Info d) Hcs) as [[k Hk]|Hk];
      [|exact Hk].
    unfold get_sort_key, get_sort_key_try, getitem in Hk. cbn [snd] in Hk.
    rewrite Hcs in Hk. destruct Hf as [-> | ->]; discriminate. }
  set (cs' := if String.eqb (field (current_sort g)) fld
              then {| field := field (current_sort g);
                      reverse := negb (reverse (current_sort g)) |}
              else {| field := fld; reverse := true |}).
  assert (Hcs' : field cs' = fld).
  { subst cs'. destruct (String.eqb_spec (field (current_sort g)) fld);
      [assumption | reflexivity]. }
  set (g1 := {| ticker_data := ticker_data g;
                last_update_time := last_update_time g;
                current_sort := cs';
                status_text := status_text g;
                loading_wheel := loading_wheel g |}).
  assert (Hraise : sorted_ticker_data float_of_string g1 = Raise TypeError).
  { unfold sorted_ticker_data, sorted. cbn [ticker_data current_sort g1].
    rewrite (mapM_decorate_raises _ TypeError); [reflexivity | |].
    - intros v _. apply Hkey, Hcs'.
    - exists (t, Info d). split; [exact Hin | apply Hinfo, Hcs']. }
  assert (Hg' : g' = set_status "Error updating display!" g1).
  { subst g'. unfold sort_tickers. fold cs'. fold g1.
    unfold refresh_ui. rewrite Hraise. reflexivity. }
  rewrite Hg'. cbn [set_status current_sort status_text ticker_data g1].
  repeat split; assumption.
Qed.

End ViewContents.

Lemma sorted_ticker_data_permutation_witness :
  sorted_ticker_data Example.float_of_string Example.plain_desc
  = Ok Example.plain_view_desc /\
  Permutation Example.plain_view_desc (ticker_data Example.plain_desc).
Proof.
  assert (Hv : sorted_ticker_data Example.float_of_string Example.plain_desc
               = Ok Example.plain_view_desc)
    by (vm_compute; reflexivity).
  exact (conj Hv (proj1 (sorted_ticker_data_permutation
                           Example.float_of_string Example.plain_desc
                           Example.plain_view_desc Hv))).
Defined.

Lemma sorted_ticker_data_ordered_witness :
  sorted_ticker_data Example.float_of_string Example.plain_asc
  = Ok Example.plain_view_asc /\
  map (get_sort_key Example.float_of_string (current_sort Example.plain_asc))
    Example.plain_view_asc
  = [Ok neg_inf; Ok (of_Z (-50)); Ok (of_Z 100); Ok (of_Z 100)] /\
  ordered_view Example.float_of_string (current_sort Example.plain_asc)
    Example.plain_view_asc.
Proof.
  assert (Hv : sorted_ticker_data Example.float_of_string Example.plain_asc
               = Ok Example.plain_view_asc)
    by (vm_compute; reflexivity).
  split; [exact Hv|]. split; [vm_compute; reflexivity|].
  exact (sorted_ticker_data_ordered Example.float_of_string Example.plain_asc
           Example.plain_view_asc
           (plain_dict_keys_not_nan (current_sort Example.plain_asc)
              (or_intror (or_introl eq_refl)))
           Hv).
Defined.

Lemma sorted_ticker_data_unknown_field_witness :
  let g := Example.click "volume" Example.plain_globals in
  current_sort g = {| field := "volume"; reverse := true |} /\
  sorted_ticker_data Example.float_of_string g = Ok (ticker_data g) /\
  map fst (ticker_data g) = ["GME"; "XXX"; "AMC"; "TSLA"].
Proof.
  intros g. split; [reflexivity|]. split; [|reflexivity].
  apply (sorted_ticker_data_unknown_field Example.float_of_string g).
  repeat split; vm_compute; discriminate.
Defined.

Lemma sort_tickers_list_field_witness :
  let g := sort_tickers Example.float_of_string Example.render_ok "prices"
             Example.plain_globals in
  sorted_ticker_data Example.float_of_string g = Raise TypeError /\
  status_text g = "Error updating display!"%string.
Proof.
  intros g.
  pose proof (sort_tickers_list_field Example.float_of_string
                Example.render_ok "prices" "GME"
                {| prices := [of_Z 100; of_Z 200];
                   timestamps := [0; 900];
                   price_change := of_Z 100;
                   sentiment_change := zero;
                   mentions := "1,234" |}
                Example.plain_globals (or_introl eq_refl)
                (or_introl eq_refl)) as H.
  exact (conj (proj1 (proj2 H)) (proj1 (proj2 (proj2 H)))).
Defined.

(* ================================================================= *)
(** ** More about the refresh *)

Section UpdateFacts.

Local Open Scope list_scope.

Variable float_of_string : string -> option float.
Variable requests_get : exc response.
Variable raise_for_status : response -> exc unit.
Variable find_all_td_right : string -> exc (list string).
Variable find_all_percentage : string -> exc (list string).
Variable history : string -> exc (list (timestamp * float)).
Variable time_time : float.
Variable render : list (string * ticker_value) -> exc unit.

Let fetch :=
  fetch_apewisdom_data float_of_string requests_get raise_for_status
    find_all_td_right find_all_percentage.
Let update :=
  update_data float_of_string requests_get raise_for_status
    find_all_td_right find_all_percentage history time_time render.
Let entry (it : item) :=
  update_entry it (fetch_stock_data history (item_ticker it)).

Lemma remove_char_idempotent (c : ascii) (s : string) :
  PyStr.remove_char c (PyStr.remove_char c s) = PyStr.remove_char c s.
Proof.
  induction s as [|d s IH]; simpl; [reflexivity|].
  destruct (Ascii.eqb c d) eqn:E; [exact IH|].
  simpl. rewrite E, IH. reflexivity.
Qed.

(** [fetch_stock_data] returns either no prices and no timestamps, or as
    many timestamps as prices, at least one, the rows of the provider in
    order; and the dollar signs of the symbol play no part in the
    request. *)
Theorem fetch_stock_data_shape (ticker : string) :
  (fetch_stock_data history ticker = (None, None) \/
   exists hist,
     history (PyStr.remove_char "$"%char ticker) = Ok hist /\
     fetch_stock_data history ticker = (Some (map snd hist), Some (map fst hist))
     /\ (0 < List.length hist)%nat
     /\ List.length (map snd hist) = List.length (map fst hist)) /\
  fetch_stock_data history (PyStr.remove_char "$"%char ticker)
  = fetch_stock_data history ticker.
Proof.
  split.
  - unfold fetch_stock_data.
    destruct (history (PyStr.remove_char "$"%char ticker)) as [hist|e];
      [|left; reflexivity].
    destruct (Nat.ltb_spec 0 (List.length hist)) as [H|H]; [|left; reflexivity].
    right. exists hist. rewrite !length_map. auto.
  - unfold fetch_stock_data. rewrite remove_char_idempotent. reflexivity.
Qed.

Lemma entry_raises_iff (it : item) (e : exn) :
  entry it = Raise e <-> e = ZeroDivisionError /\ zero_first_close history it.
Proof.
  unfold entry, zero_first_close, fetch_stock_data, update_entry, truediv.
  destruct (history (PyStr.remove_char "$"%char (item_ticker it)))
    as [[|[t0 p0] rows]|e']; cbn.
  - split; [discriminate|]. intros (_ & t0 & p0 & rows & H & _). discriminate.
  - destruct (eqb p0 zero) eqn:Hz; cbn.
    + split.
      * intros H. injection H as <-. split; [reflexivity|].
        exists t0, p0, rows. auto.
      * intros [-> _]. reflexivity.
    + split; [discriminate|].
      intros (_ & t1 & p1 & rows1 & H & Hz1). injection H as <- <- <-.
      congruence.
  - split; [discriminate|]. intros (_ & t0 & p0 & rows & H & _). discriminate.
Qed.

Lemma update_loop_raises (ape_data : list item) : forall d e,
  snd (update_loop history ape_data d) = Some e ->
  e = ZeroDivisionError /\ Exists (zero_first_close history) ape_data.
Proof.
  induction ape_data as [|it rest IH]; intros d e H; cbn [update_loop] in H.
  - discriminate.
  - fold (entry it) in H. destruct (entry it) as [v|e'] eqn:E.
    + destruct (IH _ _ H) as [He Hx]. split; [exact He|].
      apply Exists_cons_tl, Hx.
    + cbn in H. injection H as <-. apply entry_raises_iff in E.
      destruct E as [-> Hz]. split; [reflexivity|]. apply Exists_cons_hd, Hz.
Qed.

Lemma update_loop_zero (ape_data : list item) : forall d,
  Exists (zero_first_close history) ape_data ->
  snd (update_loop history ape_data d) = Some ZeroDivisionError.
Proof.
  induction ape_data as [|it rest IH]; intros d Hx; [inversion Hx|].
  cbn [update_loop]. fold (entry it). destruct (entry it) as [v|e] eqn:E.
  - inversion Hx as [? ? Hz|? ? Hr]; subst.
    + assert (Hraise : entry it = Raise ZeroDivisionError)
        by (apply entry_raises_iff; auto).
      congruence.
    + apply IH, Hr.
  - apply entry_raises_iff in E. destruct E as [-> _]. reflexivity.
Qed.

(** The only exception that leaves [update_data] is [ZeroDivisionError],
    and it does so exactly when the ranking holds a ticker whose first
    closing price is zero. *)
Theorem update_data_raises_iff (g : globals) (e : exn) :
  snd (update g) = Some e <->
  e = ZeroDivisionError /\
  exists ape_data,
    fetch = Some ape_data /\ Exists (zero_first_close history) ape_data.
Proof.
  unfold update, update_data. fold fetch.
  destruct fetch as [[|it rest]|] eqn:Hf.
  - split; [discriminate|]. intros (_ & ape & H & Hx). injection H as <-.
    inversion Hx.
  - pose proof (update_loop_raises (it :: rest) [] e) as Hr.
    pose proof (update_loop_zero (it :: rest) []) as Hz.
    destruct (update_loop history (it :: rest) []) as [d [e'|]]; cbn in *.
    + split.
      * intros H. injection H as ->. destruct (Hr eq_refl) as [-> Hx].
        split; [reflexivity|]. exists (it :: rest). auto.
      * intros (-> & ape & H & Hx). injection H as <-. apply Hz, Hx.
    + split; [discriminate|].
      intros (_ & ape & H & Hx). injection H as <-.
      specialize (Hz Hx). discriminate.
  - split; [discriminate|]. intros (_ & ape & H & _). discriminate.
Qed.

Lemma update_loop_no_raise (ape_data : list item) (d : dict) :
  Forall (fun it => ~ zero_first_close history it) ape_data ->
  snd (update_loop history ape_data d) = None.
Proof.
  intros Hall.
  destruct (snd (update_loop history ape_data d)) as [e|] eqn:E;
    [|reflexivity].
  apply update_loop_raises in E. destruct E as [_ Hx].
  apply Exists_exists in Hx. destruct Hx as (it & Hin & Hz).
  rewrite Forall_forall in Hall. destruct (Hall it Hin Hz).
Qed.

Lemma dict_set_keys_in (k : string) (v : ticker_value) (d : dict) (t : string) :
  In t (map fst (dict_set k v d)) <-> In t (map fst d) \/ t = k.
Proof.
  rewrite dict_set_keys.
  destruct (existsb (String.eqb k) (map fst d)) eqn:E.
  - split; [auto|]. intros [H| ->]; [exact H|].
    apply existsb_exists in E. destruct E as (x & Hx & Heq).
    apply String.eqb_eq in Heq. subst x. exact Hx.
  - rewrite in_app_iff. cbn. intuition.
Qed.

Lemma dict_set_length (k : string) (v : ticker_value) (d : dict) :
  (List.length (dict_set k v d) <= S (List.length d))%nat.
Proof.
  induction d as [|[k' v'] d IH]; cbn; [lia|].
  destruct (String.eqb k k'); cbn; lia.
Qed.

Lemma update_loop_keys_in (ape_data : list item) : forall d d' t,
  update_loop history ape_data d = (d', None) ->
  (In t (map fst d') <-> In t (map fst d) \/ In t (map item_ticker ape_data)).
Proof.
  induction ape_data as [|it rest IH]; intros d d' t H; cbn [update_loop] in H.
  - injection H as <-. cbn. intuition.
  - fold (entry it) in H. destruct (entry it) as [v|e]; [|discriminate].
    rewrite (IH _ _ t H), dict_set_keys_in. cbn. intuition.
Qed.

Lemma update_loop_keys_order (ape_data : list item) : forall d d',
  update_loop history ape_data d = (d', None) ->
  NoDup (map item_ticker ape_data) ->
  (forall t, In t (map item_ticker ape_data) -> ~ In t (map fst d)) ->
  map fst d' = map fst d ++ map item_ticker ape_data.
Proof.
  induction ape_data as [|it rest IH]; intros d d' H Hnd Hdis;
    cbn [update_loop] in H.
  - injection H as <-. cbn. rewrite app_nil_r. reflexivity.
  - fold (entry it) in H. destruct (entry it) as [v|e]; [|discriminate].
    cbn [map] in Hnd. inversion Hnd as [|? ? Hnotin Hnd']; subst.
    rewrite (IH _ _ H Hnd').
    + rewrite dict_set_keys.
      destruct (existsb (String.eqb (item_ticker it)) (map fst d)) eqn:E.
      * apply existsb_exists in E. destruct E as (x & Hx & Heq).
        apply String.eqb_eq in Heq. subst x.
        destruct (Hdis (item_ticker it) (or_introl eq_refl) Hx).
      * rewrite <- app_assoc. reflexivity.
    + intros t Ht Hin. apply dict_set_keys_in in Hin.
      destruct Hin as [Hin| ->]; [|exact (Hnotin Ht)].
      exact (Hdis t (or_intror Ht) Hin).
Qed.

Lemma update_loop_length (ape_data : list item) : forall d,
  (List.length (fst (update_loop history ape_data d))
   <= List.length d + List.length ape_data)%nat.
Proof.
  induction ape_data as [|it rest IH]; intros d; cbn [update_loop].
  - cbn. lia.
  - destruct (update_entry it (fetch_stock_data history (item_ticker it)))
      as [v|e]; [|cbn; lia].
    specialize (IH (dict_set (item_ticker it) v d)).
    pose proof (dict_set_length (item_ticker it) v d). cbn [List.length]. lia.
Qed.

(** When the ranking is not empty and no first closing price is zero,
    [update_data] returns without an exception, stamps the time of the
    update, hides the loading indicator, and leaves in [ticker_data]
    exactly the tickers of the ranking, whatever was stored before: in
    ranking order when the tickers are distinct, and never more rows than
    the ranking has entries. *)
Theorem update_data_success (g : globals) (ape_data : list item) :
  fetch = Some ape_data ->
  ape_data <> [] ->
  Forall (fun it => ~ zero_first_close history it) ape_data ->
  snd (update g) = None /\
  last_update_time (fst (update g)) = Some time_time /\
  loading_wheel (fst (update g)) = false /\
  (forall t, In t (map fst (ticker_data (fst (update g))))
             <-> In t (map item_ticker ape_data)) /\
  (NoDup (map item_ticker ape_data) ->
   map fst (ticker_data (fst (update g))) = map item_ticker ape_data) /\
  (List.length (ticker_data (fst (update g))) <= List.length ape_data)%nat.
Proof.
  intros Hf Hne Hall.
  pose proof (update_loop_no_raise ape_data [] Hall) as Hs.
  pose proof (update_loop_length ape_data []) as Hlen.
  unfold update, update_data. fold fetch. rewrite Hf.
  destruct ape_data as [|it rest]; [congruence|].
  destruct (update_loop history (it :: rest) []) as [d [e|]] eqn:Hl;
    [discriminate|].
  cbn [fst snd] in *. unfold set_loading. cbn [ticker_data last_update_time
    loading_wheel].
  match goal with |- context [refresh_ui _ _ ?x] =>
    destruct (refresh_ui_keeps float_of_string render x) as (Hd & Ht & _) end.
  rewrite Hd, Ht. cbn [ticker_data last_update_time set_data].
  split; [reflexivity|]. split; [reflexivity|]. split; [reflexivity|].
  split; [|split].
  - intros t. rewrite (update_loop_keys_in _ _ _ t Hl). cbn. intuition.
  - intros Hnd. rewrite (update_loop_keys_order _ _ _ Hl Hnd); [reflexivity|].
    intros t _ [].
  - cbn in Hlen. exact Hlen.
Qed.

Lemma dict_get_set_same (k : string) (v : ticker_value) (d : dict) :
  dict_get k (dict_set k v d) = Some v.
Proof.
  induction d as [|[k' v'] d IH]; cbn.
  - rewrite String.eqb_refl. reflexivity.
  - destruct (String.eqb k k') eqn:E; cbn.
    + rewrite String.eqb_refl. reflexivity.
    + rewrite E. exact IH.
Qed.

Lemma dict_get_set_other (k k' : string) (v : ticker_value) (d : dict) :
  k <> k' -> dict_get k (dict_set k' v d) = dict_get k d.
Proof.
  intros Hne. induction d as [|[k'' v''] d IH]; cbn.
  - destruct (String.eqb_spec k k'); [contradiction|reflexivity].
  - destruct (String.eqb_spec k' k'') as [->|Hne']; cbn.
    + destruct (String.eqb_spec k k''); [contradiction|reflexivity].
    + rewrite IH. reflexivity.
Qed.

Lemma update_loop_app (pre rest : list item) : forall d d1,
  update_loop history pre d = (d1, None) ->
  update_loop history (pre ++ rest) d = update_loop history rest d1.
Proof.
  induction pre as [|it pre IH]; intros d d1 H; cbn [update_loop app] in *.
  - injection H as <-. reflexivity.
  - destruct (update_entry it (fetch_stock_data history (item_ticker it)));
      [|discriminate].
    apply IH, H.
Qed.

Lemma update_loop_prefix (pre rest : list item) : forall d d',
  update_loop history (pre ++ rest) d = (d', None) ->
  exists d1, update_loop history pre d = (d1, None).
Proof.
  induction pre as [|it pre IH]; intros d d' H; cbn [update_loop app] in *.
  - eexists; reflexivity.
  - destruct (update_entry it (fetch_stock_data history (item_ticker it)));
      [|discriminate].
    apply (IH _ _ H).
Qed.

Lemma update_loop_get_other (ape_data : list item) : forall d d' k,
  update_loop history ape_data d = (d', None) ->
  ~ In k (map item_ticker ape_data) ->
  dict_get k d' = dict_get k d.
Proof.
  induction ape_data as [|it rest IH]; intros d d' k H Hn;
    cbn [update_loop] in H.
  - injection H as <-. reflexivity.
  - destruct (update_entry it (fetch_stock_data history (item_ticker it)))
      as [v|e]; [|discriminate].
    rewrite (IH _ _ k H) by (intros Hin; apply Hn; right; exact Hin).
    apply dict_get_set_other. intros ->. apply Hn. left. reflexivity.
Qed.

Lemma update_data_nonempty (g : globals) (ape_data : list item) :
  fetch = Some ape_data ->
  ape_data <> [] ->
  update g
  = match update_loop history ape_data [] with
    | (d, Some e) =>
        (set_data d (last_update_time g) (set_loading true g), Some e)
    | (d, None) =>
        (set_loading false
           (refresh_ui float_of_string render
              (set_data d (Some time_time) (set_loading true g))), None)
    end.
Proof.
  intros Hf Hne. unfold update, update_data. fold fetch. rewrite Hf.
  destruct ape_data; [congruence|reflexivity].
Qed.

(** When a ticker occurs more than once in the ranking, the value stored
    for it after [update_data] is the one built from its last occurrence:
    the last write wins. *)
Theorem update_data_last_write_wins (g : globals) (pre post : list item)
    (it : item) :
  fetch = Some (pre ++ it :: post) ->
  snd (update g) = None ->
  ~ In (item_ticker it) (map item_ticker post) ->
  exists v,
    update_entry it (fetch_stock_data history (item_ticker it)) = Ok v /\
    dict_get (item_ticker it) (ticker_data (fst (update g))) = Some v.
Proof.
  intros Hf Hs Hlast. revert Hs.
  rewrite (update_data_nonempty g _ Hf) by (destruct pre; discriminate).
  destruct (update_loop history (pre ++ it :: post) []) as [d [e|]] eqn:Hl;
    [discriminate|].
  intros _. cbn [fst]. unfold set_loading. cbn [ticker_data].
  match goal with |- context [refresh_ui _ _ ?x] =>
    destruct (refresh_ui_keeps float_of_string render x) as (Hd & _) end.
  rewrite Hd. cbn [ticker_data set_data].
  destruct (update_loop_prefix _ _ _ _ Hl) as [d1 Hpre].
  rewrite (update_loop_app _ (it :: post) _ _ Hpre) in Hl.
  cbn [update_loop] in Hl.
  destruct (update_entry it (fetch_stock_data history (item_ticker it)))
    as [v|e]; [|discriminate].
  exists v. split; [reflexivity|].
  rewrite (update_loop_get_other _ _ _ _ Hl Hlast).
  apply dict_get_set_same.
Qed.

(** A page that parses but holds no entry, because it has fewer than
    three cells or every ticker cell is a run of digits, is handled like a
    failed request: [update_data] keeps the dict and the time of the last
    update and writes the error into the status line. *)
Theorem update_data_empty_ranking (g : globals) (resp : response)
    (cells spans : list string) :
  requests_get = Ok resp ->
  raise_for_status resp = Ok tt ->
  find_all_td_right (text resp) = Ok cells ->
  find_all_percentage (text resp) = Ok spans ->
  Forall (fun p => PyStr.isdigit (fst p) = true)
    (groups_of_three (map PyStr.strip (firstn 30 cells))) ->
  fetch = Some [] /\
  snd (update g) = None /\
  ticker_data (fst (update g)) = ticker_data g /\
  last_update_time (fst (update g)) = last_update_time g /\
  status_text (fst (update g)) = "Error fetching tickers from ApeWisdom!"%string /\
  loading_wheel (fst (update g)) = false.
Proof.
  intros Hr Hs Hc Hp Hall.
  assert (Hf : fetch = Some []).
  { unfold fetch, fetch_apewisdom_data, fetch_apewisdom_try.
    rewrite Hr. cbn [bind]. rewrite Hs. cbn [bind]. rewrite Hc. cbn [bind].
    rewrite Hp. cbn [bind]. unfold parse_ranking.
    assert (Hnil : forall raw sents idx,
              Forall (fun p => PyStr.isdigit (fst p) = true)
                (groups_of_three raw) ->
              ranking_loop raw sents idx = []).
    { fix IH 1. intros [|r [|t [|m rest]]] sents idx H; try reflexivity.
      cbn [groups_of_three] in H. inversion H as [|? ? Hd Hrest]; subst.
      cbn [fst] in Hd. cbn [ranking_loop]. rewrite Hd. apply IH, Hrest. }
    rewrite Hnil by exact Hall. reflexivity. }
  split; [exact Hf|].
  unfold update, update_data. fold fetch. rewrite Hf. cbn. repeat split.
Qed.

End UpdateFacts.

(* ================================================================= *)
(** ** The rows the display draws *)

Section Display.

Local Open Scope list_scope.

Variable float_of_string : string -> option float.
Variable requests_get : exc response.
Variable raise_for_status : response -> exc unit.
Variable find_all_td_right : string -> exc (list string).
Variable find_all_percentage : string -> exc (list string).
Variable history : string -> exc (list (timestamp * float)).
Variable time_time : float.
Variable render : list (string * ticker_value) -> exc unit.

Let update :=
  update_data float_of_string requests_get raise_for_status
    find_all_td_right find_all_percentage history time_time render.

Lemma texture_inj (t t' : string) :
  ("texture_" ++ t)%string = ("texture_" ++ t')%string -> t = t'.
Proof. cbn. intros H. injection H as ->. reflexivity. Qed.

Lemma tree_nodes_raises (view : list (string * ticker_value)) :
  ~ well_formed view -> tree_nodes view = Raise TypeError.
Proof.
  induction view as [|[t [msg|d]] rest IH]; intros Hn; cbn [tree_nodes].
  - destruct Hn. constructor.
  - destruct (String.eqb_spec msg "Error fetching data") as [->|Hne];
      [|reflexivity].
    apply IH. intros Hw. apply Hn. constructor; [reflexivity|exact Hw].
  - rewrite IH; [reflexivity|].
    intros Hw. apply Hn. constructor; [exact I|exact Hw].
Qed.

Lemma tree_nodes_ok (view : list (string * ticker_value)) :
  well_formed view ->
  exists nodes,
    tree_nodes view = Ok nodes /\
    List.length nodes
    = List.length (filter (fun p => negb (is_error (snd p))) view) /\
    (forall lbl tag,
       In (lbl, tag) nodes <->
       exists t d, In (t, Info d) view /\
                   lbl = (t ++ " - Mentions: " ++ mentions d)%string /\
                   tag = ("texture_" ++ t)%string).
Proof.
  induction view as [|[t [msg|d]] rest IH]; intros Hw; cbn [tree_nodes].
  - exists []. split; [reflexivity|]. split; [reflexivity|].
    intros lbl tag. split; [intros []|]. intros (? & ? & [] & _).
  - inversion Hw as [|? ? Hm Hrest]; subst. cbn in Hm. subst msg.
    destruct (IH Hrest) as (nodes & Hn & Hlen & Hin).
    rewrite String.eqb_refl.
    exists nodes. split; [exact Hn|]. split; [exact Hlen|].
    intros lbl tag. rewrite Hin. split.
    + intros (t' & d & H & Hl). exists t', d. split; [right; exact H|exact Hl].
    + intros (t' & d & [H|H] & Hl); [discriminate|].
      exists t', d. split; [exact H|exact Hl].
  - inversion Hw as [|? ? _ Hrest]; subst.
    destruct (IH Hrest) as (nodes & Hn & Hlen & Hin). rewrite Hn.
    eexists. split; [reflexivity|]. split; [cbn; rewrite Hlen; reflexivity|].
    intros lbl tag. cbn [In]. rewrite Hin. split.
    + intros [H|(t' & d' & H & Hl)].
      * injection H as <- <-. exists t, d. auto.
      * exists t', d'. auto.
    + intros (t' & d' & [H|H] & -> & ->).
      * injection H as <- <-. left. reflexivity.
      * right. exists t', d'. auto.
Qed.

Lemma tree_nodes_NoDup (view : list (string * ticker_value)) :
  forall nodes, tree_nodes view = Ok nodes ->
  (forall tag, In tag (map snd nodes) ->
     exists t, In t (map fst view) /\ tag = ("texture_" ++ t)%string) /\
  (NoDup (map fst view) -> NoDup (map snd nodes)).
Proof.
  induction view as [|[t [msg|d]] rest IH]; intros nodes H;
    cbn [tree_nodes] in H.
  - injection H as <-. split; [intros tag []|]. intros _. constructor.
  - destruct (String.eqb msg "Error fetching data"); [|discriminate].
    destruct (IH _ H) as [Htag Hnd]. split.
    + intros tag Hin. destruct (Htag tag Hin) as (t' & Ht & ->).
      exists t'. split; [right; exact Ht|reflexivity].
    + intros Hv. inversion Hv; subst. auto.
  - destruct (tree_nodes rest) as [nodes'|e]; [|discriminate].
    injection H as <-. destruct (IH _ eq_refl) as [Htag Hnd]. split.
    + intros tag [<-|Hin].
      * exists t. split; [left; reflexivity|reflexivity].
      * destruct (Htag tag Hin) as (t' & Ht & ->).
        exists t'. split; [right; exact Ht|reflexivity].
    + intros Hv. cbn [map fst snd] in *. inversion Hv as [|? ? Hnotin Hv'];
        subst.
      constructor; [|exact (Hnd Hv')].
      intros Hin. destruct (Htag _ Hin) as (t' & Ht & Heq).
      apply texture_inj in Heq. subst t'. exact (Hnotin Ht).
Qed.

(** The loop of [refresh_ui] over the view raises, with a [TypeError],
    exactly when a row holds a string other than ["Error fetching data"].
    Otherwise it adds one tree node for every record and none for an error
    row, labelled with the ticker and its mentions, and the texture tags
    are distinct when the tickers are. *)
Theorem tree_nodes_spec (view : list (string * ticker_value)) :
  (~ well_formed view -> tree_nodes view = Raise TypeError) /\
  (well_formed view ->
   exists nodes,
     tree_nodes view = Ok nodes /\
     List.length nodes
     = List.length (filter (fun p => negb (is_error (snd p))) view) /\
     (forall lbl tag,
        In (lbl, tag) nodes <->
        exists t d, In (t, Info d) view /\
                    lbl = (t ++ " - Mentions: " ++ mentions d)%string /\
                    tag = ("texture_" ++ t)%string) /\
     (NoDup (map fst view) -> NoDup (map snd nodes))).
Proof.
  split; [apply tree_nodes_raises|].
  intros Hw. destruct (tree_nodes_ok view Hw) as (nodes & Hn & Hlen & Hin).
  exists nodes. repeat split; try assumption; try apply Hin.
  apply (tree_nodes_NoDup view nodes Hn).
Qed.

Lemma dict_set_well_formed (k : string) (v : ticker_value) (d : dict) :
  well_formed d -> well_formed [(k, v)] -> well_formed (dict_set k v d).
Proof.
  intros Hd Hv. inversion Hv as [|? ? Hv' _]; subst.
  induction d as [|[k' v'] d IH]; cbn [dict_set].
  - exact Hv.
  - inversion Hd as [|? ? Hk Hrest]; subst.
    destruct (String.eqb k k'); constructor;
      [exact Hv'|exact Hrest|exact Hk|exact (IH Hrest)].
Qed.

Lemma update_entry_well_formed (it : item)
    (fetched : option (list float) * option (list timestamp))
    (v : ticker_value) (k : string) :
  update_entry it fetched = Ok v -> well_formed [(k, v)].
Proof.
  unfold update_entry, truediv.
  destruct fetched as [[[|p0 ps]|] [[|t0 ts]|]]; intros H;
    try (injection H as <-; repeat constructor).
  destruct (eqb p0 zero); [discriminate|]. cbn in H. injection H as <-.
  repeat constructor.
Qed.

Lemma update_loop_well_formed (ape_data : list item) : forall d,
  well_formed d -> well_formed (fst (update_loop history ape_data d)).
Proof.
  induction ape_data as [|it rest IH]; intros d Hd; cbn [update_loop].
  - exact Hd.
  - destruct (update_entry it (fetch_stock_data history (item_ticker it)))
      as [v|e] eqn:E; [|exact Hd].
    apply IH, dict_set_well_formed; [exact Hd|].
    apply (update_entry_well_formed _ _ _ _ E).
Qed.

Lemma update_data_ticker_data (g : globals) :
  ticker_data (fst (update g)) = ticker_data g \/
  exists ape_data,
    ticker_data (fst (update g)) = fst (update_loop history ape_data []).
Proof.
  unfold update, update_data.
  destruct (fetch_apewisdom_data _ _ _ _ _) as [[|it rest]|];
    [left; reflexivity| |left; reflexivity].
  right. exists (it :: rest).
  destruct (update_loop history (it :: rest) []) as [d [e|]]; [reflexivity|].
  cbn [fst]. unfold set_loading. cbn [ticker_data].
  match goal with |- context [refresh_ui _ _ ?x] =>
    destruct (refresh_ui_keeps float_of_string render x) as (Hd & _) end.
  rewrite Hd. reflexivity.
Qed.

Lemma sorted_ticker_data_perm (g : globals)
    (view : list (string * ticker_value)) :
  sorted_ticker_data float_of_string g = Ok view ->
  Permutation view (ticker_data g).
Proof.
  intros Hv. unfold sorted_ticker_data, PySort.sorted in Hv.
  destruct (mapM (PySort.decorate
                    (get_sort_key float_of_string (current_sort g)))
              (ticker_data g)) as [kl|e] eqn:Hkl; [|discriminate].
  injection Hv as <-.
  destruct (SortedFacts.mapM_decorate _ _ _ Hkl) as [Hd _].
  rewrite <- Hd. apply Permutation_map, sorted_keyed_Permutation.
Qed.

(** Whatever [update_data] does, a dict that held only records and the
    string ["Error fetching data"], under distinct tickers, still does so
    afterwards; so the loop of [refresh_ui] over any sorted view of it
    raises no [TypeError], draws one node per record and uses every
    texture tag once. *)
Theorem update_data_display (g : globals)
    (view : list (string * ticker_value)) :
  well_formed (ticker_data g) ->
  NoDup (map fst (ticker_data g)) ->
  sorted_ticker_data float_of_string (fst (update g)) = Ok view ->
  well_formed (ticker_data (fst (update g))) /\
  exists nodes,
    tree_nodes view = Ok nodes /\
    NoDup (map snd nodes) /\
    List.length nodes
    = List.length (filter (fun p => negb (is_error (snd p))) view).
Proof.
  intros Hw Hnd Hv.
  assert (Hw' : well_formed (ticker_data (fst (update g)))).
  { destruct (update_data_ticker_data g) as [->|[ape ->]]; [exact Hw|].
    apply update_loop_well_formed. constructor. }
  assert (Hnd' : NoDup (map fst (ticker_data (fst (update g))))).
  { destruct (update_data_ticker_data g) as [->|[ape ->]]; [exact Hnd|].
    apply update_loop_NoDup. constructor. }
  split; [exact Hw'|].
  pose proof (sorted_ticker_data_perm _ _ Hv) as Hp.
  assert (Hwv : well_formed view).
  { unfold well_formed. rewrite Forall_forall. intros p Hin.
    unfold well_formed in Hw'. rewrite Forall_forall in Hw'.
    apply Hw'. apply (Permutation_in _ Hp Hin). }
  destruct (tree_nodes_ok view Hwv) as (nodes & Hn & Hlen & _).
  exists nodes. split; [exact Hn|]. split; [|exact Hlen].
  apply (tree_nodes_NoDup view nodes Hn).
  apply (Permutation_NoDup (l := map fst (ticker_data (fst (update g))))).
  - apply Permutation_map. symmetry. exact Hp.
  - exact Hnd'.
Qed.

End Display.

(* ================================================================= *)
(** ** The status line *)

Section Status.

Variable float_of_string : string -> option float.
Variable requests_get : exc response.
Variable raise_for_status : response -> exc unit.
Variable find_all_td_right : string -> exc (list string).
Variable find_all_percentage : string -> exc (list string).
Variable history : string -> exc (list (timestamp * float)).
Variable render : list (string * ticker_value) -> exc unit.
Variable time_update : float.
Variable time_turn : float.
Variable float_floordiv : float -> float -> float.
Variable float_mod : float -> float -> float.
Variable int_of_float : float -> exc Z.

Let fetch :=
  fetch_apewisdom_data float_of_string requests_get raise_for_status
    find_all_td_right find_all_percentage.
Let turn := main_loop_turn time_turn float_floordiv float_mod int_of_float.
Let first_turn :=
  create_ui_first_turn float_of_string requests_get raise_for_status
    find_all_td_right find_all_percentage history render time_update
    time_turn float_floordiv float_mod int_of_float.

(** A turn of the main loop that does not raise replaces whatever the
    status line held: neither error message of [update_data] and
    [refresh_ui] is left in it when the frame is drawn, and the data is
    untouched. *)
Theorem main_loop_turn_overwrites_status (g g' : globals) :
  turn g = Ok g' ->
  status_text g' <> "Error fetching tickers from ApeWisdom!"%string /\
  status_text g' <> "Error updating display!"%string /\
  ticker_data g' = ticker_data g /\
  last_update_time g' = last_update_time g /\
  current_sort g' = current_sort g /\
  loading_wheel g' = loading_wheel g.
Proof.
  unfold turn, main_loop_turn.
  destruct (get_time_since_update _ _ _ _ g) as [since|e]; [|discriminate].
  cbn [bind]. intros H. injection H as <-. cbn.
  repeat split; discriminate.
Qed.

(** When the first fetch of the ranking fails or finds no entry, the first
    frame [create_ui] draws shows ["Last update: Never"]: the error message
    [update_data] wrote has been replaced before anything is drawn. *)
Theorem create_ui_hides_fetch_error (g : globals) :
  last_update_time g = None ->
  fetch = None \/ fetch = Some [] ->
  first_turn g
  = Ok {| ticker_data := ticker_data g;
          last_update_time := None;
          current_sort := current_sort g;
          status_text := "Last update: Never";
          loading_wheel := false |}.
Proof.
  intros Hl Hf. unfold first_turn, create_ui_first_turn, update_data.
  fold fetch.
  assert (Hu : match fetch with
               | None | Some [] => True
               | Some (_ :: _) => False
               end) by (destruct Hf as [->| ->]; exact I).
  destruct fetch as [[|it rest]|]; try contradiction;
    unfold main_loop_turn, get_time_since_update; cbn; rewrite Hl;
    reflexivity.
Qed.

End Status.

(* ================================================================= *)
(** ** The texture *)

Lemma add_alpha_length (n : nat) : forall data,
  List.length data = (3 * n)%nat ->
  List.length (add_alpha data) = (4 * n)%nat.
Proof.
  induction n as [|n IH]; intros data H.
  - destruct data; [reflexivity|discriminate].
  - destruct data as [|r [|g [|b rest]]]; cbn in H; try lia.
    cbn [add_alpha List.length]. rewrite (IH rest) by lia. lia.
Qed.

Lemma add_alpha_nth (n : nat) : forall data i c,
  List.length data = (3 * n)%nat ->
  (i < n)%nat ->
  nth (4 * i + 3) (add_alpha data) 0 = 255 /\
  ((c < 3)%nat -> nth (4 * i + c) (add_alpha data) 0 = nth (3 * i + c) data 0).
Proof.
  induction n as [|n IH]; intros data i c H Hi; [lia|].
  destruct data as [|r [|g [|b rest]]]; cbn in H; try lia.
  cbn [add_alpha]. destruct i as [|i].
  - split; [reflexivity|]. intros Hc.
    destruct c as [|[|[|c]]]; try reflexivity. lia.
  - replace (4 * S i + 3)%nat with (S (S (S (S (4 * i + 3))))) by lia.
    replace (4 * S i + c)%nat with (S (S (S (S (4 * i + c))))) by lia.
    replace (3 * S i + c)%nat with (S (S (S (3 * i + c)))) by lia.
    cbn [nth]. apply IH; lia.
Qed.

(** For an image with three channels whose array has a byte for every
    channel of every pixel, [fig_to_rgba_array] returns four values per
    pixel: the three bytes of the pixel, unchanged and in order, followed
    by 255. *)
Theorem fig_to_rgba_array_rgb (height width : nat) (data : list Z) :
  List.length data = (height * width * 3)%nat ->
  exists values,
    fig_to_rgba_array (Color height width 3 data) = Flat values /\
    List.length values = (height * width * 4)%nat /\
    forall i, (i < height * width)%nat ->
      nth (4 * i + 3) values 0 = 255 /\
      forall c, (c < 3)%nat -> nth (4 * i + c) values 0 = nth (3 * i + c) data 0.
Proof.
  intros H. exists (add_alpha data). split; [reflexivity|].
  assert (H3 : List.length data = (3 * (height * width))%nat) by lia.
  split; [rewrite (add_alpha_length _ _ H3); lia|].
  intros i Hi. split.
  - apply (add_alpha_nth _ _ i 0%nat H3 Hi).
  - intros c Hc. apply (add_alpha_nth _ _ i c H3 Hi), Hc.
Qed.

(* ================================================================= *)
(** ** The further properties on the sample data *)

Lemma update_data_success_witness :
  let update :=
    update_data Example.float_of_string (Ok Example.page) (fun _ => Ok tt)
      (fun _ => Ok Example.plain_cells) (fun _ => Ok [])
      Example.plain_history zero Example.render_ok in
  snd (update Example.eight_globals) = None /\
  last_update_time (fst (update Example.eight_globals)) = Some zero /\
  map fst (ticker_data (fst (update Example.eight_globals)))
  = ["GME"; "XXX"; "AMC"; "TSLA"]%string.
Proof.
  intros update.
  assert (Hall : Forall
            (fun it => ~ zero_first_close Example.plain_history it)
            Example.plain_ranking).
  { repeat constructor; intros (t0 & p0 & rows & H & Hz);
      vm_compute in H; try discriminate;
      injection H as _ <- _; vm_compute in Hz; discriminate. }
  pose proof (update_data_success Example.float_of_string (Ok Example.page)
                (fun _ => Ok tt) (fun _ => Ok Example.plain_cells)
                (fun _ => Ok []) Example.plain_history zero
                Example.render_ok Example.eight_globals
                Example.plain_ranking eq_refl
                ltac:(discriminate) Hall) as (Hs & Ht & _ & _ & Hk & _).
  split; [exact Hs|]. split; [exact Ht|].
  apply Hk. repeat constructor; cbn; intuition discriminate.
Defined.

Lemma update_data_last_write_wins_witness :
  let update :=
    update_data Example.float_of_string (Ok Example.page) (fun _ => Ok tt)
      (fun _ => Ok Example.twice_cells) (fun _ => Ok [])
      Example.plain_history zero Example.render_ok in
  let it := Example.ranked "GME" "30" in
  exists v,
    update_entry it (fetch_stock_data Example.plain_history (item_ticker it))
    = Ok v /\
    dict_get (item_ticker it) (ticker_data (fst (update initial_globals)))
    = Some v.
Proof.
  intros update it.
  apply (update_data_last_write_wins Example.float_of_string
           (Ok Example.page) (fun _ => Ok tt)
           (fun _ => Ok Example.twice_cells) (fun _ => Ok [])
           Example.plain_history zero Example.render_ok initial_globals
           [Example.ranked "GME" "10"; Example.ranked "AMC" "20"] [] it).
  - vm_compute. reflexivity.
  - vm_compute. reflexivity.
  - intros [].
Defined.

Lemma update_data_empty_ranking_witness :
  let update :=
    update_data Example.float_of_string (Ok Example.page) (fun _ => Ok tt)
      (fun _ => Ok Example.digit_cells) (fun _ => Ok [])
      Example.plain_history zero Example.render_ok in
  snd (update Example.plain_globals) = None /\
  ticker_data (fst (update Example.plain_globals))
  = ticker_data Example.plain_globals /\
  status_text (fst (update Example.plain_globals))
  = "Error fetching tickers from ApeWisdom!"%string.
Proof.
  intros update.
  pose proof (update_data_empty_ranking Example.float_of_string
                (Ok Example.page) (fun _ => Ok tt)
                (fun _ => Ok Example.digit_cells) (fun _ => Ok [])
                Example.plain_history zero Example.render_ok
                Example.plain_globals Example.page Example.digit_cells []
                eq_refl eq_refl eq_refl eq_refl
                ltac:(repeat constructor)) as (_ & Hs & Hd & _ & Ht & _).
  exact (conj Hs (conj Hd Ht)).
Defined.

Lemma tree_nodes_spec_witness :
  well_formed Example.plain_view_desc /\
  exists nodes,
    tree_nodes Example.plain_view_desc = Ok nodes /\
    List.length nodes = 3%nat /\
    NoDup (map snd nodes).
Proof.
  assert (Hw : well_formed Example.plain_view_desc)
    by (repeat constructor).
  split; [exact Hw|].
  destruct (proj2 (tree_nodes_spec Example.plain_view_desc) Hw)
    as (nodes & Hn & Hlen & _ & Hnd).
  exists nodes. split; [exact Hn|]. split; [exact Hlen|].
  apply Hnd. repeat constructor; cbn; intuition discriminate.
Defined.

Lemma update_data_display_witness :
  let update :=
    update_data Example.float_of_string (Ok Example.page) (fun _ => Ok tt)
      (fun _ => Ok Example.plain_cells) (fun _ => Ok [])
      Example.plain_history zero Example.render_ok in
  sorted_ticker_data Example.float_of_string (fst (update initial_globals))
  = Ok Example.plain_view_mentions /\
  exists nodes,
    tree_nodes Example.plain_view_mentions = Ok nodes /\
    NoDup (map snd nodes) /\
    List.length nodes
    = List.length (filter (fun p => negb (is_error (snd p)))
                     Example.plain_view_mentions).
Proof.
  intros update.
  assert (Hv : sorted_ticker_data Example.float_of_string
                 (fst (update initial_globals))
               = Ok Example.plain_view_mentions)
    by (vm_compute; reflexivity).
  split; [exact Hv|].
  exact (proj2 (update_data_display Example.float_of_string (Ok Example.page)
                  (fun _ => Ok tt) (fun _ => Ok Example.plain_cells)
                  (fun _ => Ok []) Example.plain_history zero
                  Example.render_ok initial_globals
                  Example.plain_view_mentions
                  (Forall_nil _) (NoDup_nil _) Hv)).
Defined.

Lemma main_loop_turn_overwrites_status_witness :
  let turn :=
    main_loop_turn (of_Z 60) (fun _ _ => one) (fun _ _ => zero)
      (fun x => if eqb x one then Ok 1 else Ok 0) in
  let g' := set_status "Last update: 1m 0s ago" Example.plain_globals in
  turn Example.plain_globals = Ok g' /\
  status_text g' <> "Error fetching tickers from ApeWisdom!"%string /\
  status_text g' <> "Error updating display!"%string.
Proof.
  intros turn g'.
  assert (Ht : turn Example.plain_globals = Ok g')
    by (vm_compute; reflexivity).
  split; [exact Ht|].
  destruct (main_loop_turn_overwrites_status (of_Z 60) (fun _ _ => one)
              (fun _ _ => zero) (fun x => if eqb x one then Ok 1 else Ok 0)
              Example.plain_globals g' Ht) as (H1 & H2 & _).
  exact (conj H1 H2).
Defined.

Lemma create_ui_hides_fetch_error_witness :
  create_ui_first_turn Example.float_of_string
    (Raise (LibraryError "ConnectionError")) (fun _ => Ok tt)
    (fun _ => Ok []) (fun _ => Ok []) Example.plain_history
    Example.render_ok zero zero (fun _ _ => zero) (fun _ _ => zero)
    (fun _ => Ok 0) initial_globals
  = Ok initial_globals.
Proof.
  exact (create_ui_hides_fetch_error Example.float_of_string
           (Raise (LibraryError "ConnectionError")) (fun _ => Ok tt)
           (fun _ => Ok []) (fun _ => Ok []) Example.plain_history
           Example.render_ok zero zero (fun _ _ => zero) (fun _ _ => zero)
           (fun _ => Ok 0) initial_globals eq_refl (or_introl eq_refl)).
Defined.

Lemma fig_to_rgba_array_rgb_witness :
  exists values,
    fig_to_rgba_array (Color 1 2 3 Example.two_pixels) = Flat values /\
    List.length values = 8%nat /\
    forall i, (i < 2)%nat ->
      nth (4 * i + 3) values 0 = 255 /\
      forall c, (c < 3)%nat ->
        nth (4 * i + c) values 0 = nth (3 * i + c) Example.two_pixels 0.
Proof.
  exact (fig_to_rgba_array_rgb 1 2 Example.two_pixels eq_refl).
Defined.

(* ================================================================= *)
(** ** A click on a sort button *)

(** On a dict as [update_data] builds it, a click on one of the three sort
    buttons finds a sorted view and draws it: when the widget calls do not
    fail, the status line is left as it was. *)
Theorem sort_tickers_button_no_error
    (float_of_string : string -> option float)
    (draw : list (string * string) -> exc unit) (fld : string)
    (g : globals) :
  well_formed (ticker_data g) ->
  sort_button_field fld ->
  (forall nodes, draw nodes = Ok tt) ->
  let g' := sort_tickers float_of_string (draw_view draw) fld g in
  status_text g' = status_text g /\
  exists view,
    sorted_ticker_data float_of_string g' = Ok view /\
    draw_view draw view = Ok tt.
Proof.
  intros Hw Hf Hdraw g'.
  assert (Hview : forall g1, ticker_data g1 = ticker_data g ->
            field (current_sort g1) = fld ->
            exists view,
              sorted_ticker_data float_of_string g1 = Ok view /\
              draw_view draw view = Ok tt).
  { intros g1 Hd Hfld.
    destruct (sorted_ticker_data_total float_of_string g1) as [view Hv];
      [rewrite Hfld; exact Hf|].
    exists view. split; [exact Hv|].
    assert (Hwv : well_formed view).
    { unfold well_formed. rewrite Forall_forall. intros p Hin.
      unfold well_formed in Hw. rewrite Forall_forall in Hw. apply Hw.
      rewrite <- Hd.
      apply (Permutation_in _ (sorted_ticker_data_perm _ _ _ Hv) Hin). }
    destruct (tree_nodes_ok view Hwv) as (nodes & Hn & _).
    unfold draw_view. rewrite Hn. cbn [bind]. apply Hdraw. }
  assert (Hfld : field (current_sort g') = fld).
  { unfold g'. rewrite sort_tickers_current_sort.
    destruct (String.eqb_spec (field (current_sort g)) fld) as [H|H];
      [exact H|reflexivity]. }
  assert (Hd : ticker_data g' = ticker_data g)
    by apply sort_tickers_ticker_data.
  split; [|exact (Hview g' Hd Hfld)].
  unfold g', sort_tickers.
  match goal with |- status_text (refresh_ui _ _ ?x) = _ => set (g1 := x) end.
  destruct (Hview g1 eq_refl) as (view & Hv & Hdr).
  { unfold g1. cbn [current_sort].
    destruct (String.eqb_spec (field (current_sort g)) fld) as [H|H];
      [exact H|reflexivity]. }
  unfold refresh_ui. rewrite Hv. cbn [bind]. rewrite Hdr. reflexivity.
Qed.

Lemma sort_tickers_button_no_error_witness :
  let g' := sort_tickers Example.float_of_string (draw_view (fun _ => Ok tt))
              "price_change" Example.plain_globals in
  status_text g' = status_text Example.plain_globals /\
  exists view,
    sorted_ticker_data Example.float_of_string g' = Ok view /\
    draw_view (fun _ => Ok tt) view = Ok tt.
Proof.
  exact (sort_tickers_button_no_error Example.float_of_string
           (fun _ => Ok tt) "price_change" Example.plain_globals
           ltac:(repeat constructor) (or_intror (or_introl eq_refl))
           (fun _ => eq_refl)).
Defined.

(* ================================================================= *)
(** ** The truncation of the ranking *)

Lemma ranking_loop_length (sentiments : list float) :
  forall raw_data sentiment_idx,
  (3 * List.length (ranking_loop raw_data sentiments sentiment_idx)
   <= List.length raw_data)%nat.
Proof.
  fix IH 1. intros [|r [|t [|m rest]]] idx; cbn [ranking_loop List.length];
    try lia.
  destruct (PyStr.isdigit t).
  - specialize (IH rest idx). lia.
  - specialize (IH rest (S idx)). cbn [List.length]. lia.
Qed.

(** Thirty cells hold ten groups at most, so the final [[:10]] of
    [fetch_apewisdom_data] never drops an entry: the result is the whole
    list the loop over the groups built. *)
Theorem parse_ranking_keeps_all (float_of_string : string -> option float)
    (cells spans : list string) :
  parse_ranking float_of_string cells spans
  = ranking_loop (map PyStr.strip (firstn 30 cells))
      (map (parse_sentiment float_of_string) spans) 0.
Proof.
  unfold parse_ranking. apply firstn_all2.
  pose proof (ranking_loop_length
                (map (parse_sentiment float_of_string) spans)
                (map PyStr.strip (firstn 30 cells)) 0%nat) as H.
  rewrite length_map, length_firstn in H. lia.
Qed.

(* ================================================================= *)
(** ** Python strings *)

Lemma join_chars_length (n : nat) : forall s,
  (String.length s <= n)%nat -> PyStr.join (PyStr.chars s) = s.
Proof.
  induction n as [|n IH]; intros s Hn.
  - destruct s; [reflexivity | cbn in Hn; lia].
  - destruct s as [|c0 s1]; [reflexivity|]. cbn [PyStr.chars]. cbv zeta.
    repeat match goal with
    | |- context [if ?b then _ else _] => destruct b
    | |- context [match ?s with EmptyString => _ | String _ _ => _ end] =>
        is_var s; destruct s
    end; cbn [PyStr.join snd append]; try reflexivity;
    rewrite IH by (cbn [String.length] in *; lia); reflexivity.
Qed.

(** Decoding loses no byte: the characters of a string, put together
    again, are the string. *)
Lemma join_chars (s : string) : PyStr.join (PyStr.chars s) = s.
Proof. apply (join_chars_length (String.length s)). lia. Qed.

Lemma join_app (l1 l2 : list (Z * string)) :
  PyStr.join (l1 ++ l2) = append (PyStr.join l1) (PyStr.join l2).
Proof.
  induction l1 as [|c l1 IH]; cbn [PyStr.join app]; [reflexivity|].
  rewrite IH. induction (snd c); cbn; congruence.
Qed.

Lemma drop_spaces_suffix (l : list (Z * string)) :
  exists dropped,
    l = dropped ++ PyStr.drop_spaces l /\
    Forall (fun c => PyStr.is_space (fst c) = true) dropped.
Proof.
  induction l as [|c l IH]; cbn [PyStr.drop_spaces].
  - exists []. split; [reflexivity|constructor].
  - destruct (PyStr.is_space (fst c)) eqn:E.
    + destruct IH as (d & Hd & Hf). exists (c :: d). split.
      * cbn. congruence.
      * constructor; assumption.
    + exists []. split; [reflexivity|constructor].
Qed.

(** [strip] removes white space at the two ends and nothing else. *)
Lemma strip_part (s : string) :
  exists before after,
    s = append (PyStr.join before)
          (append (PyStr.strip s) (PyStr.join after)) /\
    Forall (fun c => PyStr.is_space (fst c) = true) before /\
    Forall (fun c => PyStr.is_space (fst c) = true) after.
Proof.
  destruct (drop_spaces_suffix (PyStr.chars s)) as (before & Hb & Fb).
  destruct (drop_spaces_suffix (rev (PyStr.drop_spaces (PyStr.chars s))))
    as (after & Ha & Fa).
  exists before, (rev after). split; [|split].
  - rewrite <- (join_chars s) at 1. rewrite Hb at 1.
    rewrite join_app. f_equal. unfold PyStr.strip.
    rewrite <- join_app.
    rewrite <- rev_app_distr, <- Ha, rev_involutive. reflexivity.
  - exact Fb.
  - apply Forall_rev, Fa.
Qed.

(** White space and digits outside ASCII: the no-break space is stripped,
    the superscript two is a digit for [isdigit], and the parser keeps GME
    alone of the three groups GME, 123 between no-break spaces, and the
    superscript two. *)
Lemma strip_isdigit_unicode :
  PyStr.strip (Example.nbsp ++ "123" ++ Example.nbsp) = "123"%string /\
  PyStr.strip " AMC " = "AMC"%string /\
  PyStr.isdigit Example.superscript_two = true /\
  PyStr.isdigit "123" = true /\
  PyStr.isdigit "" = false /\
  PyStr.isdigit "12a" = false /\
  PyStr.isdigit "-5" = false /\
  map item_ticker
    (parse_ranking Example.float_of_string Example.unicode_cells [])
  = ["GME"%string].
Proof. vm_compute. repeat split. Qed.
